(** * RRT cloud function: the alert relay, its block gate, sweeper and admin surface

    A shallow embedding of [functions/index.js] (the Express application with
    the Firestore helpers, the [/sos] handler, the admin endpoints and the
    scheduled sweeper) and the properties of its alert lifecycle.

    Conventions of the embedding.
    - Firestore collections are finite maps from document id to a record whose
      fields are optional, as a schemaless document has them.
    - A request handler is a computation over the [World] (the collections, the
      identity provider and a log of the external calls made), which either
      returns or throws; [try]/[catch] is [try_catch].
    - Everything the infrastructure decides (clock readings, storage faults,
      the push provider's answer, token verification) and everything that
      rests on the engine's Unicode tables (collation, the case mappings of
      [toUpperCase] and [toLowerCase]) is read from an [Env], over which
      every statement quantifies.
    - Strings are UTF-8 text, as sequences of bytes. White space is the whole
      class of [trim] and of the regex [\s], recognised in its encoding; the
      regex class [\w] is the ASCII one, as it is in JavaScript.
    - Handlers run one at a time: interleavings of concurrent requests are not
      part of the model. *)

From stdpp Require Import gmap strings list fin_maps pretty sorting.
From Stdlib Require Import ZArith Ascii String.

Open Scope string_scope.
Open Scope Z_scope.

(** ** JavaScript string primitives used by the handlers *)

Module Js.

Definition code (c : ascii) : nat := nat_of_ascii c.

Definition between (lo hi : nat) (c : ascii) : bool :=
  (Nat.leb lo (code c)) && (Nat.leb (code c) hi).

(** White space of [String.prototype.trim] and of the regex class [\s]:
    the WhiteSpace and LineTerminator code points of ECMAScript, by the
    length of their encoding. One byte: U+0009 to U+000D and U+0020. *)
Definition space1 (a : ascii) : bool :=
  between 9 13 a || Nat.eqb (code a) 32.

(** Two bytes: U+00A0 (C2 A0). *)
Definition space2 (a b : ascii) : bool :=
  Nat.eqb (code a) 194 && Nat.eqb (code b) 160.

(** Three bytes: U+1680 (E1 9A 80), U+2000 to U+200A (E2 80 80 to E2 80 8A),
    U+2028 and U+2029 (E2 80 A8, E2 80 A9), U+202F (E2 80 AF),
    U+205F (E2 81 9F), U+3000 (E3 80 80) and U+FEFF (EF BB BF). *)
Definition space3 (a b c : ascii) : bool :=
  (Nat.eqb (code a) 225 && Nat.eqb (code b) 154 && Nat.eqb (code c) 128)
  || (Nat.eqb (code a) 226 && Nat.eqb (code b) 128
      && (between 128 138 c || between 168 169 c || Nat.eqb (code c) 175))
  || (Nat.eqb (code a) 226 && Nat.eqb (code b) 129 && Nat.eqb (code c) 159)
  || (Nat.eqb (code a) 227 && Nat.eqb (code b) 128 && Nat.eqb (code c) 128)
  || (Nat.eqb (code a) 239 && Nat.eqb (code b) 187 && Nat.eqb (code c) 191).

(** The regex class [\w]. *)
Definition is_word (c : ascii) : bool :=
  between 97 122 c || between 65 90 c || between 48 57 c || Nat.eqb (code c) 95.

(** The case mappings of an ASCII character. *)
Definition upper (c : ascii) : ascii :=
  if between 97 122 c then ascii_of_nat (code c - 32) else c.

Definition lower (c : ascii) : ascii :=
  if between 65 90 c then ascii_of_nat (code c + 32) else c.

Fixpoint map_chars (f : ascii -> ascii) (s : string) : string :=
  match s with
  | EmptyString => EmptyString
  | String c r => String (f c) (map_chars f r)
  end.

Definition is_empty (s : string) : bool :=
  match s with EmptyString => true | _ => false end.

Fixpoint rev_onto (acc s : string) : string :=
  match s with
  | EmptyString => acc
  | String c r => rev_onto (String c acc) r
  end.

(** Dropping the white space at the head of [s]; with [backwards], [s] is
    read from its end, so that the bytes of a character come in reverse. *)
Fixpoint strip (backwards : bool) (s : string) : string :=
  match s with
  | String a r1 =>
      if space1 a then strip backwards r1
      else
        match r1 with
        | String b r2 =>
            if (if backwards then space2 b a else space2 a b) then strip backwards r2
            else
              match r2 with
              | String c r3 =>
                  if (if backwards then space3 c b a else space3 a b c)
                  then strip backwards r3
                  else s
              | EmptyString => s
              end
        | EmptyString => s
        end
  | EmptyString => EmptyString
  end.

Definition trimStart (s : string) : string := strip false s.

Definition trimEnd (s : string) : string :=
  rev_onto EmptyString (strip true (rev_onto EmptyString s)).

Definition trim (s : string) : string := trimEnd (trimStart s).

(** Whether a white space character starts at the head of [s], and whether
    one occurs in [s]. *)
Definition space_at (s : string) : bool :=
  match s with
  | String a r1 =>
      space1 a
      || match r1 with
         | String b r2 =>
             space2 a b
             || match r2 with
                | String c _ => space3 a b c
                | EmptyString => false
                end
         | EmptyString => false
         end
  | EmptyString => false
  end.

Fixpoint has_space (s : string) : bool :=
  space_at s
  || match s with
     | String _ r => has_space r
     | EmptyString => false
     end.

Fixpoint startsWith (p s : string) : bool :=
  match p, s with
  | EmptyString, _ => true
  | String a p', String b s' => if Ascii.eqb a b then startsWith p' s' else false
  | String _ _, EmptyString => false
  end.

Fixpoint includes (sub s : string) : bool :=
  startsWith sub s ||
  match s with
  | EmptyString => false
  | String _ r => includes sub r
  end.

(** [s.split(sep)] for a non-empty separator: [skip] counts the code units
    of a separator occurrence still to be passed over, [cur] is the current
    piece, reversed. *)
Fixpoint split_from (sep : string) (skip : nat) (cur s : string) : list string :=
  match s with
  | EmptyString => [rev_onto EmptyString cur]
  | String c r =>
      match skip with
      | S k => split_from sep k cur r
      | O =>
          if startsWith sep s
          then rev_onto EmptyString cur :: split_from sep (String.length sep - 1) EmptyString r
          else split_from sep O (String c cur) r
      end
  end.

Definition split (sep s : string) : list string := split_from sep O EmptyString s.

(** [arr.pop()] on a fresh array: its last element. *)
Definition pop (l : list string) : option string := last l.

(** [s.replace(/_/g, ' ')]. *)
Definition underscores_to_spaces : string -> string :=
  map_chars (fun c => if Nat.eqb (code c) 95 then " "%char else c).

(** [s.replace(/\b\w/g, l => l.toUpperCase())]: a word character that does
    not follow a word character is upper-cased; being of the class [\w] it
    is an ASCII character. *)
Fixpoint capitalize_from (after_word : bool) (s : string) : string :=
  match s with
  | EmptyString => EmptyString
  | String c r =>
      String (if is_word c && negb after_word then upper c else c)
             (capitalize_from (is_word c) r)
  end.

Definition capitalize_words : string -> string := capitalize_from false.

(** Truthiness of an optional string field: [undefined], [null] and the
    empty string are falsy. *)
Definition truthy (o : option string) : bool :=
  match o with
  | Some s => negb (is_empty s)
  | None => false
  end.

(** [a || b] on strings. *)
Definition or_else (o : option string) (d : string) : string :=
  match o with
  | Some s => if is_empty s then d else s
  | None => d
  end.

End Js.

(** ** Configuration constants *)

Definition ENABLE_SOS_ALERT_SNAPSHOT : bool := true.
Definition BLOCKED_USERS : bool := true.
Definition ALERT_EXPIRATION_THRESHOLD_MS : Z := 60 * 60 * 1000.

Definition SUPER_ADMINS : list string :=
  ["shamanthknr@gmail.com"; "karthik.dhanya11@gmail.com"].

(** ** Data model *)

(** JSON values of response bodies. [JDate ms] stands for the ISO-8601
    rendering of the instant [ms] ([toISOString]). *)
#[local] Unset Elimination Schemes.
Inductive Json : Type :=
| JNull
| JBool (b : bool)
| JNum (n : Z)
| JStr (s : string)
| JDate (ms : Z)
| JArr (items : list Json)
| JObj (fields : list (string * Json)).
#[local] Set Elimination Schemes.

(** The GPS object of a request, [{latitude, longitude, accuracy}]: a map from
    field name to number. The handlers carry the numbers and never compute
    with them. *)
Abbreviation Location := (gmap string Z).

(** [userInfo] of a [/sos] request body. *)
Record UserInfo : Type := mkUserInfo {
  ui_name : option string;
  ui_district : option string;
  ui_location : option string;
  ui_phone : option string;
  ui_mobile_number : option string;
  ui_message : option string
}.

(** Body of [POST /sos]. *)
Record SosBody : Type := mkSosBody {
  sender_id : option string;
  sos_type : option string;
  location : option Location;
  userInfo : option UserInfo;
  timestamp : option string
}.

(** [userInfo] as [storeSOSAlert] writes it. *)
Record StoredUserInfo : Type := mkStoredUserInfo {
  name : string;
  mobile_number : string;
  message : string
}.

(** A document of the [sos_alerts] collection, keyed by sender id. *)
Record AlertDoc : Type := mkAlertDoc {
  a_sender_id : option string;
  a_active : option bool;
  a_timestamp : option Z;
  a_location : option Location;
  a_userInfo : option StoredUserInfo;
  a_district : option string;
  a_state : option string;
  a_expiredAt : option Z;
  a_expiredBy : option string
}.

(** A document of the [blocked_users] collection, keyed by sender id. *)
Record BlockDoc : Type := mkBlockDoc {
  blocked : bool;
  blockedAt : Z;
  reason : string;
  blockedBy : string
}.

(** A document of the [admins] collection, keyed by email. *)
Record AdminDoc : Type := mkAdminDoc {
  role : string;
  assignedDistricts : option (list string);
  active : option bool;
  createdAt : Z;
  createdBy : option string;
  updatedAt : option Z;
  updatedBy : option string
}.

(** An account of the identity provider, keyed by email. *)
Record AuthUser : Type := mkAuthUser {
  uid : string;
  password : string;
  emailVerified : bool
}.

(** A decoded ID token. *)
Record DecodedToken : Type := mkDecodedToken {
  tok_uid : string;
  tok_email : option string;
  tok_superadmin : bool
}.

(** A push message handed to [admin.messaging().send]. The platform hints
    that are the same in every message (priority high, channel [sos_alerts],
    default sound, [apns-priority] 10) are left out. *)
Record Message : Type := mkMessage {
  topic : string;
  title : string;
  body : string;
  data_type : string;
  data_sender_id : string;
  data_district : string;
  data_location : option Location;
  data_timestamp : string;
  data_userInfo : option UserInfo;
  android_color : string;
  apns_badge : Z
}.

(** External calls with an effect, in the order they were made. *)
Inductive Event : Type :=
| EvSend (m : Message) (delivered : bool)
| EvAlertSet (id : string) (written : bool)
| EvBatchCommit (ids : list string) (committed : bool).

Record World : Type := mkWorld {
  sos_alerts : gmap string AlertDoc;
  blocked_users : gmap string BlockDoc;
  admins : gmap string AdminDoc;
  auth_users : gmap string AuthUser;
  auth_claims : gset string;
  calls : list Event
}.

(** ** Computations that may throw *)

Inductive Outcome (A : Type) : Type :=
| Ret (a : A)
| Throw (error_message : string).
Arguments Ret {A} a.
Arguments Throw {A} error_message.

Definition M (A : Type) : Type := World -> Outcome A * World.

#[global] Instance M_ret : MRet M := fun A a w => (Ret a, w).

#[global] Instance M_bind : MBind M := fun A B k m w =>
  match m w with
  | (Ret a, w') => k a w'
  | (Throw e, w') => (Throw e, w')
  end.

Definition throw {A : Type} (e : string) : M A := fun w => (Throw e, w).

Definition try_catch {A : Type} (m : M A) (handler : string -> M A) : M A :=
  fun w =>
    match m w with
    | (Ret a, w') => (Ret a, w')
    | (Throw e, w') => handler e w'
    end.

Definition get_world : M World := fun w => (Ret w, w).
Definition set_world (w' : World) : M unit := fun _ => (Ret tt, w').

(** What the infrastructure decides. A fault is [Some msg]: the call rejects
    with an error whose message is [msg]. *)
Record Env : Type := mkEnv {
  now : Z;
  server_time : Z;
  blocked_get_fault : option string;
  blocked_query_fault : option string;
  alert_set_fault : option string;
  alerts_query_fault : option string;
  batch_commit_fault : option string;
  admins_get_fault : option string;
  admins_write_fault : option string;
  fcm_send : Message -> Outcome string;
  verifyIdToken : string -> option DecodedToken;
  setClaims_fault : option string;
  createUser_fault : option string;
  fresh_uid : string;
  deleteUser_fault : option string;
  localeCompare : string -> string -> comparison;
  toUpperCase : string -> string;
  toLowerCase : string -> string
}.

Definition infra (fault : option string) : M unit :=
  match fault with
  | Some e => throw e
  | None => mret tt
  end.

(** An HTTP response: status and JSON body. *)
Record Response : Type := mkResponse {
  status : Z;
  json : Json
}.

Definition respond (st : Z) (fields : list (string * Json)) : Response :=
  mkResponse st (JObj fields).

(** ** World updates *)

Definition with_sos_alerts (w : World) (m : gmap string AlertDoc) : World :=
  mkWorld m (blocked_users w) (admins w) (auth_users w) (auth_claims w) (calls w).

Definition with_admins (w : World) (m : gmap string AdminDoc) : World :=
  mkWorld (sos_alerts w) (blocked_users w) m (auth_users w) (auth_claims w) (calls w).

Definition with_auth_users (w : World) (m : gmap string AuthUser) : World :=
  mkWorld (sos_alerts w) (blocked_users w) (admins w) m (auth_claims w) (calls w).

Definition with_auth_claims (w : World) (s : gset string) : World :=
  mkWorld (sos_alerts w) (blocked_users w) (admins w) (auth_users w) s (calls w).

Definition logged (w : World) (e : Event) : World :=
  mkWorld (sos_alerts w) (blocked_users w) (admins w) (auth_users w)
          (auth_claims w) (calls w ++ [e]).

(** ** Database operations *)

(** [isSenderBlocked]: one document read of [blocked_users]; a failed read is
    caught and answered with [false]. *)
Definition isSenderBlocked (env : Env) (sender_id : string) : M bool :=
  if negb BLOCKED_USERS then mret false
  else
    try_catch
      (_ ← infra (blocked_get_fault env);
       w ← get_world;
       mret (match blocked_users w !! sender_id with
             | Some blockedDoc => blocked blockedDoc
             | None => false
             end))
      (fun _ => mret false).

(** [set(data, {merge: true})] on one field: a field of [data] replaces the
    stored one, a field absent from [data] leaves it. *)
Definition merge_field {A : Type} (new old : option A) : option A :=
  match new with
  | Some x => Some x
  | None => old
  end.

(** A map-valued field is merged key by key; an empty map replaces. *)
Definition merge_location (new old : option Location) : option Location :=
  match new, old with
  | Some n, Some o => Some (if decide (n = ∅) then n else n ∪ o)
  | Some n, None => Some n
  | None, _ => old
  end.

Definition empty_alert : AlertDoc :=
  mkAlertDoc None None None None None None None None None.

Definition merge_alert (data : AlertDoc) (existing : option AlertDoc) : AlertDoc :=
  let old := default empty_alert existing in
  mkAlertDoc
    (merge_field (a_sender_id data) (a_sender_id old))
    (merge_field (a_active data) (a_active old))
    (merge_field (a_timestamp data) (a_timestamp old))
    (merge_location (a_location data) (a_location old))
    (merge_field (a_userInfo data) (a_userInfo old))
    (merge_field (a_district data) (a_district old))
    (merge_field (a_state data) (a_state old))
    (merge_field (a_expiredAt data) (a_expiredAt old))
    (merge_field (a_expiredBy data) (a_expiredBy old)).

(** [collection('sos_alerts').doc(id).set(data, {merge: true})]. *)
Definition alert_set_merge (env : Env) (id : string) (data : AlertDoc) : M unit :=
  fun w =>
    match alert_set_fault env with
    | Some e => (Throw e, logged w (EvAlertSet id false))
    | None =>
        (Ret tt,
         logged (with_sos_alerts w (<[id := merge_alert data (sos_alerts w !! id)]> (sos_alerts w)))
                (EvAlertSet id true))
    end.

Definition stored_userInfo (u : UserInfo) : StoredUserInfo :=
  mkStoredUserInfo
    (Js.or_else (ui_name u) "Unknown")
    (Js.or_else (ui_phone u) (Js.or_else (ui_mobile_number u) "N/A"))
    (Js.or_else (ui_message u) "").

Definition when_truthy (o : option string) : option string :=
  if Js.truthy o then o else None.

(** The object [alertData] that [storeSOSAlert] builds: the payload fields
    are set only for an active alert, and only when they are truthy. *)
Definition alertData (env : Env) (sender_id : string) (active : bool)
    (location : option Location) (userInfo : option UserInfo)
    (district state : option string) : AlertDoc :=
  mkAlertDoc (Some sender_id) (Some active) (Some (server_time env))
    (if active then location else None)
    (if active then stored_userInfo <$> userInfo else None)
    (if active then when_truthy district else None)
    (if active then when_truthy state else None)
    None None.

(** [storeSOSAlert(sender_id, active, location, userInfo, district, state)]. *)
Definition storeSOSAlert (env : Env) (sender_id : string) (active : bool)
    (location : option Location) (userInfo : option UserInfo)
    (district state : option string) : M bool :=
  if negb ENABLE_SOS_ALERT_SNAPSHOT then mret false
  else
    try_catch
      (_ ← alert_set_merge env sender_id
             (alertData env sender_id active location userInfo district state);
       mret true)
      (fun _ => mret false).

(** An entry of the sweeper's report. *)
Record ExpiredAlert : Type := mkExpiredAlert {
  ex_sender_id : string;
  ex_district : option string;
  age_minutes : Z
}.

Record SweepResult : Type := mkSweepResult {
  expired : nat;
  checked : nat;
  enabled : bool;
  expiredAlerts : list ExpiredAlert
}.

(** [collection('sos_alerts').where('active', '==', true).get()]. *)
Definition query_active_alerts (env : Env) : M (list (string * AlertDoc)) :=
  _ ← infra (alerts_query_fault env);
  w ← get_world;
  mret (map_to_list (filter (fun kv => a_active kv.2 = Some true) (sos_alerts w))).

(** The fields one [batch.update] of the sweeper writes. *)
Definition expire_update (env : Env) (d : AlertDoc) : AlertDoc :=
  mkAlertDoc (a_sender_id d) (Some false) (a_timestamp d) (a_location d)
    (a_userInfo d) (a_district d) (a_state d)
    (Some (server_time env)) (Some "scheduled_job").

(** [batch.commit()] of updates to the documents [ids]: all or nothing; an
    update of a document that does not exist rejects the batch. *)
Definition batch_commit (env : Env) (ids : list string) : M unit :=
  fun w =>
    match batch_commit_fault env with
    | Some e => (Throw e, logged w (EvBatchCommit ids false))
    | None =>
        if forallb (fun id => bool_decide (is_Some (sos_alerts w !! id))) ids
        then (Ret tt,
              logged (with_sos_alerts w
                        (foldr (fun id m => alter (expire_update env) id m) (sos_alerts w) ids))
                     (EvBatchCommit ids true))
        else (Throw "NOT_FOUND", logged w (EvBatchCommit ids false))
    end.

(** The test of the sweeper's loop body. *)
Definition older_than (thresholdTime : Z) (d : AlertDoc) : bool :=
  match a_timestamp d with
  | Some t => t <? thresholdTime
  | None => false
  end.

(** [expireOldAlerts]. *)
Definition expireOldAlerts (env : Env) : M SweepResult :=
  if negb ENABLE_SOS_ALERT_SNAPSHOT then mret (mkSweepResult 0 0 false [])
  else
    try_catch
      (let thresholdTime := now env - ALERT_EXPIRATION_THRESHOLD_MS in
       snapshot ← query_active_alerts env;
       let due := filter (fun kv => older_than thresholdTime kv.2 = true) snapshot in
       let expiredAlerts :=
         (fun kv => mkExpiredAlert kv.1 (a_district kv.2)
                      ((now env - default 0 (a_timestamp kv.2)) / 60000)) <$> due in
       _ ← (if (0 <? List.length expiredAlerts)%nat
            then batch_commit env (due.*1)
            else mret tt);
       mret (mkSweepResult (List.length expiredAlerts) (List.length snapshot) true expiredAlerts))
      (fun e => throw e).

(** The scheduled function around the sweeper. *)
Definition expireOldAlertsScheduled (env : Env) : M SweepResult :=
  try_catch (expireOldAlerts env) (fun e => throw e).

(** ** The push provider *)

(** [admin.messaging().send(message)]. *)
Definition messaging_send (env : Env) (m : Message) : M string :=
  fun w =>
    match fcm_send env m with
    | Ret messageId => (Ret messageId, logged w (EvSend m true))
    | Throw e => (Throw e, logged w (EvSend m false))
    end.

(** ** [POST /sos] *)

Definition dquote : string := String (ascii_of_nat 34) EmptyString.

Definition missing_fields : Response :=
  respond 400 [("error", JStr "Missing required fields");
               ("required", JArr [JStr "sender_id"; JStr "sos_type"; JStr "location"])].

Definition access_denied : Response :=
  respond 403 [("error", JStr "Access denied");
               ("message", JStr "Your account has been restricted from using this service")].

Definition invalid_sos_type : Response :=
  respond 400 [("error", JStr "Invalid sos_type");
               ("message", JStr ("sos_type must be either " +:+ dquote +:+ "sos_alert" +:+ dquote
                                 +:+ " or " +:+ dquote +:+ "stop" +:+ dquote))].

Definition missing_district (what : string) : Response :=
  respond 400 [("error", JStr "Missing district in userInfo");
               ("message", JStr ("district is required for " +:+ what))].

(** [userInfo?.district] and the like. *)
Definition ui_field (f : UserInfo -> option string) (userInfo : option UserInfo) : option string :=
  userInfo ≫= f.

(** [userInfo?.location || district.replace(/_/g, ' ').replace(/\b\w/g, ...)]. *)
Definition userLocation_of (userInfo : option UserInfo) (district : string) : string :=
  Js.or_else (ui_field ui_location userInfo)
             (Js.capitalize_words (Js.underscores_to_spaces district)).

(** [userLocation.split(',').pop().trim().toUpperCase()]. *)
Definition state_of (env : Env) (userLocation : string) : string :=
  toUpperCase env (Js.trim (default "" (Js.pop (Js.split "," userLocation)))).

Definition stopMessage (env : Env) (sender_id district : string)
    (userInfo : option UserInfo) (timestamp : option string) : Message :=
  let userName := Js.or_else (ui_field ui_name userInfo) "Someone" in
  let userLocation := userLocation_of userInfo district in
  mkMessage ("district-" +:+ district)
    "✅ Emergency Resolved"
    ("All good now. " +:+ userName +:+ " • " +:+ userLocation)
    "sos_resolved" sender_id district None
    (Js.or_else timestamp (pretty (now env)))
    None "#00FF00" 0.

Definition alertMessage (env : Env) (sender_id district : string)
    (location : option Location) (userInfo : option UserInfo)
    (timestamp : option string) : Message :=
  let userName := Js.or_else (ui_field ui_name userInfo) "Someone" in
  let userLocation := userLocation_of userInfo district in
  mkMessage ("district-" +:+ district)
    "🚨 Emergency Alert"
    ("Help needed. " +:+ userName +:+ " • " +:+ userLocation)
    "sos_alert" sender_id district location
    (Js.or_else timestamp (pretty (now env)))
    (Some (default (mkUserInfo None None None None None None) userInfo))
    "#FF0000" 1.

(** The dispatch on [sos_type], reached once the block gate is passed. *)
Definition post_sos_dispatch (env : Env) (req : SosBody) : M Response :=
  let sid := default "" (sender_id req) in
  let ty := default "" (sos_type req) in
  if negb (bool_decide (ty ∈ ["sos_alert"; "stop"])) then mret invalid_sos_type
  else if bool_decide (ty = "stop") then
    let district := ui_field ui_district (userInfo req) in
    if negb (Js.truthy district) then mret (missing_district "stop notification")
    else
      let district := default "" district in
      stopResponse ← messaging_send env
        (stopMessage env sid district (userInfo req) (timestamp req));
      _ ← storeSOSAlert env sid false None None None None;
      mret (respond 200
              [("success", JBool true);
               ("message", JStr "SOS alert stopped successfully");
               ("messageId", JStr stopResponse);
               ("senderId", JStr sid);
               ("district", JStr district);
               ("timestamp", JDate (now env))])
  else if bool_decide (ty = "sos_alert") then
    let district := ui_field ui_district (userInfo req) in
    if negb (Js.truthy district) then mret (missing_district "SOS alert")
    else
      let district := default "" district in
      let userLocation := userLocation_of (userInfo req) district in
      let state := state_of env userLocation in
      response ← messaging_send env
        (alertMessage env sid district (location req) (userInfo req) (timestamp req));
      _ ← storeSOSAlert env sid true (location req) (userInfo req)
            (Some district) (Some state);
      mret (respond 200
              [("success", JBool true);
               ("message", JStr "SOS alert sent successfully");
               ("messageId", JStr response);
               ("topic", JStr ("district-" +:+ district));
               ("senderId", JStr sid);
               ("district", JStr district);
               ("timestamp", JDate (now env))])
  else mret invalid_sos_type.

(** The [try] block of the handler of [app.post('/sos', ...)]: the field
    check, the block gate, then the dispatch. *)
Definition post_sos_try (env : Env) (req : SosBody) : M Response :=
  if negb (Js.truthy (sender_id req)) || negb (Js.truthy (sos_type req))
     || negb (bool_decide (is_Some (location req)))
  then mret missing_fields
  else
    isBlocked ← isSenderBlocked env (default "" (sender_id req));
    if isBlocked : bool then mret access_denied
    else post_sos_dispatch env req.

(** [app.post('/sos', ...)]: anything thrown inside becomes a 500. *)
Definition post_sos (env : Env) (req : SosBody) : M Response :=
  try_catch (post_sos_try env req)
    (fun e => mret (respond 500
                      [("error", JStr "Failed to send SOS alert");
                       ("message", JStr e);
                       ("timestamp", JDate (now env))])).

(** ** Authentication middleware *)

(** [req.user]. *)
Record User : Type := mkUser {
  user_uid : string;
  user_email : option string
}.

(** [isSuperAdmin(email)]: [SUPER_ADMINS.includes(email)]. *)
Definition isSuperAdmin (email : option string) : bool :=
  match email with
  | Some e => bool_decide (e ∈ SUPER_ADMINS)
  | None => false
  end.

Definition unauthorized (msg : string) : Response :=
  respond 401 [("error", JStr "Unauthorized"); ("message", JStr msg)].

(** [admin.auth().setCustomUserClaims(uid, {superadmin: true})]. *)
Definition setSuperadminClaim (env : Env) (uid : string) : M unit :=
  _ ← infra (setClaims_fault env);
  w ← get_world;
  set_world (with_auth_claims w ({[uid]} ∪ auth_claims w)).

(** [admin.auth().verifyIdToken(idToken)]. *)
Definition auth_verifyIdToken (env : Env) (idToken : string) : M DecodedToken :=
  match verifyIdToken env idToken with
  | Some t => mret t
  | None => throw "Decoding Firebase ID token failed"
  end.

(** [authenticateUser(req, res, next)]; [next] is the rest of the route. *)
Definition authenticateUser (env : Env) (authorization : option string)
    (next : User -> M Response) : M Response :=
  r ← try_catch
        (if negb (Js.truthy authorization)
            || negb (Js.startsWith "Bearer " (default "" authorization))
         then mret (inr (unauthorized "Missing or invalid authorization header"))
         else
           let idToken := nth 1 (Js.split "Bearer " (default "" authorization)) "" in
           decodedToken ← auth_verifyIdToken env idToken;
           _ ← (if isSuperAdmin (tok_email decodedToken) && negb (tok_superadmin decodedToken)
                then setSuperadminClaim env (tok_uid decodedToken)
                else mret tt);
           mret (inl (mkUser (tok_uid decodedToken) (tok_email decodedToken))))
        (fun _ => mret (inr (unauthorized "Invalid or expired token")));
  match r with
  | inl user => next user
  | inr response => mret response
  end.

(** [requireSuperAdmin(req, res, next)]. *)
Definition requireSuperAdmin (user : option User) (next : User -> M Response) : M Response :=
  match user with
  | None => mret (unauthorized "Authentication required")
  | Some u =>
      if negb (isSuperAdmin (user_email u))
      then mret (respond 403 [("error", JStr "Forbidden");
                              ("message", JStr "Super admin access required")])
      else next u
  end.

(** [getAdmin(email)]: one document read of [admins]. A document path that
    is not a non-empty string is refused by the client library. *)
Definition getAdmin (env : Env) (email : option string) : M (option AdminDoc) :=
  if negb (Js.truthy email) then throw "Value for argument documentPath is not a valid resource path"
  else
    _ ← infra (admins_get_fault env);
    w ← get_world;
    mret (admins w !! default "" email).

(** ** Admin management endpoints *)

Record CreateAdminBody : Type := mkCreateAdminBody {
  ca_email : option string;
  ca_password : option string;
  ca_assignedDistricts : option (list string)
}.

Record UpdateAdminBody : Type := mkUpdateAdminBody {
  ua_assignedDistricts : option (list string);
  ua_active : option bool
}.

(** [/^[^\s@]+@[^\s@]+\.[^\s@]+$/.test(email)]: no white space, one [@] with
    something before it, and after it a dot that is neither first nor last. *)
Fixpoint has_inner_dot (seen : bool) (s : string) : bool :=
  match s with
  | EmptyString => false
  | String c r =>
      (seen && Nat.eqb (Js.code c) 46 && negb (Js.is_empty r)) || has_inner_dot true r
  end.

Definition emailRegex_test (email : string) : bool :=
  negb (Js.has_space email) &&
  match Js.split "@" email with
  | [loc; dom] => negb (Js.is_empty loc) && has_inner_dot false dom
  | _ => false
  end.

(** [admin.auth().createUser({email, password, emailVerified: true})]. *)
Definition auth_createUser (env : Env) (email password : string) : M string :=
  fun w =>
    match createUser_fault env with
    | Some e => (Throw e, w)
    | None =>
        match auth_users w !! email with
        | Some _ => (Throw "The email address is already in use by another account.", w)
        | None =>
            (Ret (fresh_uid env),
             with_auth_users w (<[email := mkAuthUser (fresh_uid env) password true]> (auth_users w)))
        end
    end.

(** [getUserByEmail(email)] followed by [deleteUser(uid)]. *)
Definition auth_deleteByEmail (env : Env) (email : string) : M unit :=
  fun w =>
    match deleteUser_fault env with
    | Some e => (Throw e, w)
    | None =>
        match auth_users w !! email with
        | Some _ => (Ret tt, with_auth_users w (delete email (auth_users w)))
        | None => (Throw "There is no user record corresponding to the provided identifier.", w)
        end
    end.

(** A write to [collection('admins').doc(email)]: [set], [update] or [delete]. *)
Definition admins_write (env : Env) (f : gmap string AdminDoc -> gmap string AdminDoc) : M unit :=
  _ ← infra (admins_write_fault env);
  w ← get_world;
  set_world (with_admins w (f (admins w))).

Definition districts_json (l : list string) : Json := JArr (JStr <$> l).

Definition server_error (what e : string) : Response :=
  respond 500 [("error", JStr what); ("message", JStr e)].

(** [app.post('/admin/admins', authenticateUser, requireSuperAdmin, ...)]. *)
Definition create_admin_handler (env : Env) (req : CreateAdminBody) (user : User) : M Response :=
  try_catch
    (if negb (Js.truthy (ca_email req)) || negb (Js.truthy (ca_password req))
     then mret (respond 400 [("error", JStr "Missing required fields");
                             ("required", JArr [JStr "email"; JStr "password"])])
     else
       let email := default "" (ca_email req) in
       let password := default "" (ca_password req) in
       if negb (emailRegex_test email)
       then mret (respond 400 [("error", JStr "Invalid email format")])
       else if isSuperAdmin (Some email)
       then mret (respond 400 [("error", JStr "Cannot create admin account");
                               ("message", JStr "This email is reserved for super admin")])
       else
         existingAdmin ← getAdmin env (Some email);
         if bool_decide (is_Some existingAdmin)
         then mret (respond 409 [("error", JStr "Admin already exists");
                                 ("message", JStr ("Admin with email " +:+ email +:+ " already exists"))])
         else
           created ← try_catch (userRecord ← auth_createUser env email password;
                                mret (inl userRecord))
                       (fun authError => mret (inr authError));
           match created with
           | inr authError =>
               mret (respond 400 [("error", JStr "Failed to create user account");
                                  ("message", JStr authError)])
           | inl new_uid =>
               match user_email user with
               | None => throw "Cannot use undefined as a Firestore value"
               | Some creator =>
                   let districts := default [] (ca_assignedDistricts req) in
                   let adminData :=
                     mkAdminDoc "admin" (Some districts) (Some true)
                                (server_time env) (Some creator) None None in
                   _ ← admins_write env (fun m => <[email := adminData]> m);
                   mret (respond 200
                           [("success", JBool true);
                            ("message", JStr "Admin created successfully");
                            ("admin", JObj [("email", JStr email);
                                            ("uid", JStr new_uid);
                                            ("role", JStr "admin");
                                            ("assignedDistricts", districts_json districts);
                                            ("active", JBool true);
                                            ("createdAt", JDate (now env));
                                            ("createdBy", JStr creator)]);
                            ("timestamp", JDate (now env))])
               end
           end)
    (fun e => mret (server_error "Failed to create admin" e)).

Definition post_admin_admins (env : Env) (authorization : option string)
    (req : CreateAdminBody) : M Response :=
  authenticateUser env authorization (fun u =>
    requireSuperAdmin (Some u) (create_admin_handler env req)).

Definition opt_entry (key : string) (v : option Json) : list (string * Json) :=
  match v with
  | Some j => [(key, j)]
  | None => []
  end.

(** The fields of [updateData] applied to a stored admin document. *)
Definition apply_update (env : Env) (by_email : option string) (req : UpdateAdminBody)
    (d : AdminDoc) : AdminDoc :=
  mkAdminDoc (role d)
    (match ua_assignedDistricts req with Some l => Some l | None => assignedDistricts d end)
    (match ua_active req with Some b => Some b | None => active d end)
    (createdAt d) (createdBy d) (Some (server_time env)) by_email.

(** [app.put('/admin/admins/:email', authenticateUser, requireSuperAdmin, ...)]. *)
Definition update_admin_handler (env : Env) (email : string) (req : UpdateAdminBody)
    (user : User) : M Response :=
  try_catch
    (if isSuperAdmin (Some email)
     then mret (respond 400 [("error", JStr "Cannot update super admin");
                             ("message", JStr "Super admin accounts cannot be modified")])
     else
       existingAdmin ← getAdmin env (Some email);
       if negb (bool_decide (is_Some existingAdmin))
       then mret (respond 404 [("error", JStr "Admin not found");
                               ("message", JStr ("Admin with email " +:+ email +:+ " does not exist"))])
       else
         _ ← admins_write env (alter (apply_update env (user_email user) req) email);
         mret (respond 200
                 [("success", JBool true);
                  ("message", JStr "Admin updated successfully");
                  ("email", JStr email);
                  ("updates", JObj (opt_entry "updatedBy" (JStr <$> user_email user)
                                    ++ opt_entry "assignedDistricts"
                                         (districts_json <$> ua_assignedDistricts req)
                                    ++ opt_entry "active" (JBool <$> ua_active req)));
                  ("timestamp", JDate (now env))]))
    (fun e => mret (server_error "Failed to update admin" e)).

Definition put_admin_admins (env : Env) (authorization : option string)
    (email : string) (req : UpdateAdminBody) : M Response :=
  authenticateUser env authorization (fun u =>
    requireSuperAdmin (Some u) (update_admin_handler env email req)).

(** [app.delete('/admin/admins/:email', authenticateUser, requireSuperAdmin, ...)]. *)
Definition delete_admin_handler (env : Env) (email : string) (user : User) : M Response :=
  try_catch
    (if isSuperAdmin (Some email)
     then mret (respond 400 [("error", JStr "Cannot delete super admin");
                             ("message", JStr "Super admin accounts cannot be deleted")])
     else
       existingAdmin ← getAdmin env (Some email);
       if negb (bool_decide (is_Some existingAdmin))
       then mret (respond 404 [("error", JStr "Admin not found");
                               ("message", JStr ("Admin with email " +:+ email +:+ " does not exist"))])
       else
         _ ← try_catch (auth_deleteByEmail env email) (fun _ => mret tt);
         _ ← admins_write env (delete email);
         mret (respond 200
                 [("success", JBool true);
                  ("message", JStr "Admin deleted successfully");
                  ("email", JStr email);
                  ("timestamp", JDate (now env))]))
    (fun e => mret (server_error "Failed to delete admin" e)).

Definition delete_admin_admins (env : Env) (authorization : option string)
    (email : string) : M Response :=
  authenticateUser env authorization (fun u =>
    requireSuperAdmin (Some u) (delete_admin_handler env email)).

(** ** [GET /admin/users] *)

(** Query string, after [parseInt]: [None] is [NaN]. *)
Record UsersQuery : Type := mkUsersQuery {
  q_page : option Z;
  q_pageSize : option Z;
  q_search : option string
}.

(** A row of the listing. [u_block] is the merged block record
    ([blockedAt], [blockedBy], [reason]) of a blocked sender. *)
Record UserRow : Type := mkUserRow {
  u_sender_id : string;
  u_name : string;
  u_mobile_number : string;
  u_state : string;
  u_district : string;
  u_block : option (Z * string * string)
}.

(** [parseInt(x) || d]. *)
Definition int_or (x : option Z) (d : Z) : Z :=
  match x with
  | Some n => if n =? 0 then d else n
  | None => d
  end.

(** The filter [where('district', 'in', allowed)]. *)
Definition district_in (allowedDistricts : list string) (d : AlertDoc) : bool :=
  match a_district d with
  | Some x => bool_decide (x ∈ allowedDistricts)
  | None => false
  end.

(** [collection('sos_alerts')], with [where('district', 'in', allowed)] when
    [restrict] holds, then [get()]. *)
Definition query_alerts_in (env : Env) (restrict : bool) (allowedDistricts : list string)
  : M (list (string * AlertDoc)) :=
  _ ← infra (alerts_query_fault env);
  w ← get_world;
  mret (if restrict
        then map_to_list
               (filter (fun kv => district_in allowedDistricts kv.2 = true)
                       (sos_alerts w))
        else map_to_list (sos_alerts w)).

(** [collection('blocked_users').where('blocked', '==', true).get()]. *)
Definition query_blocked (env : Env) : M (gmap string BlockDoc) :=
  _ ← infra (blocked_query_fault env);
  w ← get_world;
  mret (filter (fun kv => blocked kv.2 = true) (blocked_users w)).

(** The loop that fills [userMap]: one row for each document that has a
    name or a mobile number. *)
Definition user_rows (snapshot : list (string * AlertDoc)) : list UserRow :=
  omap (fun kv =>
          let stored := a_userInfo kv.2 in
          let nm := name <$> stored in
          let mob := mobile_number <$> stored in
          if Js.truthy nm || Js.truthy mob
          then Some (mkUserRow kv.1 (Js.or_else nm "Unknown") (Js.or_else mob "N/A")
                               (Js.or_else (a_state kv.2) "Unknown")
                               (Js.or_else (a_district kv.2) "Unknown") None)
          else None)
       snapshot.

(** Merging [blockedMap] into [userMap]. *)
Definition merge_blocked (blockedMap : gmap string BlockDoc) (u : UserRow) : UserRow :=
  match blockedMap !! u_sender_id u with
  | Some b =>
      mkUserRow (u_sender_id u) (u_name u) (u_mobile_number u) (u_state u) (u_district u)
                (Some (blockedAt b, blockedBy b, reason b))
  | None => u
  end.

Definition matches_search (env : Env) (searchLower : string) (u : UserRow) : bool :=
  Js.includes searchLower (toLowerCase env (u_name u))
  || Js.includes searchLower (toLowerCase env (u_mobile_number u))
  || Js.includes searchLower (toLowerCase env (u_state u))
  || Js.includes searchLower (toLowerCase env (u_district u)).

(** [users.sort((a, b) => a.name.localeCompare(b.name))], a stable sort. *)
Fixpoint insert_by_name (cmp : string -> string -> comparison) (x : UserRow)
    (l : list UserRow) : list UserRow :=
  match l with
  | [] => [x]
  | y :: r =>
      match cmp (u_name x) (u_name y) with
      | Gt => y :: insert_by_name cmp x r
      | _ => x :: l
      end
  end.

Definition sort_by_name (cmp : string -> string -> comparison) (l : list UserRow) : list UserRow :=
  foldr (insert_by_name cmp) [] l.

(** [arr.slice(start, end)]. *)
Definition slice {A : Type} (l : list A) (start stop : Z) : list A :=
  let len := Z.of_nat (List.length l) in
  let clamp i := if i <? 0 then Z.max (len + i) 0 else Z.min i len in
  let k := clamp start in
  let final := clamp stop in
  take (Z.to_nat (Z.max (final - k) 0)) (drop (Z.to_nat k) l).

(** [Math.ceil(a / b)] on integers, [b] not zero. *)
Definition ceil_div (a b : Z) : Z := - ((- a) / b).

Definition user_json (u : UserRow) : Json :=
  JObj ([("sender_id", JStr (u_sender_id u));
         ("name", JStr (u_name u));
         ("mobile_number", JStr (u_mobile_number u));
         ("state", JStr (u_state u));
         ("district", JStr (u_district u))]
        ++ match u_block u with
           | Some (at_, by_, why) =>
               [("blocked", JBool true); ("blockedAt", JDate at_);
                ("blockedBy", JStr by_); ("reason", JStr why)]
           | None => [("blocked", JBool false)]
           end).

Definition inactive_admin : Response :=
  respond 403 [("error", JStr "Forbidden");
               ("message", JStr "Admin account is inactive or not found")].

(** The part of the handler after the permission check. *)
Definition list_users (env : Env) (q : UsersQuery) (isSuperAdminUser : bool)
    (allowedDistricts : list string) : M Response :=
  let page := int_or (q_page q) 1 in
  let pageSize := int_or (q_pageSize q) 50 in
  snapshot ← query_alerts_in env
               (negb isSuperAdminUser && (0 <? List.length allowedDistricts)%nat)
               allowedDistricts;
  blockedMap ← query_blocked env;
  let users := merge_blocked blockedMap <$> user_rows snapshot in
  let users := if Js.truthy (q_search q)
               then List.filter (matches_search env (toLowerCase env (default "" (q_search q)))) users
               else users in
  let users := sort_by_name (localeCompare env) users in
  let total := Z.of_nat (List.length users) in
  let startIndex := (page - 1) * pageSize in
  let paginatedUsers := slice users startIndex (startIndex + pageSize) in
  mret (respond 200
          [("success", JBool true);
           ("users", JArr (user_json <$> paginatedUsers));
           ("total", JNum total);
           ("page", JNum page);
           ("pageSize", JNum pageSize);
           ("totalPages", JNum (ceil_div total pageSize));
           ("timestamp", JDate (now env))]).

(** The handler of [app.get('/admin/users', authenticateUser, ...)]. *)
Definition users_handler (env : Env) (q : UsersQuery) (user : User) : M Response :=
  try_catch
    (let isSuperAdminUser := isSuperAdmin (user_email user) in
     if negb isSuperAdminUser
     then
       adminDoc ← getAdmin env (user_email user);
       match adminDoc with
       | Some doc =>
           if negb (bool_decide (active doc = Some true)) then mret inactive_admin
           else list_users env q isSuperAdminUser (default [] (assignedDistricts doc))
       | None => mret inactive_admin
       end
     else list_users env q isSuperAdminUser [])
    (fun e => mret (server_error "Failed to retrieve users" e)).

Definition get_admin_users (env : Env) (authorization : option string)
    (q : UsersQuery) : M Response :=
  authenticateUser env authorization (users_handler env q).


(** ** Block-list management and the listings *)

(** The faults of the storage calls that only the admin endpoints below
    make, beside those of [Env]. *)
Record Backend : Type := mkBackend {
  core :> Env;
  blocked_write_fault : option string;
  admins_query_fault : option string
}.

Definition with_blocked_users (w : World) (m : gmap string BlockDoc) : World :=
  mkWorld (sos_alerts w) m (admins w) (auth_users w) (auth_claims w) (calls w).

(** [blockUser(sender_id, reason, blocked_by)]: the record replaces whatever
    was stored for the sender. *)
Definition blockUser (be : Backend) (sender_id : string)
    (reason blocked_by : option string) : M BlockDoc :=
  let blockData :=
    mkBlockDoc true (server_time be)
               (Js.or_else reason "No reason provided")
               (Js.or_else blocked_by "admin") in
  _ ← infra (blocked_write_fault be);
  w ← get_world;
  _ ← set_world (with_blocked_users w (<[sender_id := blockData]> (blocked_users w)));
  mret blockData.

(** [unblockUser(sender_id)]. *)
Definition unblockUser (be : Backend) (sender_id : string) : M unit :=
  _ ← infra (blocked_write_fault be);
  w ← get_world;
  set_world (with_blocked_users w (delete sender_id (blocked_users w))).

(** [getBlockedUser(sender_id)]. *)
Definition getBlockedUser (be : Backend) (sender_id : string) : M (option BlockDoc) :=
  _ ← infra (blocked_get_fault be);
  w ← get_world;
  mret (blocked_users w !! sender_id).

Record BlockBody : Type := mkBlockBody {
  bb_sender_id : option string;
  bb_reason : option string
}.

(** A Firestore timestamp as [res.json] renders it. *)
Definition timestamp_json (ms : Z) : Json :=
  JObj [("_seconds", JNum (ms / 1000)); ("_nanoseconds", JNum ((ms mod 1000) * 1000000))].

Definition missing_sender_id : Response :=
  respond 400 [("error", JStr "Missing required field");
               ("required", JArr [JStr "sender_id"])].

(** The handler of [app.post('/admin/block-user', authenticateUser, ...)]. *)
Definition block_user_handler (be : Backend) (req : BlockBody) (user : User) : M Response :=
  try_catch
    (if negb (Js.truthy (bb_sender_id req)) then mret missing_sender_id
     else
       let sid := default "" (bb_sender_id req) in
       existingUser ← getBlockedUser be sid;
       if bool_decide (blocked <$> existingUser = Some true)
       then mret (respond 409
                    ([("error", JStr "User already blocked");
                      ("message", JStr ("User " +:+ sid +:+ " is already in the blocked list"))]
                     ++ opt_entry "blockedAt" (timestamp_json <$> (blockedAt <$> existingUser))
                     ++ opt_entry "reason" (JStr <$> (reason <$> existingUser))))
       else
         _ ← blockUser be sid (bb_reason req) (user_email user);
         mret (respond 200
                 [("success", JBool true);
                  ("message", JStr "User blocked successfully");
                  ("sender_id", JStr sid);
                  ("timestamp", JDate (now be))]))
    (fun e => mret (server_error "Failed to block user" e)).

Definition post_admin_block_user (be : Backend) (authorization : option string)
    (req : BlockBody) : M Response :=
  authenticateUser be authorization (block_user_handler be req).

(** The handler of [app.post('/admin/unblock-user', authenticateUser, ...)]. *)
Definition unblock_user_handler (be : Backend) (req : BlockBody) (user : User) : M Response :=
  try_catch
    (if negb (Js.truthy (bb_sender_id req)) then mret missing_sender_id
     else
       let sid := default "" (bb_sender_id req) in
       existingUser ← getBlockedUser be sid;
       if negb (bool_decide (is_Some existingUser))
       then mret (respond 404
                    [("error", JStr "User not found");
                     ("message", JStr ("User " +:+ sid +:+ " is not in the blocked list"))])
       else
         _ ← unblockUser be sid;
         mret (respond 200
                 [("success", JBool true);
                  ("message", JStr "User unblocked successfully");
                  ("sender_id", JStr sid);
                  ("timestamp", JDate (now be))]))
    (fun e => mret (server_error "Failed to unblock user" e)).

Definition post_admin_unblock_user (be : Backend) (authorization : option string)
    (req : BlockBody) : M Response :=
  authenticateUser be authorization (unblock_user_handler be req).

(** [orderBy(field, 'desc')] on the documents of a query: by the field,
    largest first, and for equal fields by document id, largest first. *)
Definition desc_before {A : Type} (key : A -> Z) (x y : string * A) : bool :=
  (key y.2 <? key x.2) || ((key x.2 =? key y.2) && String.leb y.1 x.1).

Fixpoint insert_by {A : Type} (before : A -> A -> bool) (x : A) (l : list A) : list A :=
  match l with
  | [] => [x]
  | y :: r => if before x y then x :: l else y :: insert_by before x r
  end.

Definition sort_by {A : Type} (before : A -> A -> bool) (l : list A) : list A :=
  foldr (insert_by before) [] l.

(** [listBlockedUsers()]: the records with [blocked == true], ordered by
    [blockedAt], latest first. *)
Definition listBlockedUsers (be : Backend) : M (list (string * BlockDoc)) :=
  _ ← infra (blocked_query_fault be);
  w ← get_world;
  mret (sort_by (desc_before blockedAt)
          (map_to_list (filter (fun kv => blocked kv.2 = true) (blocked_users w)))).

Definition blocked_user_json (kv : string * BlockDoc) : Json :=
  JObj [("sender_id", JStr kv.1);
        ("blocked", JBool (blocked kv.2));
        ("blockedAt", JDate (blockedAt kv.2));
        ("reason", JStr (reason kv.2));
        ("blockedBy", JStr (blockedBy kv.2))].

(** [app.get('/admin/blocked-users', ...)]: no middleware stands before it. *)
Definition get_admin_blocked_users (be : Backend) : M Response :=
  try_catch
    (blockedUsers ← listBlockedUsers be;
     mret (respond 200
             [("success", JBool true);
              ("count", JNum (Z.of_nat (List.length blockedUsers)));
              ("blockedUsers", JArr (blocked_user_json <$> blockedUsers));
              ("timestamp", JDate (now be))]))
    (fun e => mret (server_error "Failed to retrieve blocked users" e)).

(** [getSOSAlerts(activeOnly)]: [orderBy('timestamp', 'desc')] leaves out the
    documents that have no [timestamp]. *)
Definition getSOSAlerts (be : Backend) (activeOnly : bool) : M (list (string * AlertDoc)) :=
  if negb ENABLE_SOS_ALERT_SNAPSHOT then mret []
  else
    _ ← infra (alerts_query_fault be);
    w ← get_world;
    mret (sort_by (desc_before (fun d => default 0 (a_timestamp d)))
            (map_to_list
               (filter (fun kv => is_Some (a_timestamp kv.2) /\
                                  (activeOnly = true -> a_active kv.2 = Some true))
                       (sos_alerts w)))).

Definition location_json (l : Location) : Json :=
  JObj ((fun kv => (kv.1, JNum kv.2)) <$> map_to_list l).

Definition stored_userInfo_json (u : StoredUserInfo) : Json :=
  JObj [("name", JStr (name u)); ("mobile_number", JStr (mobile_number u));
        ("message", JStr (message u))].

(** One element of the [alerts] array; a field the document lacks is left
    out of the JSON. *)
Definition alert_json (kv : string * AlertDoc) : Json :=
  JObj ([("sender_id", JStr kv.1)]
        ++ opt_entry "active" (JBool <$> a_active kv.2)
        ++ opt_entry "district" (JStr <$> a_district kv.2)
        ++ opt_entry "location" (location_json <$> a_location kv.2)
        ++ opt_entry "userInfo" (stored_userInfo_json <$> a_userInfo kv.2)
        ++ opt_entry "timestamp" (JDate <$> a_timestamp kv.2)).

(** [app.get('/admin/sos-alerts', ...)]; [active] is [req.query.active]. *)
Definition get_admin_sos_alerts (be : Backend) (active : option string) : M Response :=
  try_catch
    (let activeOnly := bool_decide (active = Some "true") in
     alerts ← getSOSAlerts be activeOnly;
     mret (respond 200
             [("success", JBool true);
              ("count", JNum (Z.of_nat (List.length alerts)));
              ("activeOnly", JBool activeOnly);
              ("alerts", JArr (alert_json <$> alerts));
              ("timestamp", JDate (now be))]))
    (fun e => mret (server_error "Failed to retrieve SOS alerts" e)).

(** ** The profile and the list of admins *)

(** The handler of [app.get('/admin/profile', authenticateUser, ...)]. *)
Definition profile_handler (env : Env) (user : User) : M Response :=
  try_catch
    (let isSuperAdminUser := isSuperAdmin (user_email user) in
     adminDoc ← (if negb isSuperAdminUser
                 then
                   adminDoc ← getAdmin env (user_email user);
                   match adminDoc with
                   | Some doc =>
                       if negb (bool_decide (active doc = Some true))
                       then mret (inr inactive_admin)
                       else mret (inl (Some doc))
                   | None => mret (inr inactive_admin)
                   end
                 else mret (inl None));
     match adminDoc with
     | inr refusal => mret refusal
     | inl adminDoc =>
         mret (respond 200
                 [("success", JBool true);
                  ("user",
                   JObj (opt_entry "email" (JStr <$> user_email user)
                         ++ [("role", JStr (if isSuperAdminUser then "superadmin" else "admin"));
                             ("assignedDistricts",
                              districts_json
                                (if isSuperAdminUser then []
                                 else default [] (adminDoc ≫= assignedDistricts)));
                             ("active",
                              JBool (if isSuperAdminUser then true
                                     else bool_decide (adminDoc ≫= active = Some true)))]));
                  ("timestamp", JDate (now env))])
     end)
    (fun e => mret (server_error "Failed to retrieve profile" e)).

Definition get_admin_profile (env : Env) (authorization : option string) : M Response :=
  authenticateUser env authorization (profile_handler env).

Definition admin_json (kv : string * AdminDoc) : Json :=
  JObj [("email", JStr kv.1);
        ("role", JStr (Js.or_else (Some (role kv.2)) "admin"));
        ("assignedDistricts", districts_json (default [] (assignedDistricts kv.2)));
        ("active", JBool (negb (bool_decide (active kv.2 = Some false))));
        ("createdAt", JDate (createdAt kv.2));
        ("createdBy", JStr (Js.or_else (createdBy kv.2) "unknown"))].

(** The handler of [app.get('/admin/admins', authenticateUser,
    requireSuperAdmin, ...)]. *)
Definition list_admins_handler (be : Backend) (user : User) : M Response :=
  try_catch
    (_ ← infra (admins_query_fault be);
     w ← get_world;
     let admins_ := sort_by (desc_before createdAt) (map_to_list (admins w)) in
     mret (respond 200
             [("success", JBool true);
              ("count", JNum (Z.of_nat (List.length admins_)));
              ("admins", JArr (admin_json <$> admins_));
              ("timestamp", JDate (now be))]))
    (fun e => mret (server_error "Failed to retrieve admins" e)).

Definition get_admin_admins (be : Backend) (authorization : option string) : M Response :=
  authenticateUser be authorization (fun u =>
    requireSuperAdmin (Some u) (list_admins_handler be)).

(** ** Vocabulary of the statements *)

(** What a stored block record says about a sender. *)
Definition block_entry_blocks (w : World) (sid : string) : Prop :=
  exists d, blocked_users w !! sid = Some d /\ blocked d = true.

(** The messages handed to the push provider, delivered or not. *)
Definition sends (l : list Event) : list Message :=
  omap (fun e => match e with EvSend m _ => Some m | _ => None end) l.

(** A request that passes the field check of [/sos]. *)
Definition has_required_fields (req : SosBody) : Prop :=
  Js.truthy (sender_id req) = true /\ Js.truthy (sos_type req) = true /\
  is_Some (location req).

(** A raise or a resolve with everything the handler asks for. *)
Definition is_transition (req : SosBody) : Prop :=
  has_required_fields req /\
  (sos_type req = Some "stop" \/ sos_type req = Some "sos_alert") /\
  Js.truthy (ui_field ui_district (userInfo req)) = true.

(** The block gate lets the sender of [req] through. *)
Definition gate_open (env : Env) (req : SosBody) (w : World) : Prop :=
  isSenderBlocked env (default "" (sender_id req)) w = (Ret false, w).

(** The push message of a transition. *)
Definition transition_message (env : Env) (req : SosBody) : Message :=
  let sid := default "" (sender_id req) in
  let district := default "" (ui_field ui_district (userInfo req)) in
  if bool_decide (sos_type req = Some "stop")
  then stopMessage env sid district (userInfo req) (timestamp req)
  else alertMessage env sid district (location req) (userInfo req) (timestamp req).

(** An active row whose timestamp is older than the staleness threshold. *)
Definition is_stale (env : Env) (d : AlertDoc) : bool :=
  bool_decide (a_active d = Some true) &&
  match a_timestamp d with
  | Some t => t <? now env - ALERT_EXPIRATION_THRESHOLD_MS
  | None => false
  end.

(** The last comma-separated token of a string, in the words of the data
    model: what follows the last comma, the whole string when it has none. *)
Fixpoint after_last_comma (s : string) : string :=
  match s with
  | EmptyString => EmptyString
  | String c r =>
      if Js.includes "," r then after_last_comma r
      else if Ascii.eqb c ","%char then r
      else s
  end.

(** The region of a reporter's location string: its last comma-separated
    token, trimmed and upper-cased. *)
Definition region_of (env : Env) (s : string) : string :=
  toUpperCase env (Js.trim (after_last_comma s)).

(** The principal [authenticateUser] lets through, if any: the bearer token
    verifies and, when the middleware has to grant the super-admin claim, the
    identity provider accepts the grant. *)
Definition authenticated (env : Env) (authorization : option string) : option User :=
  if negb (Js.truthy authorization)
     || negb (Js.startsWith "Bearer " (default "" authorization))
  then None
  else
    match verifyIdToken env (nth 1 (Js.split "Bearer " (default "" authorization)) "") with
    | Some t =>
        if isSuperAdmin (tok_email t) && negb (tok_superadmin t)
           && bool_decide (setClaims_fault env <> None)
        then None
        else Some (mkUser (tok_uid t) (tok_email t))
    | None => None
    end.

(** An admin-management request that is turned away: the answer is 401 for a
    caller who does not authenticate, 403 for one who is not a super-admin
    and 400 for a super-admin, and neither the [admins] collection nor the
    accounts of the identity provider have changed. *)
Definition turned_away (env : Env) (authorization : option string) (w : World)
    (out : Outcome Response * World) : Prop :=
  exists resp w',
    out = (Ret resp, w') /\
    admins w' = admins w /\ auth_users w' = auth_users w /\
    status resp = match authenticated env authorization with
                  | None => 401
                  | Some u => if isSuperAdmin (user_email u) then 400 else 403
                  end.

(** Two worlds with the same collections and accounts; the claims granted by
    the identity provider may differ. *)
Definition same_data (w1 w2 : World) : Prop :=
  sos_alerts w1 = sos_alerts w2 /\ blocked_users w1 = blocked_users w2 /\
  admins w1 = admins w2 /\ auth_users w1 = auth_users w2 /\ calls w1 = calls w2.

(** The rows a sweep selects: the active rows whose timestamp is older than
    the threshold, as the sweeper's loop collects them. *)
Definition due_rows (env : Env) (w : World) : list (string * AlertDoc) :=
  filter (fun kv : string * AlertDoc =>
            older_than (now env - ALERT_EXPIRATION_THRESHOLD_MS) kv.2 = true)
    (map_to_list (filter (fun kv : string * AlertDoc => a_active kv.2 = Some true)
                    (sos_alerts w))).

(** The report of a sweep that went through. *)
Definition sweep_report (env : Env) (w : World) : SweepResult :=
  let ea := (fun kv : string * AlertDoc =>
               mkExpiredAlert kv.1 (a_district kv.2)
                 ((now env - default 0 (a_timestamp kv.2)) / 60000)) <$> due_rows env w in
  mkSweepResult (List.length ea)
    (List.length (map_to_list (filter (fun kv : string * AlertDoc => a_active kv.2 = Some true)
                                 (sos_alerts w))))
    true ea.

(** The [users] array of a listing answer, if the answer has one. *)
Definition users_of (resp : Response) : option (list Json) :=
  match json resp with
  | JObj fields =>
      match List.find (fun kv => bool_decide (kv.1 = "users")) fields with
      | Some (_, JArr items) => Some items
      | _ => None
      end
  | _ => None
  end.

(** A request body the create handler's field and format checks accept, for
    an email that is not reserved. *)
Definition creatable (req : CreateAdminBody) (email password : string) : Prop :=
  ca_email req = Some email /\ ca_password req = Some password /\
  email <> "" /\ password <> "" /\
  emailRegex_test email = true /\ email ∉ SUPER_ADMINS.

(** The rows of a user listing before pagination: the rows built from the
    documents the query returns, with the block records merged in, filtered by
    the search text and sorted by name. *)
Definition listing_rows (env : Env) (q : UsersQuery) (restrict : bool)
    (allowedDistricts : list string) (w : World) : list UserRow :=
  let snapshot :=
    if restrict
    then map_to_list (filter (fun kv : string * AlertDoc =>
                                district_in allowedDistricts kv.2 = true) (sos_alerts w))
    else map_to_list (sos_alerts w) in
  let blockedMap := filter (fun kv : string * BlockDoc => blocked kv.2 = true) (blocked_users w) in
  let users := merge_blocked blockedMap <$> user_rows snapshot in
  let users := if Js.truthy (q_search q)
               then List.filter (matches_search env (toLowerCase env (default "" (q_search q)))) users
               else users in
  sort_by_name (localeCompare env) users.

(** The page of a listing answer. *)
Definition listing_page (q : UsersQuery) (rows : list UserRow) : list UserRow :=
  let page := int_or (q_page q) 1 in
  let pageSize := int_or (q_pageSize q) 50 in
  slice rows ((page - 1) * pageSize) ((page - 1) * pageSize + pageSize).

(** A caller the user listing serves, with the scope the handler derives: a
    super-admin (no scope), or a regular caller whose admin document is
    active (the document's districts). *)
Definition may_list (env : Env) (authorization : option string) (w : World)
    (isSuper : bool) (allowedDistricts : list string) : Prop :=
  exists u,
    authenticated env authorization = Some u /\
    ((isSuperAdmin (user_email u) = true /\ isSuper = true /\ allowedDistricts = []) \/
     (exists e doc,
        user_email u = Some e /\ e <> "" /\ (e ∉ SUPER_ADMINS) /\
        admins_get_fault env = None /\
        admins w !! e = Some doc /\ active doc = Some true /\
        isSuper = false /\ allowedDistricts = default [] (assignedDistricts doc))).

(** A stored row that has a reporter name or a mobile number. *)
Definition has_reporter (d : AlertDoc) : bool :=
  Js.truthy (name <$> a_userInfo d) || Js.truthy (mobile_number <$> a_userInfo d).

(** The order of a [desc] query: no document comes before one with a larger
    key. *)
Definition not_older {A : Type} (key : A -> Z) (x y : string * A) : Prop :=
  key y.2 <= key x.2.

(** The no-break space U+00A0 and the line separator U+2028, in UTF-8. *)
Definition nbsp : string :=
  String (ascii_of_nat 194) (String (ascii_of_nat 160) EmptyString).

Definition line_separator : string :=
  String (ascii_of_nat 226) (String (ascii_of_nat 128) (String (ascii_of_nat 168) EmptyString)).

(** ** Sample data *)

Module Sample.

Definition token_of (idToken : string) : option DecodedToken :=
  if bool_decide (idToken = "super-token")
  then Some (mkDecodedToken "uid-super" (Some "shamanthknr@gmail.com") true)
  else if bool_decide (idToken = "admin-token")
  then Some (mkDecodedToken "uid-admin" (Some "field.admin@example.org") false)
  else None.

(** The case mappings of the sample environments: those of ASCII, which are
    JavaScript's on the ASCII text of the sample data. *)
Definition upper_case : string -> string := Js.map_chars Js.upper.
Definition lower_case : string -> string := Js.map_chars Js.lower.

(** An environment with the given faults of the block lookup, the snapshot
    write and the push provider, and none elsewhere. *)
Definition env_with (gate store push : option string) : Env :=
  mkEnv 1700003700000 1700003700000 gate None store None None None None
        (fun _ => match push with
                  | Some e => Throw e
                  | None => Ret "projects/rrt/messages/1"
                  end)
        token_of None None "uid-new" None
        (fun a b => if bool_decide (a = b) then Eq else if String.ltb a b then Lt else Gt)
        upper_case lower_case.

Definition calm : Env := env_with None None None.
Definition gate_down : Env := env_with (Some "UNAVAILABLE") None None.
Definition store_down : Env := env_with None (Some "UNAVAILABLE") None.
Definition push_down : Env := env_with None None (Some "messaging/server-unavailable").

Definition empty_world : World := mkWorld ∅ ∅ ∅ ∅ ∅ [].

Definition blocked_A : World :=
  mkWorld ∅ {["A" := mkBlockDoc true 1700000000000 "Spam" "shamanthknr@gmail.com"]}
          ∅ ∅ ∅ [].

Definition here : Location :=
  <["latitude" := 13]> (<["longitude" := 74]> (<["accuracy" := 10]> ∅)).

Definition jane (place : string) : UserInfo :=
  mkUserInfo (Some "Jane") (Some "udupi") (Some place) (Some "+91-9876543210") None None.

Definition raise_A (place : string) : SosBody :=
  mkSosBody (Some "A") (Some "sos_alert") (Some here) (Some (jane place))
            (Some "1700000000000").

Definition stop_A : SosBody :=
  mkSosBody (Some "A") (Some "stop") (Some here)
            (Some (mkUserInfo None (Some "udupi") None None None None)) None.

Definition stop_A_without_location : SosBody :=
  mkSosBody (Some "A") (Some "stop") None
            (Some (mkUserInfo None (Some "udupi") None None None None)) None.

Definition alert_row (sid : string) (is_active : bool) (at_ : Z) : AlertDoc :=
  mkAlertDoc (Some sid) (Some is_active) (Some at_) (Some here)
             (Some (mkStoredUserInfo "Jane" "+91-9876543210" ""))
             (Some "udupi") (Some "KARNATAKA") None None.

(** One active row older than the threshold, one active row newer, one
    inactive row. *)
Definition three_rows : World :=
  mkWorld (<["A" := alert_row "A" true 1700000000000]>
             (<["B" := alert_row "B" true 1700003000000]>
                (<["C" := alert_row "C" false 1700000000000]> ∅)))
          ∅ ∅ ∅ ∅ [].

Definition field_admin (districts : option (list string)) : AdminDoc :=
  mkAdminDoc "admin" districts (Some true) 1690000000000
             (Some "shamanthknr@gmail.com") None None.

Definition row_in (sid district person : string) : AlertDoc :=
  mkAlertDoc (Some sid) (Some false) (Some 1700000000000) None
             (Some (mkStoredUserInfo person "N/A" ""))
             (Some district) (Some "KARNATAKA") None None.

(** Senders of two districts, and a regular admin with the given scope. *)
Definition two_districts (districts : option (list string)) : World :=
  mkWorld (<["A" := row_in "A" "udupi" "Asha"]>
             (<["B" := row_in "B" "mangalore" "Bala"]> ∅))
          ∅
          {["field.admin@example.org" := field_admin districts]}
          ∅ ∅ [].

Definition first_page : UsersQuery := mkUsersQuery None None None.

(** An environment with the given faults of the sweeper's query and of its
    batch commit. *)
Definition sweep_env (query commit : option string) : Env :=
  mkEnv 1700003700000 1700003700000 None None None query commit None None
        (fun _ => Ret "projects/rrt/messages/1")
        token_of None None "uid-new" None
        (fun a b => if bool_decide (a = b) then Eq else if String.ltb a b then Lt else Gt)
        upper_case lower_case.

(** An environment with the given faults of the admin reads, the admin
    writes, account creation and account deletion. *)
Definition admin_env (reads writes creation deletion : option string) : Env :=
  mkEnv 1700003700000 1700003700000 None None None None None reads writes
        (fun _ => Ret "projects/rrt/messages/1")
        token_of None creation "uid-new" deletion
        (fun a b => if bool_decide (a = b) then Eq else if String.ltb a b then Lt else Gt)
        upper_case lower_case.

Definition backend (writes : option string) : Backend := mkBackend calm writes None.

Definition block_A : BlockBody := mkBlockBody (Some "A") (Some "Spam").

Definition new_admin : CreateAdminBody :=
  mkCreateAdminBody (Some "new.admin@example.org") (Some "s3cret-pw") (Some ["udupi"]).

(** An environment in which the token [first-visit] is that of a
    super-admin who does not carry the claim yet. *)
Definition grant_env : Env :=
  mkEnv 1700003700000 1700003700000 None None None None None None None
        (fun _ => Ret "projects/rrt/messages/1")
        (fun idToken =>
           if bool_decide (idToken = "first-visit")
           then Some (mkDecodedToken "uid-karthik" (Some "karthik.dhanya11@gmail.com") false)
           else None)
        None None "uid-new" None
        (fun a b => if bool_decide (a = b) then Eq else if String.ltb a b then Lt else Gt)
        upper_case lower_case.

End Sample.

(** ** Running computations *)

Ltac run :=
  unfold infra, get_world, set_world, try_catch, throw, mbind, M_bind, mret, M_ret in *;
  cbn [fst snd] in *.

(** * Properties *)

(** ** The primitives on concrete inputs *)

Example split_at_commas :
  Js.split "," "Manipal, Karnataka" = ["Manipal"; " Karnataka"] /\
  Js.split "," "Manipal," = ["Manipal"; ""] /\
  Js.split "," "" = [""] /\
  Js.split "Bearer " "Bearer abc" = [""; "abc"].
Proof. repeat split. Qed.

Example trim_and_case :
  Js.trim "  Udupi district  " = "Udupi district" /\
  Js.trim (nbsp +:+ " Udupi" +:+ nbsp +:+ "district " +:+ line_separator)
  = "Udupi" +:+ nbsp +:+ "district" /\
  Js.trim (" " +:+ nbsp) = "" /\
  Js.capitalize_words (Js.underscores_to_spaces "dakshina_kannada") = "Dakshina Kannada".
Proof. repeat split. Qed.

Example state_of_samples :
  state_of Sample.calm "Manipal, Karnataka" = "KARNATAKA" /\
  state_of Sample.calm "Udupi" = "UDUPI" /\
  state_of Sample.calm "Kochi, Kerala, " = "" /\
  state_of Sample.calm ("Kochi, Kerala," +:+ nbsp) = "" /\
  state_of Sample.calm (userLocation_of None "dakshina_kannada") = "DAKSHINA KANNADA".
Proof. repeat split. Qed.

(** The case of the region is the engine's: the handler upper-cases the
    trimmed token as a whole, accented letters included. *)
Example state_of_defers_case (env : Env) :
  state_of env "Kochi, kérala " = toUpperCase env "kérala" /\
  state_of env ("Kochi," +:+ nbsp +:+ "Kerala" +:+ line_separator) = toUpperCase env "Kerala".
Proof. split; vm_compute; reflexivity. Qed.

Example emailRegex_samples :
  emailRegex_test "field.admin@example.org" = true /\
  emailRegex_test "shamanthknr@gmail.com" = true /\
  emailRegex_test "admin@localhost" = false /\
  emailRegex_test "a@b@example.org" = false /\
  emailRegex_test "two words@example.org" = false /\
  emailRegex_test ("a" +:+ nbsp +:+ "b@c.d") = false /\
  emailRegex_test ("field.admin@example.org" +:+ line_separator) = false /\
  emailRegex_test "admin@example." = false.
Proof. repeat split. Qed.

Example slice_samples :
  slice [1; 2; 3; 4; 5] 1 3 = [2; 3] /\
  slice [1; 2; 3; 4; 5] 3 53 = [4; 5] /\
  slice [1; 2; 3; 4; 5] (-2) 10 = [4; 5] /\
  slice [1; 2; 3; 4; 5] 50 100 = [] /\
  ceil_div 51 50 = 2 /\ ceil_div 0 50 = 0.
Proof. repeat split. Qed.

(** ** The block gate *)

Lemma isSenderBlocked_eval env sid w :
  isSenderBlocked env sid w =
  (Ret match blocked_get_fault env with
       | Some _ => false
       | None => match blocked_users w !! sid with
                 | Some d => blocked d
                 | None => false
                 end
       end, w).
Proof.
  unfold isSenderBlocked. cbn [BLOCKED_USERS negb]. run.
  destruct (blocked_get_fault env); reflexivity.
Qed.

Lemma isSenderBlocked_true_iff env sid w :
  isSenderBlocked env sid w = (Ret true, w) <->
  blocked_get_fault env = None /\ block_entry_blocks w sid.
Proof.
  rewrite isSenderBlocked_eval. unfold block_entry_blocks. split.
  - intros H. destruct (blocked_get_fault env); [discriminate|].
    destruct (blocked_users w !! sid) as [d|] eqn:E; [|discriminate].
    split; [reflexivity|]. exists d. split; [reflexivity|]. congruence.
  - intros [-> (d & -> & ->)]. reflexivity.
Qed.

Lemma isSenderBlocked_cases env sid w :
  isSenderBlocked env sid w = (Ret true, w) \/ isSenderBlocked env sid w = (Ret false, w).
Proof.
  rewrite isSenderBlocked_eval.
  destruct (blocked_get_fault env); [right; reflexivity|].
  destruct (blocked_users w !! sid) as [d|]; [|right; reflexivity].
  destruct (blocked d); [left|right]; reflexivity.
Qed.

Lemma required_fields_check req :
  has_required_fields req ->
  negb (Js.truthy (sender_id req)) || negb (Js.truthy (sos_type req))
  || negb (bool_decide (is_Some (location req))) = false.
Proof.
  intros (-> & -> & H). rewrite bool_decide_eq_true_2; [reflexivity | exact H].
Qed.

(** The handler never lets an exception escape. *)
Lemma post_sos_returns env req w :
  exists resp w', post_sos env req w = (Ret resp, w').
Proof.
  unfold post_sos. run. destruct (post_sos_try env req w) as [[resp|e] w']; eauto.
Qed.

(** The handler on a request the block gate turns away. *)
Lemma post_sos_blocked env req w :
  has_required_fields req ->
  isSenderBlocked env (default "" (sender_id req)) w = (Ret true, w) ->
  post_sos env req w = (Ret access_denied, w).
Proof.
  intros Hreq Hb. unfold post_sos, post_sos_try. run.
  rewrite (required_fields_check _ Hreq). rewrite Hb. reflexivity.
Qed.

(** No branch of the dispatch answers 403. *)
Lemma post_sos_dispatch_not_403 env req w resp w' :
  post_sos_dispatch env req w = (Ret resp, w') -> status resp <> 403.
Proof.
  unfold post_sos_dispatch. run.
  repeat case_match; intros; simplify_eq; cbn; discriminate.
Qed.

(** The 403 of [/sos] comes from the block gate and from nowhere else. *)
Lemma post_sos_403_only_from_gate env req w resp w' :
  post_sos env req w = (Ret resp, w') ->
  status resp = 403 ->
  isSenderBlocked env (default "" (sender_id req)) w = (Ret true, w).
Proof.
  unfold post_sos, post_sos_try. run. intros H Hst.
  destruct (_ || _); [simplify_eq; discriminate|].
  destruct (isSenderBlocked_cases env (default "" (sender_id req)) w) as [Hb|Hb];
    [exact Hb|].
  rewrite Hb in H.
  destruct (post_sos_dispatch env req w) as [[r|e] w1] eqn:E; simplify_eq.
  exfalso. eapply post_sos_dispatch_not_403; eauto.
Qed.

(** C5: [isSenderBlocked] answers [true] exactly when the lookup succeeds and
    finds a record whose [blocked] field is [true]; when the lookup fails it
    answers [false], and then no [/sos] request is answered 403. *)
Theorem isSenderBlocked_fails_open env sid w :
  (exists b, isSenderBlocked env sid w = (Ret b, w) /\
             (b = true <-> blocked_get_fault env = None /\ block_entry_blocks w sid)) /\
  (blocked_get_fault env <> None ->
   isSenderBlocked env sid w = (Ret false, w) /\
   forall req, exists resp w', post_sos env req w = (Ret resp, w') /\ status resp <> 403).
Proof.
  split.
  - destruct (isSenderBlocked_cases env sid w) as [Hb|Hb]; rewrite Hb.
    + exists true. split; [reflexivity|]. split; [|reflexivity].
      intros _. apply isSenderBlocked_true_iff. exact Hb.
    + exists false. split; [reflexivity|]. split; [discriminate|].
      intros H. apply isSenderBlocked_true_iff in H. congruence.
  - intros Hfault.
    assert (Hfalse : forall s, isSenderBlocked env s w = (Ret false, w)).
    { intros s. rewrite isSenderBlocked_eval.
      destruct (blocked_get_fault env); [reflexivity | congruence]. }
    split; [apply Hfalse|]. intros req.
    destruct (post_sos_returns env req w) as (resp & w' & E).
    exists resp, w'. split; [exact E|]. intros Hst.
    pose proof (post_sos_403_only_from_gate _ _ _ _ _ E Hst) as Hb.
    rewrite Hfalse in Hb. discriminate.
Qed.

Lemma isSenderBlocked_fails_open_witness :
  block_entry_blocks Sample.blocked_A "A" /\
  isSenderBlocked Sample.gate_down "A" Sample.blocked_A = (Ret false, Sample.blocked_A) /\
  exists resp w',
    post_sos Sample.gate_down (Sample.raise_A "Manipal, Karnataka") Sample.blocked_A
    = (Ret resp, w') /\ status resp <> 403.
Proof.
  split.
  - eexists. split; [vm_compute; reflexivity | reflexivity].
  - destruct (isSenderBlocked_fails_open Sample.gate_down "A" Sample.blocked_A) as [_ H].
    destruct H as [H1 H2]; [vm_compute; discriminate|].
    split; [exact H1 | apply H2].
Defined.

(** C1, as stated, fails: a stop request of a blocked sender is answered 403. *)
Lemma blocked_stop_is_rejected :
  sos_type Sample.stop_A = Some "stop" /\
  block_entry_blocks Sample.blocked_A "A" /\
  post_sos Sample.calm Sample.stop_A Sample.blocked_A = (Ret access_denied, Sample.blocked_A) /\
  status access_denied = 403.
Proof.
  split; [reflexivity|]. split.
  - eexists. split; [vm_compute; reflexivity | reflexivity].
  - split; [vm_compute; reflexivity | reflexivity].
Qed.

(** C1, amended: the block gate of [/sos] stands before the dispatch on
    [sos_type], so it applies to stop requests as to alerts. A stop request
    with the required fields is answered 403, with nothing sent and nothing
    written, when the lookup succeeds and finds the sender blocked; otherwise
    it is not answered 403. *)
Theorem stop_consults_block_gate env req w :
  has_required_fields req ->
  sos_type req = Some "stop" ->
  (blocked_get_fault env = None /\ block_entry_blocks w (default "" (sender_id req)) ->
   post_sos env req w = (Ret access_denied, w) /\ status access_denied = 403) /\
  (~ (blocked_get_fault env = None /\ block_entry_blocks w (default "" (sender_id req))) ->
   exists resp w', post_sos env req w = (Ret resp, w') /\ status resp <> 403).
Proof.
  intros Hreq Hstop. split.
  - intros Hb. apply isSenderBlocked_true_iff in Hb.
    split; [apply post_sos_blocked; assumption | reflexivity].
  - intros Hnb. destruct (post_sos_returns env req w) as (resp & w' & E).
    exists resp, w'. split; [exact E|]. intros Hst. apply Hnb.
    apply isSenderBlocked_true_iff. eapply post_sos_403_only_from_gate; eassumption.
Qed.

Lemma stop_consults_block_gate_witness :
  post_sos Sample.calm Sample.stop_A Sample.blocked_A = (Ret access_denied, Sample.blocked_A) /\
  exists resp w',
    post_sos Sample.calm Sample.stop_A Sample.empty_world = (Ret resp, w') /\
    status resp <> 403.
Proof.
  split.
  - apply (stop_consults_block_gate Sample.calm Sample.stop_A Sample.blocked_A).
    + repeat split; vm_compute; eauto.
    + reflexivity.
    + split; [reflexivity|]. eexists. split; [vm_compute; reflexivity | reflexivity].
  - apply (stop_consults_block_gate Sample.calm Sample.stop_A Sample.empty_world).
    + repeat split; vm_compute; eauto.
    + reflexivity.
    + intros [_ (d & Hd & _)]. vm_compute in Hd. discriminate.
Defined.

(** ** The snapshot write and the transitions *)

Lemma storeSOSAlert_eval env sid act loc ui d st w :
  storeSOSAlert env sid act loc ui d st w =
  match alert_set_fault env with
  | Some _ => (Ret false, logged w (EvAlertSet sid false))
  | None =>
      (Ret true,
       logged (with_sos_alerts w
                 (<[sid := merge_alert (alertData env sid act loc ui d st) (sos_alerts w !! sid)]>
                    (sos_alerts w)))
              (EvAlertSet sid true))
  end.
Proof.
  unfold storeSOSAlert, alert_set_merge. cbn [ENABLE_SOS_ALERT_SNAPSHOT negb]. run.
  destruct (alert_set_fault env); reflexivity.
Qed.

(** [storeSOSAlert] always returns, whatever the storage does. *)
Lemma storeSOSAlert_returns env sid act loc ui d st w :
  exists ok w', storeSOSAlert env sid act loc ui d st w = (Ret ok, w').
Proof. rewrite storeSOSAlert_eval. destruct (alert_set_fault env); eauto. Qed.

Lemma transition_dispatch env req w :
  is_transition req -> gate_open env req w ->
  post_sos env req w =
  try_catch (post_sos_dispatch env req)
    (fun e => mret (respond 500
                      [("error", JStr "Failed to send SOS alert");
                       ("message", JStr e);
                       ("timestamp", JDate (now env))])) w.
Proof.
  intros (Hreq & _ & _) Hg. unfold post_sos, post_sos_try. run.
  rewrite (required_fields_check _ Hreq). rewrite Hg. reflexivity.
Qed.

(** A resolve that passes the gate: the send, then the write. *)
Lemma resolve_eval env req w :
  is_transition req -> sos_type req = Some "stop" -> gate_open env req w ->
  let sid := default "" (sender_id req) in
  let district := default "" (ui_field ui_district (userInfo req)) in
  let m := transition_message env req in
  post_sos env req w =
  match fcm_send env m with
  | Throw e =>
      (Ret (respond 500 [("error", JStr "Failed to send SOS alert");
                         ("message", JStr e);
                         ("timestamp", JDate (now env))]),
       logged w (EvSend m false))
  | Ret messageId =>
      (Ret (respond 200 [("success", JBool true);
                         ("message", JStr "SOS alert stopped successfully");
                         ("messageId", JStr messageId);
                         ("senderId", JStr sid);
                         ("district", JStr district);
                         ("timestamp", JDate (now env))]),
       (storeSOSAlert env sid false None None None None (logged w (EvSend m true))).2)
  end.
Proof.
  intros Ht Hstop Hg. cbn zeta. rewrite (transition_dispatch _ _ _ Ht Hg).
  destruct Ht as (_ & _ & Hd).
  unfold post_sos_dispatch, transition_message, messaging_send. run.
  rewrite Hstop. cbn [default]. rewrite Hd. cbn [negb].
  rewrite !bool_decide_eq_true_2 by (reflexivity || set_solver). cbn [negb].
  destruct (fcm_send env _) as [messageId|e]; [|reflexivity].
  destruct (storeSOSAlert_returns env (default "" (sender_id req)) false None None None None
              (logged w (EvSend (stopMessage env (default "" (sender_id req))
                                   (default "" (ui_field ui_district (userInfo req)))
                                   (userInfo req) (timestamp req)) true)))
    as (ok & w' & E).
  rewrite E. reflexivity.
Qed.

(** A raise that passes the gate: the send, then the write. *)
Lemma raise_eval env req w :
  is_transition req -> sos_type req = Some "sos_alert" -> gate_open env req w ->
  let sid := default "" (sender_id req) in
  let district := default "" (ui_field ui_district (userInfo req)) in
  let m := transition_message env req in
  post_sos env req w =
  match fcm_send env m with
  | Throw e =>
      (Ret (respond 500 [("error", JStr "Failed to send SOS alert");
                         ("message", JStr e);
                         ("timestamp", JDate (now env))]),
       logged w (EvSend m false))
  | Ret messageId =>
      (Ret (respond 200 [("success", JBool true);
                         ("message", JStr "SOS alert sent successfully");
                         ("messageId", JStr messageId);
                         ("topic", JStr ("district-" +:+ district));
                         ("senderId", JStr sid);
                         ("district", JStr district);
                         ("timestamp", JDate (now env))]),
       (storeSOSAlert env sid true (location req) (userInfo req) (Some district)
          (Some (state_of env (userLocation_of (userInfo req) district)))
          (logged w (EvSend m true))).2)
  end.
Proof.
  intros Ht Hraise Hg. cbn zeta. rewrite (transition_dispatch _ _ _ Ht Hg).
  destruct Ht as (_ & _ & Hd).
  unfold post_sos_dispatch, transition_message, messaging_send. run.
  rewrite Hraise. cbn [default]. rewrite Hd. cbn [negb].
  rewrite (bool_decide_eq_true_2 (_ ∈ _)) by set_solver. cbn [negb].
  rewrite (bool_decide_eq_false_2 ("sos_alert" = "stop")) by discriminate.
  rewrite (bool_decide_eq_false_2 (Some "sos_alert" = Some "stop")) by discriminate.
  rewrite (bool_decide_eq_true_2 ("sos_alert" = "sos_alert")) by reflexivity.
  destruct (fcm_send env _) as [messageId|e]; [|reflexivity].
  match goal with
  | |- context [storeSOSAlert ?e ?s ?a ?l ?u ?d ?st ?w0] =>
      destruct (storeSOSAlert_returns e s a l u d st w0) as (ok & w' & E)
  end.
  rewrite E. reflexivity.
Qed.

(** C6, as stated, fails: a stop request without [location] is answered 400. *)
Lemma stop_without_location_is_rejected :
  sender_id Sample.stop_A_without_location = Some "A" /\
  sos_type Sample.stop_A_without_location = Some "stop" /\
  ui_field ui_district (userInfo Sample.stop_A_without_location) = Some "udupi" /\
  location Sample.stop_A_without_location = None /\
  post_sos Sample.calm Sample.stop_A_without_location Sample.empty_world
  = (Ret missing_fields, Sample.empty_world) /\
  status missing_fields = 400.
Proof. repeat split; vm_compute; reflexivity. Qed.

(** C6, amended: the field check of [/sos] asks for [location] whatever the
    [sos_type]: a request without it, a stop request too, is answered 400
    "Missing required fields" and changes nothing. A stop request that has
    [sender_id], a district and a [location], from a sender the gate lets
    through, is answered 200 when the push provider accepts the message. *)
Theorem sos_requires_location env req w :
  (location req = None ->
   post_sos env req w = (Ret missing_fields, w) /\ status missing_fields = 400) /\
  (is_transition req -> sos_type req = Some "stop" -> gate_open env req w ->
   (exists messageId, fcm_send env (transition_message env req) = Ret messageId) ->
   exists resp w', post_sos env req w = (Ret resp, w') /\ status resp = 200).
Proof.
  split.
  - intros Hloc. split; [|reflexivity].
    unfold post_sos, post_sos_try. run. rewrite Hloc.
    rewrite bool_decide_eq_false_2 by (intros [x Hx]; discriminate).
    cbn [negb]. rewrite !orb_true_r. reflexivity.
  - intros Ht Hstop Hg (messageId & Hsend).
    pose proof (resolve_eval env req w Ht Hstop Hg) as E. cbn zeta in E.
    rewrite Hsend in E. eexists _, _. split; [exact E | reflexivity].
Qed.

Lemma sos_requires_location_witness :
  post_sos Sample.calm Sample.stop_A_without_location Sample.empty_world
  = (Ret missing_fields, Sample.empty_world) /\
  exists resp w',
    post_sos Sample.calm Sample.stop_A Sample.empty_world = (Ret resp, w') /\
    status resp = 200.
Proof.
  split.
  - apply (sos_requires_location Sample.calm Sample.stop_A_without_location Sample.empty_world).
    reflexivity.
  - apply (sos_requires_location Sample.calm Sample.stop_A Sample.empty_world).
    + repeat split; vm_compute; eauto.
    + reflexivity.
    + vm_compute. reflexivity.
    + eexists. vm_compute. reflexivity.
Defined.

(** C3, as stated, fails: when the send of a raise fails the request is
    answered 500 and no snapshot of the sender is stored. *)
Lemma failed_send_leaves_no_snapshot :
  exists resp w',
    post_sos Sample.push_down (Sample.raise_A "Manipal, Karnataka") Sample.empty_world
    = (Ret resp, w') /\
    status resp = 500 /\
    sos_alerts w' !! "A" = None /\
    sos_alerts w' = sos_alerts Sample.empty_world.
Proof. eexists _, _. repeat split; vm_compute; reflexivity. Qed.

(** C3, amended: in a raise or resolve transition the push message is handed
    to the provider first and the snapshot is written only after a delivered
    send. When the send fails the request is answered 500, the write is not
    attempted and the store is as it was; when it succeeds the calls made are
    the send and then the write, and the request is answered 200. *)
Theorem fanout_precedes_snapshot_write env req w :
  is_transition req -> gate_open env req w ->
  exists resp w',
    post_sos env req w = (Ret resp, w') /\
    match fcm_send env (transition_message env req) with
    | Throw _ =>
        status resp = 500 /\
        sos_alerts w' = sos_alerts w /\
        calls w' = (calls w ++ [EvSend (transition_message env req) false])%list
    | Ret _ =>
        status resp = 200 /\
        calls w' = (calls w ++ [EvSend (transition_message env req) true;
                                EvAlertSet (default "" (sender_id req))
                                           (bool_decide (alert_set_fault env = None))])%list
    end.
Proof.
  intros Ht Hg. destruct (proj1 (proj2 Ht)) as [Hty|Hty].
  - pose proof (resolve_eval env req w Ht Hty Hg) as E. cbn zeta in E.
    rewrite E. clear E.
    destruct (fcm_send env _); eexists _, _; (split; [reflexivity|]); [|repeat split].
    rewrite storeSOSAlert_eval.
    destruct (alert_set_fault env); cbn; rewrite <- app_assoc; split; reflexivity.
  - pose proof (raise_eval env req w Ht Hty Hg) as E. cbn zeta in E.
    rewrite E. clear E.
    destruct (fcm_send env _); eexists _, _; (split; [reflexivity|]); [|repeat split].
    rewrite storeSOSAlert_eval.
    destruct (alert_set_fault env); cbn; rewrite <- app_assoc; split; reflexivity.
Qed.

Lemma fanout_precedes_snapshot_write_witness :
  exists resp w',
    post_sos Sample.push_down (Sample.raise_A "Manipal, Karnataka") Sample.empty_world
    = (Ret resp, w') /\
    status resp = 500 /\
    sos_alerts w' = sos_alerts Sample.empty_world /\
    calls w' = [EvSend (transition_message Sample.push_down
                          (Sample.raise_A "Manipal, Karnataka")) false].
Proof.
  destruct (fanout_precedes_snapshot_write Sample.push_down
              (Sample.raise_A "Manipal, Karnataka") Sample.empty_world)
    as (resp & w' & E & H).
  - repeat split; vm_compute; eauto.
  - vm_compute. reflexivity.
  - exists resp, w'. split; [exact E | exact H].
Defined.

(** C7, as stated, fails: a raise whose snapshot write fails is answered 200. *)
Lemma storage_failure_answers_200 :
  alert_set_fault Sample.store_down = Some "UNAVAILABLE" /\
  exists resp w',
    post_sos Sample.store_down (Sample.raise_A "Manipal, Karnataka") Sample.empty_world
    = (Ret resp, w') /\
    status resp = 200 /\
    sos_alerts w' !! "A" = None.
Proof. split; [reflexivity|]. eexists _, _. repeat split; vm_compute; reflexivity. Qed.

(** C7, amended: when persisting the snapshot fails, [storeSOSAlert] catches
    the error and returns [false]; the raise or resolve, whose message has
    been delivered by then, is still answered 200, and the store is as it
    was. *)
Theorem snapshot_failure_is_swallowed env req w :
  is_transition req -> gate_open env req w ->
  alert_set_fault env <> None ->
  (forall sid act loc ui d st w0,
     storeSOSAlert env sid act loc ui d st w0 = (Ret false, logged w0 (EvAlertSet sid false))) /\
  ((exists messageId, fcm_send env (transition_message env req) = Ret messageId) ->
   exists resp w',
     post_sos env req w = (Ret resp, w') /\ status resp = 200 /\
     sos_alerts w' = sos_alerts w).
Proof.
  intros Ht Hg Hfault.
  assert (Hstore : forall sid act loc ui d st w0,
             storeSOSAlert env sid act loc ui d st w0
             = (Ret false, logged w0 (EvAlertSet sid false))).
  { intros. rewrite storeSOSAlert_eval.
    destruct (alert_set_fault env); [reflexivity | congruence]. }
  split; [exact Hstore|]. intros (messageId & Hsend).
  destruct (proj1 (proj2 Ht)) as [Hty|Hty].
  - pose proof (resolve_eval env req w Ht Hty Hg) as E. cbn zeta in E.
    rewrite Hsend, Hstore in E. eexists _, _. split; [exact E|]. split; reflexivity.
  - pose proof (raise_eval env req w Ht Hty Hg) as E. cbn zeta in E.
    rewrite Hsend, Hstore in E. eexists _, _. split; [exact E|]. split; reflexivity.
Qed.

Lemma snapshot_failure_is_swallowed_witness :
  exists resp w',
    post_sos Sample.store_down (Sample.raise_A "Manipal, Karnataka") Sample.empty_world
    = (Ret resp, w') /\
    status resp = 200 /\
    sos_alerts w' = sos_alerts Sample.empty_world.
Proof.
  apply (snapshot_failure_is_swallowed Sample.store_down
           (Sample.raise_A "Manipal, Karnataka") Sample.empty_world).
  - repeat split; vm_compute; eauto.
  - vm_compute. reflexivity.
  - vm_compute. discriminate.
  - eexists. vm_compute. reflexivity.
Defined.

(** ** The sweeper *)

(** The rows the sweeper's loop selects. *)
Lemma due_rows_spec env (m : gmap string AlertDoc) id d :
  (id, d) ∈ filter (fun kv : string * AlertDoc =>
                      older_than (now env - ALERT_EXPIRATION_THRESHOLD_MS) kv.2 = true)
             (map_to_list (filter (fun kv : string * AlertDoc => a_active kv.2 = Some true) m))
  <-> m !! id = Some d /\ is_stale env d = true.
Proof.
  rewrite list_elem_of_filter, elem_of_map_to_list, map_lookup_filter_Some.
  unfold is_stale, older_than. cbn [snd].
  rewrite andb_true_iff, bool_decide_eq_true. tauto.
Qed.

Lemma due_rows_NoDup env (m : gmap string AlertDoc) :
  NoDup (filter (fun kv : string * AlertDoc =>
                   older_than (now env - ALERT_EXPIRATION_THRESHOLD_MS) kv.2 = true)
           (map_to_list (filter (fun kv : string * AlertDoc => a_active kv.2 = Some true) m))).*1.
Proof.
  apply NoDup_fmap_fst.
  - intros i x y Hx Hy. apply due_rows_spec in Hx, Hy. destruct Hx, Hy. congruence.
  - apply NoDup_filter, NoDup_map_to_list.
Qed.

(** A batch of updates touches the listed documents, once each. *)
Lemma foldr_alter_lookup (f : AlertDoc -> AlertDoc) (ids : list string)
    (m : gmap string AlertDoc) (id : string) :
  NoDup ids ->
  foldr (fun i acc => alter f i acc) m ids !! id
  = if decide (id ∈ ids) then f <$> m !! id else m !! id.
Proof.
  induction ids as [|a ids IH]; intros Hnd; cbn [foldr].
  - rewrite decide_False by apply not_elem_of_nil. reflexivity.
  - apply NoDup_cons in Hnd as [Hna Hnd]. rewrite lookup_alter.
    destruct (decide (a = id)) as [->|Hne].
    + rewrite (IH Hnd). rewrite decide_False by exact Hna.
      rewrite decide_True by (left; reflexivity). reflexivity.
    + rewrite (IH Hnd). destruct (decide (id ∈ ids)) as [Hin|Hin].
      * rewrite decide_True by (right; exact Hin). reflexivity.
      * rewrite decide_False; [reflexivity|].
        intros Hin'. apply elem_of_cons in Hin' as [->|Hin']; [congruence | exact (Hin Hin')].
Qed.

(** A sweep that meets no storage fault: every row is mapped through the
    expiration test, the report counts the rows that met it, and nothing is
    handed to the push provider. *)
Lemma sweep_eval env w :
  alerts_query_fault env = None -> batch_commit_fault env = None ->
  exists r w',
    expireOldAlertsScheduled env w = (Ret r, w') /\
    (forall id,
       sos_alerts w' !! id
       = (fun d => if is_stale env d then expire_update env d else d) <$> sos_alerts w !! id) /\
    expired r = size (filter (fun kv : string * AlertDoc => is_stale env kv.2 = true)
                        (sos_alerts w)) /\
    sends (calls w') = sends (calls w).
Proof.
  intros Hq Hc.
  unfold expireOldAlertsScheduled, expireOldAlerts, query_active_alerts, batch_commit.
  cbn [ENABLE_SOS_ALERT_SNAPSHOT negb]. run. rewrite Hq, Hc. cbv beta iota zeta.
  set (due := filter (fun kv : string * AlertDoc =>
                        older_than (now env - ALERT_EXPIRATION_THRESHOLD_MS) kv.2 = true)
               (map_to_list (filter (fun kv : string * AlertDoc => a_active kv.2 = Some true)
                               (sos_alerts w)))).
  assert (Hdue : forall id d, (id, d) ∈ due <-> sos_alerts w !! id = Some d /\ is_stale env d = true)
    by (intros; apply due_rows_spec).
  assert (Hcount : List.length ((fun kv : string * AlertDoc =>
                                   mkExpiredAlert kv.1 (a_district kv.2)
                                     ((now env - default 0 (a_timestamp kv.2)) / 60000)) <$> due)
                   = size (filter (fun kv : string * AlertDoc => is_stale env kv.2 = true)
                             (sos_alerts w))).
  { rewrite length_fmap, <- length_map_to_list. apply Permutation_length.
    apply NoDup_Permutation.
    - apply NoDup_filter, NoDup_map_to_list.
    - apply NoDup_map_to_list.
    - intros [id d]. rewrite Hdue, elem_of_map_to_list, map_lookup_filter_Some. tauto. }
  assert (Hunchanged : due = [] -> forall id,
             sos_alerts w !! id
             = (fun d => if is_stale env d then expire_update env d else d) <$> sos_alerts w !! id).
  { intros Hnil id. destruct (sos_alerts w !! id) as [d|] eqn:E; [|reflexivity].
    cbn. destruct (is_stale env d) eqn:Es; [|reflexivity].
    assert (Hin : (id, d) ∈ due) by (apply Hdue; auto).
    rewrite Hnil in Hin. set_solver. }
  match goal with
  | |- context [(0 <? ?n)%nat] => destruct (0 <? n)%nat eqn:Hlen
  end.
  - assert (Hall : forallb (fun id => bool_decide (is_Some (sos_alerts w !! id))) due.*1 = true).
    { apply forallb_forall. intros id Hin. apply list_elem_of_In in Hin.
      apply list_elem_of_fmap in Hin as ([id' d] & -> & Hin). apply Hdue in Hin as [Hl _].
      apply bool_decide_eq_true. cbn. rewrite Hl. eauto. }
    rewrite Hall. eexists _, _. split; [reflexivity|]. split; [|split].
    + intros id. cbn. rewrite foldr_alter_lookup by apply due_rows_NoDup.
      destruct (sos_alerts w !! id) as [d|] eqn:E.
      * destruct (is_stale env d) eqn:Es.
        -- rewrite decide_True; [cbn; rewrite Es; reflexivity|].
           apply list_elem_of_fmap. exists (id, d). split; [reflexivity|]. apply Hdue; auto.
        -- rewrite decide_False; [cbn; rewrite Es; reflexivity|].
           intros Hin. apply list_elem_of_fmap in Hin as ([id' d'] & Heq & Hin).
           cbn in Heq. subst id'. apply Hdue in Hin as [Hl Hs]. congruence.
      * destruct (decide _); reflexivity.
    + exact Hcount.
    + cbn. unfold sends. rewrite omap_app. cbn. apply app_nil_r.
  - eexists _, _. split; [reflexivity|]. split; [|split].
    + apply Hunchanged. apply Nat.ltb_ge in Hlen. rewrite length_fmap in Hlen.
      destruct due; [reflexivity | cbn in Hlen; lia].
    + exact Hcount.
    + reflexivity.
Qed.

(** C4: a sweep that meets no storage fault turns every active row whose
    timestamp is older than the threshold into an inactive row stamped with
    [expiredAt] and [expiredBy = "scheduled_job"], leaves every other row as
    it was, reports as many expirations as there were such rows, and hands
    nothing to the push provider. *)
Theorem sweep_expires_exactly_the_stale env w :
  alerts_query_fault env = None -> batch_commit_fault env = None ->
  exists r w',
    expireOldAlertsScheduled env w = (Ret r, w') /\
    (forall id d, sos_alerts w !! id = Some d -> is_stale env d = true ->
       exists d', sos_alerts w' !! id = Some d' /\ d' = expire_update env d /\
                  a_active d' = Some false /\
                  a_expiredBy d' = Some "scheduled_job" /\
                  a_expiredAt d' = Some (server_time env)) /\
    (forall id d, sos_alerts w !! id = Some d -> is_stale env d = false ->
       sos_alerts w' !! id = Some d) /\
    (forall id, sos_alerts w !! id = None -> sos_alerts w' !! id = None) /\
    expired r = size (filter (fun kv : string * AlertDoc => is_stale env kv.2 = true)
                        (sos_alerts w)) /\
    sends (calls w') = sends (calls w).
Proof.
  intros Hq Hc. destruct (sweep_eval env w Hq Hc) as (r & w' & E & Hrows & Hn & Hs).
  exists r, w'. split; [exact E|]. repeat split.
  - intros id d Hl Hst. exists (expire_update env d).
    rewrite Hrows, Hl. cbn. rewrite Hst. repeat split.
  - intros id d Hl Hst. rewrite Hrows, Hl. cbn. rewrite Hst. reflexivity.
  - intros id Hl. rewrite Hrows, Hl. reflexivity.
  - exact Hn.
  - exact Hs.
Qed.

Lemma sweep_expires_exactly_the_stale_witness :
  exists r w',
    expireOldAlertsScheduled Sample.calm Sample.three_rows = (Ret r, w') /\
    (exists d', sos_alerts w' !! "A" = Some d' /\
                a_active d' = Some false /\ a_expiredBy d' = Some "scheduled_job") /\
    sos_alerts w' !! "B" = sos_alerts Sample.three_rows !! "B" /\
    sos_alerts w' !! "C" = sos_alerts Sample.three_rows !! "C" /\
    expired r = 1%nat /\
    sends (calls w') = [].
Proof.
  destruct (sweep_expires_exactly_the_stale Sample.calm Sample.three_rows)
    as (r & w' & E & Hstale & Hfresh & _ & Hn & Hs); [reflexivity | reflexivity |].
  exists r, w'. split; [exact E|]. repeat split.
  - destruct (Hstale "A" (Sample.alert_row "A" true 1700000000000))
      as (d' & Hl & _ & Ha & Hb & _); [vm_compute; reflexivity | vm_compute; reflexivity |].
    exists d'. repeat split; assumption.
  - rewrite (Hfresh "B" (Sample.alert_row "B" true 1700003000000));
      vm_compute; reflexivity.
  - rewrite (Hfresh "C" (Sample.alert_row "C" false 1700000000000));
      vm_compute; reflexivity.
  - rewrite Hn. vm_compute. reflexivity.
  - rewrite Hs. reflexivity.
Defined.




(** ** The derived region *)

Lemma split_from_comma_cons cur c r :
  Js.split_from "," 0 cur (String c r)
  = if Ascii.eqb "," c
    then Js.rev_onto EmptyString cur :: Js.split_from "," 0 EmptyString r
    else Js.split_from "," 0 (String c cur) r.
Proof. cbn -[Ascii.eqb]. destruct (Ascii.eqb "," c); reflexivity. Qed.

Lemma split_from_comma_nonempty cur s : Js.split_from "," 0 cur s <> [].
Proof.
  revert cur. induction s as [|c r IH]; intros cur; [discriminate|].
  rewrite split_from_comma_cons.
  destruct (Ascii.eqb "," c); [discriminate | apply IH].
Qed.

Lemma includes_comma_cons c r :
  Js.includes "," (String c r) = Ascii.eqb "," c || Js.includes "," r.
Proof. cbn -[Ascii.eqb]. destruct (Ascii.eqb "," c); reflexivity. Qed.

(** The last piece of a split at commas: what follows the last comma, or the
    piece under construction followed by the whole input when it has none. *)
Lemma last_split_from_comma cur s :
  last (Js.split_from "," 0 cur s)
  = Some (if Js.includes "," s then after_last_comma s else Js.rev_onto s cur).
Proof.
  revert cur. induction s as [|c r IH]; intros cur; [reflexivity|].
  rewrite includes_comma_cons, split_from_comma_cons.
  cbn [after_last_comma]. rewrite (Ascii.eqb_sym c ",").
  destruct (Ascii.eqb "," c) eqn:Ec; cbn [orb].
  - pose proof (split_from_comma_nonempty EmptyString r) as Hne.
    destruct (Js.split_from "," 0 EmptyString r) as [|x l] eqn:El; [congruence|].
    change (last (Js.rev_onto EmptyString cur :: x :: l)) with (last (x :: l)).
    rewrite <- El, IH. destruct (Js.includes "," r); reflexivity.
  - rewrite IH. destruct (Js.includes "," r); reflexivity.
Qed.

Lemma after_last_comma_without_comma s :
  Js.includes "," s = false -> after_last_comma s = s.
Proof.
  destruct s as [|c r]; [reflexivity|]. rewrite includes_comma_cons.
  intros H. apply orb_false_iff in H as [Hc Hr]. cbn [after_last_comma].
  rewrite Hr, (Ascii.eqb_sym c ","), Hc. reflexivity.
Qed.

(** The handler's [state] is the region of the trailing comma-separated
    token. *)
Lemma state_of_is_region env s : state_of env s = region_of env s.
Proof.
  unfold state_of, region_of, Js.pop, Js.split. rewrite last_split_from_comma.
  cbn [default Js.rev_onto].
  destruct (Js.includes "," s) eqn:E; [reflexivity|].
  rewrite after_last_comma_without_comma by exact E. reflexivity.
Qed.

Lemma or_else_truthy o d :
  Js.or_else o d = if Js.truthy o then default d o else d.
Proof. destruct o as [s|]; [|reflexivity]. cbn. destruct (Js.is_empty s); reflexivity. Qed.

(** C8, as stated, fails: a raise whose location string ends in a comma is
    answered 200, and the region of the row is not the (empty) trailing
    token but the region left by an earlier alert. *)
Lemma empty_region_is_not_stored :
  region_of Sample.calm "Kochi, Kerala, " = "" /\
  exists resp w' d,
    post_sos Sample.calm (Sample.raise_A "Kochi, Kerala, ") Sample.three_rows = (Ret resp, w') /\
    status resp = 200 /\
    sos_alerts w' !! "A" = Some d /\
    a_active d = Some true /\
    a_state d = Some "KARNATAKA".
Proof.
  split; [vm_compute; reflexivity|].
  eexists _, _, _. repeat split; vm_compute; reflexivity.
Qed.

(** The region a raise stores, for every location string. *)
Lemma raise_region env req w :
  is_transition req -> sos_type req = Some "sos_alert" -> gate_open env req w ->
  (exists messageId, fcm_send env (transition_message env req) = Ret messageId) ->
  alert_set_fault env = None ->
  exists resp w' d,
    post_sos env req w = (Ret resp, w') /\ status resp = 200 /\
    sos_alerts w' !! default "" (sender_id req) = Some d /\
    a_active d = Some true /\
    forall place,
      (if Js.truthy (ui_field ui_location (userInfo req))
       then ui_field ui_location (userInfo req) = Some place
       else place = Js.capitalize_words
                      (Js.underscores_to_spaces
                         (default "" (ui_field ui_district (userInfo req))))) ->
      a_state d = if Js.is_empty (region_of env place)
                  then sos_alerts w !! default "" (sender_id req) ≫= a_state
                  else Some (region_of env place).
Proof.
  intros Ht Hty Hg (messageId & Hsend) Hf.
  pose proof (raise_eval env req w Ht Hty Hg) as E. cbn zeta in E.
  rewrite Hsend, storeSOSAlert_eval, Hf in E. cbn [snd] in E.
  eexists _, _, _. split; [exact E|]. split; [reflexivity|].
  split; [apply lookup_insert_eq|]. split; [reflexivity|].
  intros place Hplace. cbn [sos_alerts logged].
  assert (Hul : userLocation_of (userInfo req)
                  (default "" (ui_field ui_district (userInfo req))) = place).
  { unfold userLocation_of. rewrite or_else_truthy.
    destruct (Js.truthy (ui_field ui_location (userInfo req)));
      [rewrite Hplace; reflexivity | symmetry; exact Hplace]. }
  rewrite Hul, state_of_is_region.
  unfold merge_alert, alertData, when_truthy, merge_field. cbn.
  destruct (Js.is_empty (region_of env place)); cbn; [|reflexivity].
  destruct (sos_alerts w !! default "" (sender_id req)); reflexivity.
Qed.

(** C8, amended: on a raise that is answered 200 and whose snapshot write
    succeeds, take the reporter's location string, or, when the request has
    none, the district name with underscores turned into spaces and words
    capitalised. If its last comma-separated token, trimmed and upper-cased,
    is not empty, that is the region stored in the row; if it is empty no
    region is written and the row keeps the region it had. In particular,
    with the location [Manipal, Karnataka] the region stored is the upper
    case of [Karnataka], that is [KARNATAKA]. *)
Theorem raise_stores_region env req w :
  is_transition req -> sos_type req = Some "sos_alert" -> gate_open env req w ->
  (exists messageId, fcm_send env (transition_message env req) = Ret messageId) ->
  alert_set_fault env = None ->
  exists resp w' d,
    post_sos env req w = (Ret resp, w') /\ status resp = 200 /\
    sos_alerts w' !! default "" (sender_id req) = Some d /\
    a_active d = Some true /\
    (forall place,
      (if Js.truthy (ui_field ui_location (userInfo req))
       then ui_field ui_location (userInfo req) = Some place
       else place = Js.capitalize_words
                      (Js.underscores_to_spaces
                         (default "" (ui_field ui_district (userInfo req))))) ->
      a_state d = if Js.is_empty (region_of env place)
                  then sos_alerts w !! default "" (sender_id req) ≫= a_state
                  else Some (region_of env place)) /\
    (ui_field ui_location (userInfo req) = Some "Manipal, Karnataka" ->
     toUpperCase env "Karnataka" = "KARNATAKA" ->
     a_state d = Some "KARNATAKA").
Proof.
  intros Ht Hty Hg Hsend Hf.
  destruct (raise_region env req w Ht Hty Hg Hsend Hf)
    as (resp & w' & d & E & Hst & Hl & Ha & Hregion).
  exists resp, w', d. repeat (split; [assumption|]).
  intros Hloc Hup. rewrite (Hregion "Manipal, Karnataka").
  - assert (Htoken : Js.trim (after_last_comma "Manipal, Karnataka") = "Karnataka")
      by (vm_compute; reflexivity).
    unfold region_of. rewrite Htoken, Hup. reflexivity.
  - rewrite Hloc. reflexivity.
Qed.

Lemma raise_stores_region_witness :
  exists resp w' d,
    post_sos Sample.calm (Sample.raise_A "Manipal, Karnataka") Sample.empty_world
    = (Ret resp, w') /\
    status resp = 200 /\
    sos_alerts w' !! "A" = Some d /\
    a_state d = Some "KARNATAKA".
Proof.
  destruct (raise_stores_region Sample.calm (Sample.raise_A "Manipal, Karnataka")
              Sample.empty_world)
    as (resp & w' & d & E & Hst & Hl & _ & _ & Hregion).
  - repeat split; vm_compute; eauto.
  - reflexivity.
  - vm_compute. reflexivity.
  - eexists. vm_compute. reflexivity.
  - reflexivity.
  - exists resp, w', d. repeat split; [exact E | exact Hst | exact Hl |].
    apply Hregion; reflexivity.
Defined.

(** ** Authentication and the admin surface *)

Lemma same_data_refl w : same_data w w.
Proof. repeat split. Qed.

(** The middleware either answers 401 and leaves the world alone, or hands
    the verified principal to the rest of the route, in a world that differs
    at most by a granted claim. *)
Lemma authenticateUser_eval env authorization next w :
  match authenticated env authorization with
  | None => exists msg, authenticateUser env authorization next w = (Ret (unauthorized msg), w)
  | Some u => exists w1, authenticateUser env authorization next w = next u w1 /\ same_data w1 w
  end.
Proof.
  unfold authenticated, authenticateUser, auth_verifyIdToken, setSuperadminClaim. run.
  destruct (_ || _); [eauto|].
  destruct (verifyIdToken env _) as [t|]; [|eauto].
  destruct (isSuperAdmin (tok_email t) && negb (tok_superadmin t)); cbn [andb].
  - destruct (setClaims_fault env) as [e|].
    + rewrite bool_decide_eq_true_2 by discriminate. eauto.
    + rewrite bool_decide_eq_false_2 by (intros H; apply H; reflexivity).
      eexists. split; [reflexivity | repeat split].
  - eexists. split; [reflexivity | repeat split].
Qed.

Lemma create_refuses_super_admin env req user w :
  isSuperAdmin (ca_email req) = true ->
  exists resp, create_admin_handler env req user w = (Ret resp, w) /\ status resp = 400.
Proof.
  intros Hs. unfold create_admin_handler. run.
  destruct (ca_email req) as [email|]; [|discriminate].
  destruct (_ || _); [eexists; split; reflexivity|].
  cbv zeta. cbn [default]. unfold id.
  destruct (emailRegex_test email); cbn [negb]; [|eexists; split; reflexivity].
  rewrite Hs. eexists; split; reflexivity.
Qed.

Lemma update_refuses_super_admin env email req user w :
  isSuperAdmin (Some email) = true ->
  exists resp, update_admin_handler env email req user w = (Ret resp, w) /\ status resp = 400.
Proof.
  intros Hs. unfold update_admin_handler. run. rewrite Hs. eexists; split; reflexivity.
Qed.

Lemma delete_refuses_super_admin env email user w :
  isSuperAdmin (Some email) = true ->
  exists resp, delete_admin_handler env email user w = (Ret resp, w) /\ status resp = 400.
Proof.
  intros Hs. unfold delete_admin_handler. run. rewrite Hs. eexists; split; reflexivity.
Qed.

(** A route behind [authenticateUser] and [requireSuperAdmin] whose handler
    answers 400 without touching the world turns every caller away. *)
Lemma guarded_route_turns_away env authorization w (handler : User -> M Response) :
  (forall u w1, exists resp, handler u w1 = (Ret resp, w1) /\ status resp = 400) ->
  turned_away env authorization w
    (authenticateUser env authorization (fun u => requireSuperAdmin (Some u) handler) w).
Proof.
  intros Hh. unfold turned_away.
  pose proof (authenticateUser_eval env authorization
                (fun u => requireSuperAdmin (Some u) handler) w) as Ha.
  destruct (authenticated env authorization) as [u|].
  - destruct Ha as (w1 & -> & (_ & _ & Had & Hau & _)).
    unfold requireSuperAdmin. destruct (isSuperAdmin (user_email u)); cbn [negb].
    + destruct (Hh u w1) as (resp & -> & Hst). exists resp, w1. auto.
    + eexists _, w1. repeat split; assumption.
  - destruct Ha as (msg & ->). eexists _, w. repeat split.
Qed.

(** C9, as stated, fails: a caller without credentials who targets a
    super-admin email is answered 401, which is neither 400 nor 403. *)
Lemma anonymous_caller_gets_401 :
  "shamanthknr@gmail.com" ∈ SUPER_ADMINS /\
  exists resp,
    delete_admin_admins Sample.calm None "shamanthknr@gmail.com" Sample.empty_world
    = (Ret resp, Sample.empty_world) /\
    status resp = 401.
Proof.
  split; [apply (bool_decide_unpack _); vm_compute; exact I|].
  eexists. split; vm_compute; reflexivity.
Qed.

(** C9, amended: for every caller and every email on the super-admin
    allow-list, creating, updating and deleting an admin account with that
    email fail, with 401 when the caller does not authenticate, 403 when the
    caller is not a super-admin and 400 when the caller is one; no document of
    [admins] and no account of the identity provider is created, changed or
    deleted. *)
Theorem super_admin_accounts_are_immutable env authorization email w :
  email ∈ SUPER_ADMINS ->
  (forall pw districts,
     turned_away env authorization w
       (post_admin_admins env authorization (mkCreateAdminBody (Some email) pw districts) w)) /\
  (forall req,
     turned_away env authorization w (put_admin_admins env authorization email req w)) /\
  turned_away env authorization w (delete_admin_admins env authorization email w).
Proof.
  intros Hin.
  assert (Hs : isSuperAdmin (Some email) = true) by (apply bool_decide_eq_true; exact Hin).
  repeat split.
  - intros pw districts. apply guarded_route_turns_away.
    intros u w1. apply create_refuses_super_admin. exact Hs.
  - intros req. apply guarded_route_turns_away.
    intros u w1. apply update_refuses_super_admin. exact Hs.
  - apply guarded_route_turns_away.
    intros u w1. apply delete_refuses_super_admin. exact Hs.
Qed.

Lemma super_admin_accounts_are_immutable_witness :
  exists resp w',
    delete_admin_admins Sample.calm (Some "Bearer super-token")
      "karthik.dhanya11@gmail.com" Sample.empty_world = (Ret resp, w') /\
    admins w' = admins Sample.empty_world /\
    auth_users w' = auth_users Sample.empty_world /\
    status resp = 400.
Proof.
  destruct (super_admin_accounts_are_immutable Sample.calm (Some "Bearer super-token")
              "karthik.dhanya11@gmail.com" Sample.empty_world) as (_ & _ & H).
  - apply (bool_decide_unpack _). vm_compute. exact I.
  - destruct H as (resp & w' & E & Ha & Hu & Hst).
    exists resp, w'. repeat split; assumption.
Defined.

(** ** The user listing *)



(** The listing for a super-admin. *)
Lemma users_handler_super env q u w :
  isSuperAdmin (user_email u) = true ->
  users_handler env q u w
  = try_catch (list_users env q true [])
      (fun e => mret (server_error "Failed to retrieve users" e)) w.
Proof. intros Hs. unfold users_handler. rewrite Hs. reflexivity. Qed.

(** The listing for an active regular admin. *)
Lemma users_handler_admin env q u e doc w :
  user_email u = Some e -> e <> "" -> e ∉ SUPER_ADMINS ->
  admins_get_fault env = None ->
  admins w !! e = Some doc -> active doc = Some true ->
  users_handler env q u w
  = try_catch (list_users env q false (default [] (assignedDistricts doc)))
      (fun e => mret (server_error "Failed to retrieve users" e)) w.
Proof.
  intros He Hne Hns Hf Hdoc Hact. unfold users_handler, getAdmin. rewrite He.
  assert (Hs : isSuperAdmin (Some e) = false) by (apply bool_decide_eq_false; exact Hns).
  rewrite Hs. cbn [negb]. run.
  assert (Ht : Js.truthy (Some e) = true) by (destruct e; [congruence | reflexivity]).
  rewrite Ht, Hf. cbn [negb default]. cbv beta iota zeta. unfold id.
  rewrite Hdoc, Hact.
  rewrite bool_decide_eq_true_2 by reflexivity. reflexivity.
Qed.

(** The listing on the sample data: with an empty scope the admin sees the
    senders of both districts, with the scope [udupi] only that district's. *)
Example listing_by_scope :
  (exists w', get_admin_users Sample.calm (Some "Bearer admin-token") Sample.first_page
                (Sample.two_districts (Some []))
              = (Ret (respond 200
                        [("success", JBool true);
                         ("users", JArr [user_json (mkUserRow "A" "Asha" "N/A" "KARNATAKA" "udupi" None);
                                         user_json (mkUserRow "B" "Bala" "N/A" "KARNATAKA" "mangalore" None)]);
                         ("total", JNum 2); ("page", JNum 1); ("pageSize", JNum 50);
                         ("totalPages", JNum 1);
                         ("timestamp", JDate (now Sample.calm))]), w')) /\
  (exists w', get_admin_users Sample.calm (Some "Bearer admin-token") Sample.first_page
                (Sample.two_districts (Some ["udupi"]))
              = (Ret (respond 200
                        [("success", JBool true);
                         ("users", JArr [user_json (mkUserRow "A" "Asha" "N/A" "KARNATAKA" "udupi" None)]);
                         ("total", JNum 1); ("page", JNum 1); ("pageSize", JNum 50);
                         ("totalPages", JNum 1);
                         ("timestamp", JDate (now Sample.calm))]), w')).
Proof. split; eexists; vm_compute; reflexivity. Qed.

(** * Further properties of the code *)

(** ** What a [/sos] request can change *)

(** Every outcome of [/sos]: what the answer is and what has changed. *)
Lemma post_sos_effects env req w :
  exists resp w',
    post_sos env req w = (Ret resp, w') /\
    blocked_users w' = blocked_users w /\ admins w' = admins w /\
    auth_users w' = auth_users w /\ auth_claims w' = auth_claims w /\
    (forall id, id <> default "" (sender_id req) ->
                sos_alerts w' !! id = sos_alerts w !! id) /\
    (is_Some (sos_alerts w !! default "" (sender_id req)) ->
     is_Some (sos_alerts w' !! default "" (sender_id req))) /\
    (((status resp = 400 \/ status resp = 403) /\ w' = w) \/
     (status resp = 500 /\ sos_alerts w' = sos_alerts w /\
      exists m, calls w' = (calls w ++ [EvSend m false])%list) \/
     (status resp = 200 /\
      exists m ok, calls w' = (calls w ++ [EvSend m true;
                                           EvAlertSet (default "" (sender_id req)) ok])%list)).
Proof.
  assert (Hquiet : forall resp, (status resp = 400 \/ status resp = 403) ->
            exists resp0 w',
              (Ret resp, w) = (Ret resp0, w') /\
              blocked_users w' = blocked_users w /\ admins w' = admins w /\
              auth_users w' = auth_users w /\ auth_claims w' = auth_claims w /\
              (forall id, id <> default "" (sender_id req) ->
                          sos_alerts w' !! id = sos_alerts w !! id) /\
              (is_Some (sos_alerts w !! default "" (sender_id req)) ->
               is_Some (sos_alerts w' !! default "" (sender_id req))) /\
              (((status resp0 = 400 \/ status resp0 = 403) /\ w' = w) \/
               (status resp0 = 500 /\ sos_alerts w' = sos_alerts w /\
                exists m, calls w' = (calls w ++ [EvSend m false])%list) \/
               (status resp0 = 200 /\
                exists m ok, calls w' = (calls w ++ [EvSend m true;
                                                     EvAlertSet (default "" (sender_id req)) ok])%list))).
  { intros resp Hst. exists resp, w. repeat split; auto. }
  unfold post_sos, post_sos_try. run.
  destruct (_ || _); [apply Hquiet; left; reflexivity|].
  rewrite isSenderBlocked_eval.
  match goal with |- context [if ?b then _ else _] => destruct b end;
    [apply Hquiet; right; reflexivity|].
  unfold post_sos_dispatch, messaging_send. run.
  destruct (negb (bool_decide _)); [apply Hquiet; left; reflexivity|].
  destruct (bool_decide (_ = "stop")).
  - destruct (negb (Js.truthy _)); [apply Hquiet; left; reflexivity|].
    destruct (fcm_send env _) as [messageId|e].
    + rewrite storeSOSAlert_eval.
      destruct (alert_set_fault env); eexists _, _; (split; [reflexivity|]); cbn;
        repeat split; try reflexivity; try tauto;
        try (intros id Hid; rewrite lookup_insert_ne by congruence; reflexivity);
        try (intros _; rewrite lookup_insert_eq; eauto);
        right; right; (split; [reflexivity|]); eexists _, _;
        rewrite <- app_assoc; reflexivity.
    + eexists _, _. split; [reflexivity|]. cbn. repeat split; try tauto.
      right; left. repeat split. eexists; reflexivity.
  - destruct (bool_decide (_ = "sos_alert")); [|apply Hquiet; left; reflexivity].
    destruct (negb (Js.truthy _)); [apply Hquiet; left; reflexivity|].
    destruct (fcm_send env _) as [messageId|e].
    + rewrite storeSOSAlert_eval.
      destruct (alert_set_fault env); eexists _, _; (split; [reflexivity|]); cbn;
        repeat split; try reflexivity; try tauto;
        try (intros id Hid; rewrite lookup_insert_ne by congruence; reflexivity);
        try (intros _; rewrite lookup_insert_eq; eauto);
        right; right; (split; [reflexivity|]); eexists _, _;
        rewrite <- app_assoc; reflexivity.
    + eexists _, _. split; [reflexivity|]. cbn. repeat split; try tauto.
      right; left. repeat split. eexists; reflexivity.
Qed.

(** X1: a [/sos] request is answered 200, 400, 403 or 500. An answer of 400
    or 403 leaves the world exactly as it was: nothing is sent and nothing is
    written. An answer other than 200 leaves every alert row as it was. *)
Theorem sos_refusal_changes_nothing env req w :
  exists resp w',
    post_sos env req w = (Ret resp, w') /\
    (status resp = 200 \/ status resp = 400 \/ status resp = 403 \/ status resp = 500) /\
    (status resp <> 200 -> sos_alerts w' = sos_alerts w) /\
    (status resp = 400 \/ status resp = 403 -> w' = w).
Proof.
  destruct (post_sos_effects env req w)
    as (resp & w' & E & _ & _ & _ & _ & _ & _ & [[Hst ->] | [(Hst & Ha & _) | (Hst & _)]]).
  - exists resp, w. repeat split; [exact E | tauto | ..]; auto.
  - exists resp, w'. rewrite Hst. repeat split; [exact E | tauto | auto |].
    intros [H|H]; discriminate.
  - exists resp, w'. rewrite Hst. repeat split; [exact E | tauto | congruence |].
    intros [H|H]; discriminate.
Qed.

Lemma sos_refusal_changes_nothing_witness :
  exists resp,
    post_sos Sample.calm Sample.stop_A_without_location Sample.three_rows
    = (Ret resp, Sample.three_rows) /\ status resp = 400.
Proof.
  destruct (sos_refusal_changes_nothing Sample.calm Sample.stop_A_without_location
              Sample.three_rows) as (resp & w' & E & _ & _ & Hsame).
  assert (Hst : status resp = 400).
  { vm_compute in E. inversion E. reflexivity. }
  exists resp. rewrite <- (Hsame (or_introl Hst)) at 2. split; [exact E | exact Hst].
Defined.

(** X2: a [/sos] request changes no alert row but the sender's own, and no
    block record, admin document, account or claim. *)
Theorem sos_touches_only_the_senders_row env req w :
  exists resp w',
    post_sos env req w = (Ret resp, w') /\
    blocked_users w' = blocked_users w /\ admins w' = admins w /\
    auth_users w' = auth_users w /\ auth_claims w' = auth_claims w /\
    forall id, id <> default "" (sender_id req) ->
               sos_alerts w' !! id = sos_alerts w !! id.
Proof.
  destruct (post_sos_effects env req w) as (resp & w' & E & Hb & Ha & Hu & Hc & Hrows & _).
  exists resp, w'. repeat split; assumption.
Qed.

Lemma sos_touches_only_the_senders_row_witness :
  exists resp w',
    post_sos Sample.calm Sample.stop_A Sample.three_rows = (Ret resp, w') /\
    sos_alerts w' !! "B" = sos_alerts Sample.three_rows !! "B".
Proof.
  destruct (sos_touches_only_the_senders_row Sample.calm Sample.stop_A Sample.three_rows)
    as (resp & w' & E & _ & _ & _ & _ & Hrows).
  exists resp, w'. split; [exact E|]. apply Hrows. vm_compute. discriminate.
Defined.

(** ** More on the sweeper *)

(** The sweeper once its query has gone through: with nothing due it commits
    nothing; otherwise its outcome is that of the one batch commit. *)
Lemma sweep_unfold env w :
  alerts_query_fault env = None ->
  expireOldAlertsScheduled env w =
  if (0 <? List.length (due_rows env w))%nat
  then match batch_commit env (due_rows env w).*1 w with
       | (Ret _, w') => (Ret (sweep_report env w), w')
       | (Throw e, w') => (Throw e, w')
       end
  else (Ret (sweep_report env w), w).
Proof.
  intros Hq.
  unfold expireOldAlertsScheduled, expireOldAlerts, query_active_alerts, sweep_report, due_rows.
  cbn [ENABLE_SOS_ALERT_SNAPSHOT negb]. run. rewrite Hq. cbv beta iota zeta.
  rewrite length_fmap.
  match goal with
  | |- context [(0 <? ?n)%nat] => destruct (0 <? n)%nat
  end; [|reflexivity].
  destruct (batch_commit env _ w) as [[[]|e] w']; reflexivity.
Qed.

Lemma due_rows_nil_iff env w :
  due_rows env w = [] <->
  forall id d, sos_alerts w !! id = Some d -> is_stale env d = false.
Proof.
  split.
  - intros Hnil id d Hl. destruct (is_stale env d) eqn:Es; [|reflexivity].
    assert (Hin : (id, d) ∈ due_rows env w) by (apply due_rows_spec; auto).
    rewrite Hnil in Hin. exfalso. exact (not_elem_of_nil _ Hin).
  - intros Hall. destruct (due_rows env w) as [|[id d] l] eqn:E; [reflexivity|].
    assert (Hin : (id, d) ∈ due_rows env w) by (rewrite E; left).
    apply due_rows_spec in Hin as [Hl Hs]. rewrite (Hall id d Hl) in Hs. discriminate.
Qed.

(** With no row due the sweeper commits nothing and reports no expiration. *)
Lemma sweep_nothing_due env w :
  alerts_query_fault env = None ->
  (forall id d, sos_alerts w !! id = Some d -> is_stale env d = false) ->
  exists r, expireOldAlertsScheduled env w = (Ret r, w) /\ expired r = 0%nat.
Proof.
  intros Hq Hall. rewrite (sweep_unfold env w Hq).
  assert (Hnil : due_rows env w = []) by (apply due_rows_nil_iff; exact Hall).
  rewrite Hnil. cbn [List.length Nat.ltb Nat.leb].
  eexists. split; [reflexivity|]. unfold sweep_report. rewrite Hnil. reflexivity.
Qed.

(** X3: a sweep whose query fails throws the storage error and changes
    nothing; a sweep whose batch commit fails, with at least one row due,
    throws the storage error and leaves every alert row as it was; and a sweep
    with no row due does not commit at all, so it succeeds whatever the commit
    would have done. *)
Theorem sweep_failure_is_surfaced env w e :
  (alerts_query_fault env = Some e ->
   expireOldAlertsScheduled env w = (Throw e, w)) /\
  (alerts_query_fault env = None -> batch_commit_fault env = Some e ->
   (exists id d, sos_alerts w !! id = Some d /\ is_stale env d = true) ->
   exists w', expireOldAlertsScheduled env w = (Throw e, w') /\
              sos_alerts w' = sos_alerts w) /\
  (alerts_query_fault env = None ->
   (forall id d, sos_alerts w !! id = Some d -> is_stale env d = false) ->
   exists r, expireOldAlertsScheduled env w = (Ret r, w) /\ expired r = 0%nat).
Proof.
  repeat split.
  - intros Hq. unfold expireOldAlertsScheduled, expireOldAlerts, query_active_alerts.
    cbn [ENABLE_SOS_ALERT_SNAPSHOT negb]. run. rewrite Hq. reflexivity.
  - intros Hq Hc (id & d & Hl & Hs). rewrite (sweep_unfold env w Hq).
    assert (Hin : (id, d) ∈ due_rows env w) by (apply due_rows_spec; auto).
    destruct (due_rows env w) as [|x l] eqn:E; [exfalso; exact (not_elem_of_nil _ Hin)|].
    cbn [List.length Nat.ltb Nat.leb]. unfold batch_commit. rewrite Hc.
    eexists. split; reflexivity.
  - apply sweep_nothing_due.
Qed.

Lemma sweep_failure_is_surfaced_witness :
  expireOldAlertsScheduled (Sample.sweep_env (Some "UNAVAILABLE") None) Sample.three_rows
  = (Throw "UNAVAILABLE", Sample.three_rows) /\
  (exists w', expireOldAlertsScheduled (Sample.sweep_env None (Some "UNAVAILABLE"))
                Sample.three_rows = (Throw "UNAVAILABLE", w') /\
              sos_alerts w' = sos_alerts Sample.three_rows) /\
  (exists r, expireOldAlertsScheduled (Sample.sweep_env None (Some "UNAVAILABLE"))
               Sample.empty_world = (Ret r, Sample.empty_world) /\ expired r = 0%nat).
Proof.
  split; [|split].
  - apply (sweep_failure_is_surfaced (Sample.sweep_env (Some "UNAVAILABLE") None)
             Sample.three_rows "UNAVAILABLE"). reflexivity.
  - apply (sweep_failure_is_surfaced (Sample.sweep_env None (Some "UNAVAILABLE"))
             Sample.three_rows "UNAVAILABLE"); [reflexivity | reflexivity |].
    exists "A", (Sample.alert_row "A" true 1700000000000).
    split; vm_compute; reflexivity.
  - apply (sweep_failure_is_surfaced (Sample.sweep_env None (Some "UNAVAILABLE"))
             Sample.empty_world "UNAVAILABLE"); [reflexivity|].
    intros id d Hl. vm_compute in Hl. discriminate.
Defined.

Lemma expire_update_not_stale env1 env2 d : is_stale env2 (expire_update env1 d) = false.
Proof. reflexivity. Qed.

(** X4: sweeping is idempotent: after a sweep that went through, a second
    sweep at the same instant finds nothing to expire and leaves every row as
    the first one left it. *)
Theorem sweep_twice_is_sweep_once env w :
  alerts_query_fault env = None -> batch_commit_fault env = None ->
  exists r1 w1 r2 w2,
    expireOldAlertsScheduled env w = (Ret r1, w1) /\
    expireOldAlertsScheduled env w1 = (Ret r2, w2) /\
    expired r2 = 0%nat /\
    sos_alerts w2 = sos_alerts w1.
Proof.
  intros Hq Hc.
  destruct (sweep_eval env w Hq Hc) as (r1 & w1 & E1 & Hrows1 & _).
  assert (Hfresh : forall id d, sos_alerts w1 !! id = Some d -> is_stale env d = false).
  { intros id d. rewrite Hrows1. destruct (sos_alerts w !! id) as [d0|]; [|discriminate].
    cbn. intros [= <-]. destruct (is_stale env d0) eqn:Es; [reflexivity | exact Es]. }
  destruct (sweep_nothing_due env w1 Hq Hfresh) as (r2 & E2 & Hn).
  exists r1, w1, r2, w1. repeat split; assumption.
Qed.

Lemma sweep_twice_is_sweep_once_witness :
  exists r1 w1 r2 w2,
    expireOldAlertsScheduled Sample.calm Sample.three_rows = (Ret r1, w1) /\
    expireOldAlertsScheduled Sample.calm w1 = (Ret r2, w2) /\
    expired r2 = 0%nat /\
    sos_alerts w2 = sos_alerts w1.
Proof.
  apply (sweep_twice_is_sweep_once Sample.calm Sample.three_rows); reflexivity.
Defined.

(** The batch of a sweep names rows that exist, so the commit goes through
    unless the storage fails. *)
Lemma batch_commit_due env w :
  batch_commit_fault env = None ->
  exists w', batch_commit env (due_rows env w).*1 w = (Ret tt, w').
Proof.
  intros Hc. unfold batch_commit. rewrite Hc.
  assert (Hall : forallb (fun id => bool_decide (is_Some (sos_alerts w !! id)))
                   (due_rows env w).*1 = true).
  { apply forallb_forall. intros id Hin. apply list_elem_of_In in Hin.
    apply list_elem_of_fmap in Hin as ([id' d] & -> & Hin).
    apply due_rows_spec in Hin as [Hl _].
    apply bool_decide_eq_true. cbn. rewrite Hl. eauto. }
  rewrite Hall. eauto.
Qed.

(** X5: the report of a sweep that went through. It counts as checked the
    active rows and as expired the entries of its list, never more than it
    checked; every entry names a row that was active and older than the
    threshold, with that row's district and an age of at least sixty
    minutes. *)
Theorem sweep_report_is_sound env w :
  alerts_query_fault env = None -> batch_commit_fault env = None ->
  exists r w',
    expireOldAlertsScheduled env w = (Ret r, w') /\
    enabled r = true /\
    expired r = List.length (expiredAlerts r) /\
    (expired r <= checked r)%nat /\
    checked r = size (filter (fun kv : string * AlertDoc => a_active kv.2 = Some true)
                        (sos_alerts w)) /\
    forall a, a ∈ expiredAlerts r ->
      60 <= age_minutes a /\
      exists d, sos_alerts w !! ex_sender_id a = Some d /\ is_stale env d = true /\
                ex_district a = a_district d.
Proof.
  intros Hq Hc. rewrite (sweep_unfold env w Hq).
  destruct (batch_commit_due env w Hc) as (wc & Ec). rewrite Ec.
  assert (Hr : enabled (sweep_report env w) = true /\
            expired (sweep_report env w) = List.length (expiredAlerts (sweep_report env w)) /\
            (expired (sweep_report env w) <= checked (sweep_report env w))%nat /\
            checked (sweep_report env w)
            = size (filter (fun kv : string * AlertDoc => a_active kv.2 = Some true)
                      (sos_alerts w)) /\
            forall a, a ∈ expiredAlerts (sweep_report env w) ->
              60 <= age_minutes a /\
              exists d, sos_alerts w !! ex_sender_id a = Some d /\ is_stale env d = true /\
                        ex_district a = a_district d).
  { unfold sweep_report. cbn. split; [reflexivity|]. split; [reflexivity|].
    split; [|split].
    - rewrite length_fmap. unfold due_rows. apply length_filter.
    - apply length_map_to_list.
    - intros a Ha. apply list_elem_of_fmap in Ha as ([id d] & -> & Hin). cbn.
      apply due_rows_spec in Hin as [Hl Hs]. split; [|eauto].
      unfold is_stale in Hs. apply andb_true_iff in Hs as [_ Hs].
      destruct (a_timestamp d) as [t|]; [|discriminate]. cbn.
      apply Z.ltb_lt in Hs. unfold ALERT_EXPIRATION_THRESHOLD_MS in Hs.
      apply Z.div_le_lower_bound; lia. }
  destruct (0 <? List.length (due_rows env w))%nat; eexists _, _; (split; [reflexivity|]);
    exact Hr.
Qed.

Lemma sweep_report_is_sound_witness :
  exists r w',
    expireOldAlertsScheduled Sample.calm Sample.three_rows = (Ret r, w') /\
    expired r = 1%nat /\ checked r = 2%nat /\
    forall a, a ∈ expiredAlerts r -> 60 <= age_minutes a.
Proof.
  destruct (sweep_report_is_sound Sample.calm Sample.three_rows)
    as (r & w' & E & _ & Hn & _ & Hc & Hage); [reflexivity | reflexivity |].
  exists r, w'. split; [exact E|]. split; [|split].
  - vm_compute in E. inversion E. reflexivity.
  - rewrite Hc. vm_compute. reflexivity.
  - intros a Ha. apply (Hage a Ha).
Defined.

(** ** More on the alert lifecycle *)

(** The block gate reads nothing but the block records. *)
Lemma gate_open_same_blocked env req w w1 :
  blocked_users w1 = blocked_users w -> gate_open env req w -> gate_open env req w1.
Proof.
  unfold gate_open. rewrite !isSenderBlocked_eval. intros ->.
  destruct (blocked_get_fault env); [reflexivity|].
  destruct (blocked_users w !! _) as [d|]; [|reflexivity].
  destruct (blocked d); [discriminate | reflexivity].
Qed.

(** A raise that is delivered and stored: the answer, the row and the calls. *)
Lemma raise_row env req w :
  is_transition req -> sos_type req = Some "sos_alert" -> gate_open env req w ->
  (exists messageId, fcm_send env (transition_message env req) = Ret messageId) ->
  alert_set_fault env = None ->
  exists resp w',
    post_sos env req w = (Ret resp, w') /\ status resp = 200 /\
    blocked_users w' = blocked_users w /\
    calls w' = (calls w ++ [EvSend (transition_message env req) true;
                            EvAlertSet (default "" (sender_id req)) true])%list /\
    sos_alerts w' !! default "" (sender_id req)
    = Some (merge_alert
              (alertData env (default "" (sender_id req)) true (location req) (userInfo req)
                 (Some (default "" (ui_field ui_district (userInfo req))))
                 (Some (state_of env (userLocation_of (userInfo req)
                                    (default "" (ui_field ui_district (userInfo req)))))))
              (sos_alerts w !! default "" (sender_id req))).
Proof.
  intros Ht Hty Hg (messageId & Hsend) Hf.
  pose proof (raise_eval env req w Ht Hty Hg) as E. cbn zeta in E.
  rewrite Hsend, storeSOSAlert_eval, Hf in E. cbn [snd] in E.
  eexists _, _. split; [exact E|]. split; [reflexivity|]. split; [reflexivity|].
  split; [cbn; rewrite <- app_assoc; reflexivity|]. cbn. apply lookup_insert_eq.
Qed.

(** A resolve that is delivered and stored. *)
Lemma resolve_row env req w :
  is_transition req -> sos_type req = Some "stop" -> gate_open env req w ->
  (exists messageId, fcm_send env (transition_message env req) = Ret messageId) ->
  alert_set_fault env = None ->
  exists resp w',
    post_sos env req w = (Ret resp, w') /\ status resp = 200 /\
    blocked_users w' = blocked_users w /\
    calls w' = (calls w ++ [EvSend (transition_message env req) true;
                            EvAlertSet (default "" (sender_id req)) true])%list /\
    sos_alerts w' !! default "" (sender_id req)
    = Some (merge_alert
              (alertData env (default "" (sender_id req)) false None None None None)
              (sos_alerts w !! default "" (sender_id req))).
Proof.
  intros Ht Hty Hg (messageId & Hsend) Hf.
  pose proof (resolve_eval env req w Ht Hty Hg) as E. cbn zeta in E.
  rewrite Hsend, storeSOSAlert_eval, Hf in E. cbn [snd] in E.
  eexists _, _. split; [exact E|]. split; [reflexivity|]. split; [reflexivity|].
  split; [cbn; rewrite <- app_assoc; reflexivity|]. cbn. apply lookup_insert_eq.
Qed.

Lemma transition_has_userInfo req :
  is_transition req -> exists ui, userInfo req = Some ui /\ Js.truthy (ui_district ui) = true.
Proof.
  intros (_ & _ & Hd). destruct (userInfo req) as [ui|]; [|discriminate]. eauto.
Qed.

(** X6: after a raise that is delivered and stored, the sender's row is
    active, stamped with the server time, and holds the request's district,
    the reporter's name, phone (as [mobile_number]) and message with their
    defaults, and every coordinate of the request; with no earlier row the
    location is exactly the request's. *)
Theorem raise_snapshot_reflects_request env req w loc ui :
  is_transition req -> sos_type req = Some "sos_alert" -> gate_open env req w ->
  (exists messageId, fcm_send env (transition_message env req) = Ret messageId) ->
  alert_set_fault env = None ->
  location req = Some loc -> userInfo req = Some ui ->
  exists resp w' d l,
    post_sos env req w = (Ret resp, w') /\ status resp = 200 /\
    sos_alerts w' !! default "" (sender_id req) = Some d /\
    a_sender_id d = sender_id req /\
    a_active d = Some true /\
    a_timestamp d = Some (server_time env) /\
    a_district d = ui_district ui /\
    a_userInfo d = Some (mkStoredUserInfo
                           (Js.or_else (ui_name ui) "Unknown")
                           (Js.or_else (ui_phone ui) (Js.or_else (ui_mobile_number ui) "N/A"))
                           (Js.or_else (ui_message ui) "")) /\
    a_location d = Some l /\
    (forall k v, loc !! k = Some v -> l !! k = Some v) /\
    (sos_alerts w !! default "" (sender_id req) = None -> l = loc).
Proof.
  intros Ht Hty Hg Hsend Hf Hloc Hui.
  destruct (raise_row env req w Ht Hty Hg Hsend Hf) as (resp & w' & E & Hst & _ & _ & Hrow).
  destruct Ht as ((Hsid & _ & _) & _ & Hd). rewrite Hui in Hd. cbn in Hd.
  rewrite Hloc, Hui in Hrow. cbn [ui_field mbind option_bind] in Hrow.
  destruct (sender_id req) as [sid|] eqn:Es; [|discriminate].
  destruct (ui_district ui) as [district|] eqn:Ed; [|discriminate].
  cbn [default] in *.
  eexists resp, w', _,
    (match sos_alerts w !! sid ≫= a_location with
     | Some o => if decide (loc = ∅) then loc else loc ∪ o
     | None => loc
     end).
  split; [exact E|]. split; [exact Hst|]. split; [exact Hrow|].
  unfold merge_alert, alertData, when_truthy. cbn -[merge_location].
  change (Js.truthy (Some district)) with (negb (Js.is_empty district)).
  cbn in Hd. rewrite Hd. cbn -[merge_location].
  repeat split.
  - destruct (sos_alerts w !! sid) as [old|]; cbn; [|reflexivity].
    destruct (a_location old); reflexivity.
  - intros k v Hk. destruct (sos_alerts w !! sid ≫= a_location) as [o|]; [|exact Hk].
    destruct (decide (loc = ∅)); [exact Hk|]. apply lookup_union_Some_l. exact Hk.
  - intros ->. reflexivity.
Qed.

Lemma raise_snapshot_reflects_request_witness :
  exists resp w' d,
    post_sos Sample.calm (Sample.raise_A "Manipal, Karnataka") Sample.empty_world
    = (Ret resp, w') /\
    sos_alerts w' !! "A" = Some d /\
    a_active d = Some true /\
    a_district d = Some "udupi" /\
    a_userInfo d = Some (mkStoredUserInfo "Jane" "+91-9876543210" "") /\
    a_location d = Some Sample.here.
Proof.
  destruct (raise_snapshot_reflects_request Sample.calm (Sample.raise_A "Manipal, Karnataka")
              Sample.empty_world Sample.here (Sample.jane "Manipal, Karnataka"))
    as (resp & w' & d & l & E & _ & Hrow & _ & Ha & _ & Hd & Hu & Hl & _ & Hfresh).
  - repeat split; vm_compute; eauto.
  - reflexivity.
  - vm_compute. reflexivity.
  - eexists. vm_compute. reflexivity.
  - reflexivity.
  - reflexivity.
  - reflexivity.
  - exists resp, w', d. repeat split; try assumption.
    rewrite Hl, Hfresh; [reflexivity | vm_compute; reflexivity].
Defined.

Lemma foldr_alter_is_Some (f : AlertDoc -> AlertDoc) (ids : list string)
    (m : gmap string AlertDoc) (id : string) :
  is_Some (m !! id) -> is_Some (foldr (fun i acc => alter f i acc) m ids !! id).
Proof.
  intros Hm. induction ids as [|a ids IH]; [exact Hm|]. cbn [foldr].
  rewrite lookup_alter. destruct (decide (a = id)) as [->|_]; [|exact IH].
  destruct IH as [x ->]. cbn. eauto.
Qed.

(** Whatever happens to a sweep, the rows that were stored are still stored
    and the block records are as they were. *)
Lemma sweep_keeps_rows env w :
  blocked_users (expireOldAlertsScheduled env w).2 = blocked_users w /\
  forall id, is_Some (sos_alerts w !! id) ->
             is_Some (sos_alerts (expireOldAlertsScheduled env w).2 !! id).
Proof.
  destruct (alerts_query_fault env) as [e|] eqn:Hq.
  - unfold expireOldAlertsScheduled, expireOldAlerts, query_active_alerts.
    cbn [ENABLE_SOS_ALERT_SNAPSHOT negb]. run. rewrite Hq. cbn. auto.
  - rewrite (sweep_unfold env w Hq).
    destruct (0 <? List.length (due_rows env w))%nat; [|cbn; auto].
    unfold batch_commit. destruct (batch_commit_fault env); [cbn; auto|].
    destruct (forallb _ _); cbn; [|auto].
    split; [reflexivity|]. intros id. apply foldr_alter_is_Some.
Qed.

(** X7: alert rows are never deleted: a sender that has a row still has one
    after any [/sos] request and after any sweep, whether they succeed or
    fail. *)
Theorem alert_rows_are_never_deleted env w id :
  is_Some (sos_alerts w !! id) ->
  (forall req, is_Some (sos_alerts (post_sos env req w).2 !! id)) /\
  is_Some (sos_alerts (expireOldAlertsScheduled env w).2 !! id).
Proof.
  intros Hrow. split.
  - intros req.
    destruct (post_sos_effects env req w) as (resp & w' & E & _ & _ & _ & _ & Hother & Hown & _).
    rewrite E. cbn [snd].
    destruct (decide (id = default "" (sender_id req))) as [->|Hne].
    + apply Hown. exact Hrow.
    + rewrite (Hother id Hne). exact Hrow.
  - apply sweep_keeps_rows. exact Hrow.
Qed.

Lemma alert_rows_are_never_deleted_witness :
  is_Some (sos_alerts (post_sos Sample.calm Sample.stop_A Sample.three_rows).2 !! "A") /\
  is_Some (sos_alerts (expireOldAlertsScheduled Sample.calm Sample.three_rows).2 !! "A").
Proof.
  destruct (alert_rows_are_never_deleted Sample.calm Sample.three_rows "A") as [H1 H2].
  - vm_compute. eauto.
  - split; [apply H1 | exact H2].
Defined.



(** X9: a raise does not clear the stamps of an earlier expiration: when the
    sweeper has expired a sender's row and the sender raises again, the row is
    active and still carries [expiredAt] and [expiredBy = "scheduled_job"]. *)
Theorem reraised_row_keeps_expiry_stamps env req w d0 :
  is_transition req -> sos_type req = Some "sos_alert" -> gate_open env req w ->
  (exists messageId, fcm_send env (transition_message env req) = Ret messageId) ->
  alert_set_fault env = None ->
  alerts_query_fault env = None -> batch_commit_fault env = None ->
  sos_alerts w !! default "" (sender_id req) = Some d0 -> is_stale env d0 = true ->
  exists r w1 resp w2 d,
    expireOldAlertsScheduled env w = (Ret r, w1) /\
    post_sos env req w1 = (Ret resp, w2) /\ status resp = 200 /\
    sos_alerts w2 !! default "" (sender_id req) = Some d /\
    a_active d = Some true /\
    a_expiredBy d = Some "scheduled_job" /\
    a_expiredAt d = Some (server_time env).
Proof.
  intros Ht Hty Hg Hsend Hf Hq Hc Hrow Hstale.
  destruct (sweep_eval env w Hq Hc) as (r & w1 & E & Hrows & _).
  assert (Hb : blocked_users w1 = blocked_users w).
  { pose proof (proj1 (sweep_keeps_rows env w)) as H. rewrite E in H. exact H. }
  destruct (raise_row env req w1 Ht Hty (gate_open_same_blocked env req w w1 Hb Hg) Hsend Hf)
    as (resp & w2 & E2 & Hst & _ & _ & Hrow2).
  rewrite Hrows, Hrow in Hrow2. cbn [fmap option_fmap option_map] in Hrow2.
  rewrite Hstale in Hrow2.
  eexists r, w1, resp, w2, _.
  split; [exact E|]. split; [exact E2|]. split; [exact Hst|]. split; [exact Hrow2|].
  repeat split.
Qed.

Lemma reraised_row_keeps_expiry_stamps_witness :
  exists r w1 resp w2 d,
    expireOldAlertsScheduled Sample.calm Sample.three_rows = (Ret r, w1) /\
    post_sos Sample.calm (Sample.raise_A "Udupi") w1 = (Ret resp, w2) /\
    sos_alerts w2 !! "A" = Some d /\
    a_active d = Some true /\
    a_expiredBy d = Some "scheduled_job".
Proof.
  destruct (reraised_row_keeps_expiry_stamps Sample.calm (Sample.raise_A "Udupi")
              Sample.three_rows (Sample.alert_row "A" true 1700000000000))
    as (r & w1 & resp & w2 & d & E1 & E2 & _ & Hrow & Ha & Hb & _).
  - repeat split; vm_compute; eauto.
  - reflexivity.
  - vm_compute. reflexivity.
  - eexists. vm_compute. reflexivity.
  - reflexivity.
  - reflexivity.
  - reflexivity.
  - vm_compute. reflexivity.
  - vm_compute. reflexivity.
  - exists r, w1, resp, w2, d. repeat split; assumption.
Defined.

(** X10: a resolve that is delivered and stored leaves the sender's row
    inactive and stamped with the server time, whatever the row was before;
    for a sender that had no row it creates one, holding the sender id, the
    flag and the time and nothing else. *)
Theorem resolve_creates_or_deactivates env req w :
  is_transition req -> sos_type req = Some "stop" -> gate_open env req w ->
  (exists messageId, fcm_send env (transition_message env req) = Ret messageId) ->
  alert_set_fault env = None ->
  exists resp w' d,
    post_sos env req w = (Ret resp, w') /\ status resp = 200 /\
    sos_alerts w' !! default "" (sender_id req) = Some d /\
    a_active d = Some false /\
    a_timestamp d = Some (server_time env) /\
    (sos_alerts w !! default "" (sender_id req) = None ->
     d = mkAlertDoc (Some (default "" (sender_id req))) (Some false)
                    (Some (server_time env)) None None None None None None).
Proof.
  intros Ht Hty Hg Hsend Hf.
  destruct (resolve_row env req w Ht Hty Hg Hsend Hf) as (resp & w' & E & Hst & _ & _ & Hrow).
  eexists resp, w', _. split; [exact E|]. split; [exact Hst|]. split; [exact Hrow|].
  split; [reflexivity|]. split; [reflexivity|]. intros ->. reflexivity.
Qed.

Lemma resolve_creates_or_deactivates_witness :
  exists resp w',
    post_sos Sample.calm Sample.stop_A Sample.empty_world = (Ret resp, w') /\
    sos_alerts w' !! "A"
    = Some (mkAlertDoc (Some "A") (Some false) (Some (server_time Sample.calm))
                       None None None None None None).
Proof.
  destruct (resolve_creates_or_deactivates Sample.calm Sample.stop_A Sample.empty_world)
    as (resp & w' & d & E & _ & Hrow & _ & _ & Hbare).
  - repeat split; vm_compute; eauto.
  - reflexivity.
  - vm_compute. reflexivity.
  - eexists. vm_compute. reflexivity.
  - reflexivity.
  - exists resp, w'. split; [exact E|].
    rewrite Hbare in Hrow; [exact Hrow|]. vm_compute. reflexivity.
Defined.

(** ** Blocking and unblocking *)

(** The block handler, case by case. *)
Lemma block_user_handler_eval (be : Backend) req user w :
  block_user_handler be req user w =
  if negb (Js.truthy (bb_sender_id req)) then (Ret missing_sender_id, w)
  else
    match blocked_get_fault be with
    | Some e => (Ret (server_error "Failed to block user" e), w)
    | None =>
        let sid := default "" (bb_sender_id req) in
        let existingUser := blocked_users w !! sid in
        if bool_decide (blocked <$> existingUser = Some true)
        then (Ret (respond 409
                     ([("error", JStr "User already blocked");
                       ("message", JStr ("User " +:+ sid +:+ " is already in the blocked list"))]
                      ++ opt_entry "blockedAt" (timestamp_json <$> (blockedAt <$> existingUser))
                      ++ opt_entry "reason" (JStr <$> (reason <$> existingUser)))), w)
        else
          match blocked_write_fault be with
          | Some e => (Ret (server_error "Failed to block user" e), w)
          | None =>
              (Ret (respond 200
                      [("success", JBool true);
                       ("message", JStr "User blocked successfully");
                       ("sender_id", JStr sid);
                       ("timestamp", JDate (now be))]),
               with_blocked_users w
                 (<[sid := mkBlockDoc true (server_time be)
                             (Js.or_else (bb_reason req) "No reason provided")
                             (Js.or_else (user_email user) "admin")]> (blocked_users w)))
          end
    end.
Proof.
  unfold block_user_handler, getBlockedUser, blockUser. run.
  destruct (negb _); [reflexivity|].
  destruct (blocked_get_fault be); [reflexivity|]. cbv beta iota zeta.
  destruct (bool_decide _); [reflexivity|].
  destruct (blocked_write_fault be); reflexivity.
Qed.

(** The unblock handler, case by case. *)
Lemma unblock_user_handler_eval (be : Backend) req user w :
  unblock_user_handler be req user w =
  if negb (Js.truthy (bb_sender_id req)) then (Ret missing_sender_id, w)
  else
    match blocked_get_fault be with
    | Some e => (Ret (server_error "Failed to unblock user" e), w)
    | None =>
        let sid := default "" (bb_sender_id req) in
        if negb (bool_decide (is_Some (blocked_users w !! sid)))
        then (Ret (respond 404
                     [("error", JStr "User not found");
                      ("message", JStr ("User " +:+ sid +:+ " is not in the blocked list"))]), w)
        else
          match blocked_write_fault be with
          | Some e => (Ret (server_error "Failed to unblock user" e), w)
          | None =>
              (Ret (respond 200
                      [("success", JBool true);
                       ("message", JStr "User unblocked successfully");
                       ("sender_id", JStr sid);
                       ("timestamp", JDate (now be))]),
               with_blocked_users w (delete sid (blocked_users w)))
          end
    end.
Proof.
  unfold unblock_user_handler, getBlockedUser, unblockUser. run.
  destruct (negb (Js.truthy _)); [reflexivity|].
  destruct (blocked_get_fault be); [reflexivity|]. cbv beta iota zeta.
  destruct (negb (bool_decide _)); [reflexivity|].
  destruct (blocked_write_fault be); reflexivity.
Qed.

(** X11: the two block-list endpoints answer 200, 400, 401, 409 (block),
    404 (unblock) or 500; unless the answer is 200 the block records are as
    they were, and in no case is an alert row, an admin document or an account
    changed. *)
Theorem block_endpoints_change_only_block_records (be : Backend) authorization req w :
  (exists resp w',
     post_admin_block_user be authorization req w = (Ret resp, w') /\
     (status resp = 200 \/ status resp = 400 \/ status resp = 401 \/
      status resp = 409 \/ status resp = 500) /\
     (status resp <> 200 -> blocked_users w' = blocked_users w) /\
     sos_alerts w' = sos_alerts w /\ admins w' = admins w /\ auth_users w' = auth_users w) /\
  (exists resp w',
     post_admin_unblock_user be authorization req w = (Ret resp, w') /\
     (status resp = 200 \/ status resp = 400 \/ status resp = 401 \/
      status resp = 404 \/ status resp = 500) /\
     (status resp <> 200 -> blocked_users w' = blocked_users w) /\
     sos_alerts w' = sos_alerts w /\ admins w' = admins w /\ auth_users w' = auth_users w).
Proof.
  split.
  - unfold post_admin_block_user.
    pose proof (authenticateUser_eval be authorization (block_user_handler be req) w) as Ha.
    destruct (authenticated be authorization) as [u|].
    + destruct Ha as (w1 & -> & (Hs & Hb & Had & Hau & _)).
      rewrite block_user_handler_eval.
      destruct (negb _); [eexists _, _; split; [reflexivity|]; cbn; tauto|].
      destruct (blocked_get_fault be); [eexists _, _; split; [reflexivity|]; cbn; tauto|].
      cbv zeta. destruct (bool_decide _);
        [eexists _, _; split; [reflexivity|]; cbn; tauto|].
      destruct (blocked_write_fault be); eexists _, _; (split; [reflexivity|]); cbn; tauto.
    + destruct Ha as (msg & ->). eexists _, _. split; [reflexivity|]. cbn. tauto.
  - unfold post_admin_unblock_user.
    pose proof (authenticateUser_eval be authorization (unblock_user_handler be req) w) as Ha.
    destruct (authenticated be authorization) as [u|].
    + destruct Ha as (w1 & -> & (Hs & Hb & Had & Hau & _)).
      rewrite unblock_user_handler_eval.
      destruct (negb (Js.truthy _)); [eexists _, _; split; [reflexivity|]; cbn; tauto|].
      destruct (blocked_get_fault be); [eexists _, _; split; [reflexivity|]; cbn; tauto|].
      cbv zeta. destruct (negb (bool_decide _));
        [eexists _, _; split; [reflexivity|]; cbn; tauto|].
      destruct (blocked_write_fault be); eexists _, _; (split; [reflexivity|]); cbn; tauto.
    + destruct Ha as (msg & ->). eexists _, _. split; [reflexivity|]. cbn. tauto.
Qed.

Lemma block_endpoints_change_only_block_records_witness :
  exists resp w',
    post_admin_block_user (Sample.backend None) None Sample.block_A Sample.three_rows
    = (Ret resp, w') /\
    status resp = 401 /\
    blocked_users w' = blocked_users Sample.three_rows.
Proof.
  destruct (block_endpoints_change_only_block_records (Sample.backend None) None
              Sample.block_A Sample.three_rows)
    as [(resp & w' & E & _ & Hsame & _) _].
  assert (Hst : status resp = 401) by (vm_compute in E; inversion E; reflexivity).
  exists resp, w'. split; [exact E|]. split; [exact Hst|].
  apply Hsame. rewrite Hst. discriminate.
Defined.

(** A block request the storage serves, from a caller who authenticates. *)
Lemma block_request_served (be : Backend) authorization req w u sid :
  authenticated be authorization = Some u ->
  bb_sender_id req = Some sid -> sid <> "" ->
  blocked_get_fault be = None -> blocked_write_fault be = None ->
  exists resp w1,
    post_admin_block_user be authorization req w = (Ret resp, w1) /\
    sos_alerts w1 = sos_alerts w /\
    if bool_decide (blocked <$> blocked_users w !! sid = Some true)
    then status resp = 409 /\ blocked_users w1 = blocked_users w
    else status resp = 200 /\
         blocked_users w1
         = <[sid := mkBlockDoc true (server_time be)
                      (Js.or_else (bb_reason req) "No reason provided")
                      (Js.or_else (user_email u) "admin")]> (blocked_users w).
Proof.
  intros Ha Hsid Hne Hg Hw. unfold post_admin_block_user.
  pose proof (authenticateUser_eval be authorization (block_user_handler be req) w) as He.
  rewrite Ha in He. destruct He as (w1 & -> & (Hs & Hb & _)).
  rewrite block_user_handler_eval, Hsid, Hg, Hw. cbn [default].
  assert (Ht : Js.truthy (Some sid) = true) by (destruct sid; [congruence | reflexivity]).
  unfold id. rewrite Ht. cbn [negb]. rewrite Hb.
  destruct (bool_decide _); eexists _, _; (split; [reflexivity|]); cbn; rewrite ?Hb; auto.
Qed.

(** X12: once a block request has been answered 200 or 409, the sender is
    blocked: every [/sos] request of that sender that has the required fields
    is answered 403 as long as the block lookup works. The caller needs a
    valid token and nothing more (no admin document is consulted), and the
    record names the caller's email as [blockedBy]. *)
Theorem blocked_sender_is_refused (be : Backend) authorization req w u sid :
  authenticated be authorization = Some u ->
  bb_sender_id req = Some sid -> sid <> "" ->
  blocked_get_fault be = None -> blocked_write_fault be = None ->
  exists resp w1,
    post_admin_block_user be authorization req w = (Ret resp, w1) /\
    (status resp = 200 \/ status resp = 409) /\
    block_entry_blocks w1 sid /\
    (status resp = 200 ->
     exists d, blocked_users w1 !! sid = Some d /\
               blockedBy d = Js.or_else (user_email u) "admin" /\
               reason d = Js.or_else (bb_reason req) "No reason provided") /\
    forall sos, has_required_fields sos -> sender_id sos = Some sid ->
                post_sos be sos w1 = (Ret access_denied, w1).
Proof.
  intros Ha Hsid Hne Hg Hw.
  destruct (block_request_served be authorization req w u sid Ha Hsid Hne Hg Hw)
    as (resp & w1 & E & _ & H).
  assert (Hblocked : block_entry_blocks w1 sid).
  { unfold block_entry_blocks. destruct (bool_decide _) eqn:Eb.
    - destruct H as [_ ->]. apply bool_decide_eq_true in Eb.
      destruct (blocked_users w !! sid) as [d|]; [|discriminate].
      exists d. split; [reflexivity|]. cbn in Eb. congruence.
    - destruct H as [_ ->]. eexists. split; [apply lookup_insert_eq | reflexivity]. }
  exists resp, w1. split; [exact E|]. split; [|split; [exact Hblocked|split]].
  - destruct (bool_decide _); tauto.
  - intros Hst. destruct (bool_decide _).
    + destruct H as [H _]. rewrite H in Hst. discriminate.
    + destruct H as [_ ->]. eexists. split; [apply lookup_insert_eq|]. split; reflexivity.
  - intros sos Hreq Hs. apply post_sos_blocked; [exact Hreq|].
    rewrite Hs. cbn [default]. apply isSenderBlocked_true_iff. split; assumption.
Qed.

Lemma blocked_sender_is_refused_witness :
  exists resp w1,
    post_admin_block_user (Sample.backend None) (Some "Bearer admin-token")
      Sample.block_A Sample.empty_world = (Ret resp, w1) /\
    status resp = 200 /\
    post_sos Sample.calm (Sample.raise_A "Udupi") w1 = (Ret access_denied, w1).
Proof.
  destruct (blocked_sender_is_refused (Sample.backend None) (Some "Bearer admin-token")
              Sample.block_A Sample.empty_world
              (mkUser "uid-admin" (Some "field.admin@example.org")) "A")
    as (resp & w1 & E & _ & _ & _ & Hsos).
  - vm_compute. reflexivity.
  - reflexivity.
  - discriminate.
  - reflexivity.
  - reflexivity.
  - exists resp, w1. split; [exact E|]. split.
    + vm_compute in E. inversion E. reflexivity.
    + apply (Hsos (Sample.raise_A "Udupi")); [repeat split; vm_compute; eauto | reflexivity].
Defined.

(** X13: blocking a sender that has no record and then unblocking it is a
    round trip: both requests are answered 200, the block records are again
    what they were, and the sender passes the block gate. *)
Theorem block_then_unblock_restores (be : Backend) auth1 auth2 req w u1 u2 sid :
  authenticated be auth1 = Some u1 -> authenticated be auth2 = Some u2 ->
  bb_sender_id req = Some sid -> sid <> "" ->
  blocked_get_fault be = None -> blocked_write_fault be = None ->
  blocked_users w !! sid = None ->
  exists r1 w1 r2 w2,
    post_admin_block_user be auth1 req w = (Ret r1, w1) /\ status r1 = 200 /\
    post_admin_unblock_user be auth2 req w1 = (Ret r2, w2) /\ status r2 = 200 /\
    blocked_users w2 = blocked_users w /\
    forall sos, sender_id sos = Some sid -> gate_open be sos w2.
Proof.
  intros Ha1 Ha2 Hsid Hne Hg Hw Hnone.
  destruct (block_request_served be auth1 req w u1 sid Ha1 Hsid Hne Hg Hw)
    as (r1 & w1 & E1 & _ & H1).
  rewrite Hnone in H1. cbn in H1. destruct H1 as [Hst1 Hb1].
  unfold post_admin_unblock_user.
  pose proof (authenticateUser_eval be auth2 (unblock_user_handler be req) w1) as He.
  rewrite Ha2 in He. destruct He as (w1' & E2 & (_ & Hb & _)).
  rewrite unblock_user_handler_eval, Hsid, Hg, Hw in E2. cbn [default] in E2.
  assert (Ht : Js.truthy (Some sid) = true) by (destruct sid; [congruence | reflexivity]).
  unfold id in E2.
  rewrite Ht, Hb, Hb1, lookup_insert_eq in E2. cbn [negb] in E2. cbv zeta in E2.
  rewrite bool_decide_eq_true_2 in E2 by eauto. cbn [negb] in E2.
  rewrite delete_insert_id in E2 by exact Hnone.
  eexists r1, w1, _, _. split; [exact E1|]. split; [exact Hst1|].
  split; [exact E2|]. split; [reflexivity|]. split; [reflexivity|].
  intros sos Hs. unfold gate_open. rewrite isSenderBlocked_eval, Hg, Hs. cbn.
  rewrite Hnone. reflexivity.
Qed.

Lemma block_then_unblock_restores_witness :
  exists r1 w1 r2 w2,
    post_admin_block_user (Sample.backend None) (Some "Bearer admin-token")
      Sample.block_A Sample.empty_world = (Ret r1, w1) /\
    post_admin_unblock_user (Sample.backend None) (Some "Bearer super-token")
      Sample.block_A w1 = (Ret r2, w2) /\
    status r2 = 200 /\
    blocked_users w2 = blocked_users Sample.empty_world.
Proof.
  destruct (block_then_unblock_restores (Sample.backend None)
              (Some "Bearer admin-token") (Some "Bearer super-token")
              Sample.block_A Sample.empty_world
              (mkUser "uid-admin" (Some "field.admin@example.org"))
              (mkUser "uid-super" (Some "shamanthknr@gmail.com")) "A")
    as (r1 & w1 & r2 & w2 & E1 & _ & E2 & Hst & Hb & _).
  - vm_compute. reflexivity.
  - vm_compute. reflexivity.
  - reflexivity.
  - discriminate.
  - reflexivity.
  - reflexivity.
  - reflexivity.
  - exists r1, w1, r2, w2. repeat split; assumption.
Defined.

(** X14: blocking a sender twice: the second request is answered 409 and
    changes no block record, so the record keeps the reason, the time and the
    author of the first request. *)
Theorem second_block_is_a_conflict (be : Backend) auth1 auth2 req1 req2 w u1 u2 sid :
  authenticated be auth1 = Some u1 -> authenticated be auth2 = Some u2 ->
  bb_sender_id req1 = Some sid -> bb_sender_id req2 = Some sid -> sid <> "" ->
  blocked_get_fault be = None -> blocked_write_fault be = None ->
  blocked_users w !! sid = None ->
  exists r1 w1 r2 w2,
    post_admin_block_user be auth1 req1 w = (Ret r1, w1) /\ status r1 = 200 /\
    post_admin_block_user be auth2 req2 w1 = (Ret r2, w2) /\ status r2 = 409 /\
    blocked_users w2 = blocked_users w1 /\
    blocked_users w2 !! sid
    = Some (mkBlockDoc true (server_time be)
              (Js.or_else (bb_reason req1) "No reason provided")
              (Js.or_else (user_email u1) "admin")).
Proof.
  intros Ha1 Ha2 Hs1 Hs2 Hne Hg Hw Hnone.
  destruct (block_request_served be auth1 req1 w u1 sid Ha1 Hs1 Hne Hg Hw)
    as (r1 & w1 & E1 & _ & H1).
  rewrite Hnone in H1. cbn in H1. destruct H1 as [Hst1 Hb1].
  destruct (block_request_served be auth2 req2 w1 u2 sid Ha2 Hs2 Hne Hg Hw)
    as (r2 & w2 & E2 & _ & H2).
  rewrite Hb1, lookup_insert_eq in H2. cbn in H2. destruct H2 as [Hst2 Hb2].
  exists r1, w1, r2, w2. repeat split; try assumption.
  - rewrite Hb2, Hb1. reflexivity.
  - rewrite Hb2. apply lookup_insert_eq.
Qed.

Lemma second_block_is_a_conflict_witness :
  exists r1 w1 r2 w2 d,
    post_admin_block_user (Sample.backend None) (Some "Bearer admin-token")
      Sample.block_A Sample.empty_world = (Ret r1, w1) /\
    post_admin_block_user (Sample.backend None) (Some "Bearer super-token")
      (mkBlockBody (Some "A") (Some "Abuse")) w1 = (Ret r2, w2) /\
    status r2 = 409 /\
    blocked_users w2 !! "A" = Some d /\ reason d = "Spam".
Proof.
  destruct (second_block_is_a_conflict (Sample.backend None)
              (Some "Bearer admin-token") (Some "Bearer super-token")
              Sample.block_A (mkBlockBody (Some "A") (Some "Abuse")) Sample.empty_world
              (mkUser "uid-admin" (Some "field.admin@example.org"))
              (mkUser "uid-super" (Some "shamanthknr@gmail.com")) "A")
    as (r1 & w1 & r2 & w2 & E1 & _ & E2 & Hst & _ & Hrec).
  - vm_compute. reflexivity.
  - vm_compute. reflexivity.
  - reflexivity.
  - reflexivity.
  - discriminate.
  - reflexivity.
  - reflexivity.
  - reflexivity.
  - eexists r1, w1, r2, w2, _. repeat split; try eassumption. reflexivity.
Defined.

(** X15: unblocking: for a sender that has no block record the answer is 404
    and nothing changes; for a sender that has one, whatever its [blocked]
    field says, the record is deleted and the answer is 200. *)
Theorem unblock_deletes_or_404 (be : Backend) authorization req w u sid :
  authenticated be authorization = Some u ->
  bb_sender_id req = Some sid -> sid <> "" ->
  blocked_get_fault be = None -> blocked_write_fault be = None ->
  exists resp w',
    post_admin_unblock_user be authorization req w = (Ret resp, w') /\
    match blocked_users w !! sid with
    | None => status resp = 404 /\ blocked_users w' = blocked_users w
    | Some _ => status resp = 200 /\ blocked_users w' = delete sid (blocked_users w)
    end /\
    blocked_users w' !! sid = None.
Proof.
  intros Ha Hsid Hne Hg Hw. unfold post_admin_unblock_user.
  pose proof (authenticateUser_eval be authorization (unblock_user_handler be req) w) as He.
  rewrite Ha in He. destruct He as (w1 & -> & (_ & Hb & _)).
  rewrite unblock_user_handler_eval, Hsid, Hg, Hw. cbn [default]. unfold id.
  assert (Ht : Js.truthy (Some sid) = true) by (destruct sid; [congruence | reflexivity]).
  rewrite Ht, Hb. cbn [negb]. cbv zeta.
  destruct (blocked_users w !! sid) as [d|] eqn:El.
  - rewrite bool_decide_eq_true_2 by eauto. cbn [negb].
    eexists _, _. split; [reflexivity|]. cbn. split; [auto|]. apply lookup_delete_eq.
  - rewrite bool_decide_eq_false_2 by (intros [x Hx]; discriminate). cbn [negb].
    eexists _, _. split; [reflexivity|]. cbn. rewrite Hb. auto.
Qed.

Lemma unblock_deletes_or_404_witness :
  (exists resp w',
     post_admin_unblock_user (Sample.backend None) (Some "Bearer admin-token")
       Sample.block_A Sample.empty_world = (Ret resp, w') /\ status resp = 404) /\
  (exists resp w',
     post_admin_unblock_user (Sample.backend None) (Some "Bearer admin-token")
       Sample.block_A Sample.blocked_A = (Ret resp, w') /\
     status resp = 200 /\ blocked_users w' !! "A" = None).
Proof.
  split.
  - destruct (unblock_deletes_or_404 (Sample.backend None) (Some "Bearer admin-token")
                Sample.block_A Sample.empty_world
                (mkUser "uid-admin" (Some "field.admin@example.org")) "A")
      as (resp & w' & E & H & _);
      [vm_compute; reflexivity | reflexivity | discriminate | reflexivity | reflexivity |].
    exists resp, w'. split; [exact E|]. exact (proj1 H).
  - destruct (unblock_deletes_or_404 (Sample.backend None) (Some "Bearer admin-token")
                Sample.block_A Sample.blocked_A
                (mkUser "uid-admin" (Some "field.admin@example.org")) "A")
      as (resp & w' & E & H & Hgone);
      [vm_compute; reflexivity | reflexivity | discriminate | reflexivity | reflexivity |].
    exists resp, w'. split; [exact E|]. split; [exact (proj1 H) | exact Hgone].
Defined.

(** ** Managing admin accounts *)

(** The create handler past its checks, case by case. *)
Lemma create_admin_handler_eval env req user w email password :
  creatable req email password ->
  create_admin_handler env req user w =
  match admins_get_fault env with
  | Some e => (Ret (server_error "Failed to create admin" e), w)
  | None =>
      match admins w !! email with
      | Some _ =>
          (Ret (respond 409 [("error", JStr "Admin already exists");
                             ("message", JStr ("Admin with email " +:+ email
                                               +:+ " already exists"))]), w)
      | None =>
          match auth_createUser env email password w with
          | (Throw authError, w1) =>
              (Ret (respond 400 [("error", JStr "Failed to create user account");
                                 ("message", JStr authError)]), w1)
          | (Ret new_uid, w1) =>
              match user_email user with
              | None =>
                  (Ret (server_error "Failed to create admin"
                          "Cannot use undefined as a Firestore value"), w1)
              | Some creator =>
                  match admins_write_fault env with
                  | Some e => (Ret (server_error "Failed to create admin" e), w1)
                  | None =>
                      let districts := default [] (ca_assignedDistricts req) in
                      (Ret (respond 200
                              [("success", JBool true);
                               ("message", JStr "Admin created successfully");
                               ("admin", JObj [("email", JStr email);
                                               ("uid", JStr new_uid);
                                               ("role", JStr "admin");
                                               ("assignedDistricts", districts_json districts);
                                               ("active", JBool true);
                                               ("createdAt", JDate (now env));
                                               ("createdBy", JStr creator)]);
                               ("timestamp", JDate (now env))]),
                       with_admins w1
                         (<[email := mkAdminDoc "admin" (Some districts) (Some true)
                                       (server_time env) (Some creator) None None]>
                            (admins w1)))
                  end
              end
          end
      end
  end.
Proof.
  intros (He & Hp & Hne & Hpne & Hre & Hns).
  unfold create_admin_handler, getAdmin, admins_write. rewrite He, Hp. cbn [default]. unfold id.
  assert (Ht : Js.truthy (Some email) = true) by (destruct email; [congruence | reflexivity]).
  assert (Htp : Js.truthy (Some password) = true)
    by (destruct password; [congruence | reflexivity]).
  assert (Hs : isSuperAdmin (Some email) = false) by (apply bool_decide_eq_false; exact Hns).
  rewrite Ht, Htp. cbn [negb orb]. cbv zeta. rewrite Hre, Hs. cbn [negb]. run.
  destruct (admins_get_fault env); [reflexivity|]. cbv beta iota zeta.
  destruct (admins w !! email) as [d|].
  - rewrite bool_decide_eq_true_2 by eauto. reflexivity.
  - rewrite bool_decide_eq_false_2 by (intros [x Hx]; discriminate).
    destruct (auth_createUser env email password w) as [[new_uid|err] w1]; [|reflexivity].
    destruct (user_email user); [|reflexivity].
    destruct (admins_write_fault env); reflexivity.
Qed.

(** A super-admin passes both middlewares. *)
Lemma super_admin_route env authorization (handler : User -> M Response) w u :
  authenticated env authorization = Some u -> isSuperAdmin (user_email u) = true ->
  exists w1,
    authenticateUser env authorization (fun u => requireSuperAdmin (Some u) handler) w
    = handler u w1 /\ same_data w1 w.
Proof.
  intros Ha Hs.
  pose proof (authenticateUser_eval env authorization
                (fun u => requireSuperAdmin (Some u) handler) w) as He.
  rewrite Ha in He. destruct He as (w1 & -> & Hd).
  exists w1. split; [|exact Hd]. unfold requireSuperAdmin. rewrite Hs. reflexivity.
Qed.

(** Any other caller is stopped by one of them. *)
Lemma other_caller_route env authorization (handler : User -> M Response) w :
  (forall u, authenticated env authorization = Some u -> isSuperAdmin (user_email u) = false) ->
  exists resp w1,
    authenticateUser env authorization (fun u => requireSuperAdmin (Some u) handler) w
    = (Ret resp, w1) /\ same_data w1 w /\
    status resp = match authenticated env authorization with
                  | None => 401
                  | Some _ => 403
                  end.
Proof.
  intros Hns.
  pose proof (authenticateUser_eval env authorization
                (fun u => requireSuperAdmin (Some u) handler) w) as He.
  destruct (authenticated env authorization) as [u|].
  - destruct He as (w1 & -> & Hd). unfold requireSuperAdmin. rewrite (Hns u eq_refl).
    eexists _, w1. repeat split; apply Hd.
  - destruct He as (msg & ->). eexists _, w. repeat split.
Qed.

(** X16: creating an admin. A super-admin's request for a well-formed,
    unreserved email that has neither an admin document nor an account is
    answered 200 when storage and identity provider work: the account is
    created with the given password, and the document with role [admin],
    [active = true], the given districts (none if the request has none) and
    the caller as [createdBy]. A second such request is answered 409 and
    changes nothing. *)
Theorem create_admin_then_conflict env authorization req w u creator email password :
  creatable req email password ->
  authenticated env authorization = Some u ->
  user_email u = Some creator -> creator ∈ SUPER_ADMINS ->
  admins_get_fault env = None -> admins_write_fault env = None ->
  createUser_fault env = None ->
  admins w !! email = None -> auth_users w !! email = None ->
  exists r1 w1 r2 w2,
    post_admin_admins env authorization req w = (Ret r1, w1) /\ status r1 = 200 /\
    admins w1 = <[email := mkAdminDoc "admin" (Some (default [] (ca_assignedDistricts req)))
                             (Some true) (server_time env) (Some creator) None None]>
                  (admins w) /\
    auth_users w1 = <[email := mkAuthUser (fresh_uid env) password true]> (auth_users w) /\
    post_admin_admins env authorization req w1 = (Ret r2, w2) /\ status r2 = 409 /\
    admins w2 = admins w1 /\ auth_users w2 = auth_users w1.
Proof.
  intros Hreq Ha Hu Hsuper Hg Hw Hc Hnone Hnoacc.
  assert (Hs : isSuperAdmin (user_email u) = true).
  { rewrite Hu. apply bool_decide_eq_true. exact Hsuper. }
  unfold post_admin_admins.
  destruct (super_admin_route env authorization (create_admin_handler env req) w u Ha Hs)
    as (wa & E1 & (_ & _ & Had & Hau & _)).
  rewrite (create_admin_handler_eval env req u wa email password Hreq) in E1.
  unfold auth_createUser in E1.
  rewrite Hg, Hw, Hc, Had, Hau, Hnone, Hnoacc, Hu in E1. cbv zeta in E1.
  match type of E1 with
  | _ = (Ret ?r, ?w0) =>
      destruct (super_admin_route env authorization (create_admin_handler env req) w0 u Ha Hs)
        as (wb & E2 & (_ & _ & Had2 & Hau2 & _));
      exists r, w0
  end.
  rewrite (create_admin_handler_eval env req u wb email password Hreq) in E2.
  cbn [admins auth_users with_admins with_auth_users] in Had2, Hau2.
  rewrite Hg, Had2, lookup_insert_eq in E2.
  eexists _, wb. split; [exact E1|]. split; [reflexivity|].
  split; [cbn [admins auth_users with_admins with_auth_users]; rewrite ?Had; reflexivity|].
  split; [reflexivity|].
  split; [exact E2|]. split; [reflexivity|]. split; assumption.
Qed.

Lemma create_admin_then_conflict_witness :
  exists r1 w1 r2 w2 d,
    post_admin_admins Sample.calm (Some "Bearer super-token") Sample.new_admin
      Sample.empty_world = (Ret r1, w1) /\ status r1 = 200 /\
    admins w1 !! "new.admin@example.org" = Some d /\
    assignedDistricts d = Some ["udupi"] /\
    post_admin_admins Sample.calm (Some "Bearer super-token") Sample.new_admin w1
    = (Ret r2, w2) /\ status r2 = 409.
Proof.
  destruct (create_admin_then_conflict Sample.calm (Some "Bearer super-token")
              Sample.new_admin Sample.empty_world
              (mkUser "uid-super" (Some "shamanthknr@gmail.com"))
              "shamanthknr@gmail.com" "new.admin@example.org" "s3cret-pw")
    as (r1 & w1 & r2 & w2 & E1 & Hst1 & Had & _ & E2 & Hst2 & _).
  - repeat split; try discriminate; try (vm_compute; reflexivity).
    intros H. apply (bool_decide_pack _) in H. vm_compute in H. exact H.
  - vm_compute. reflexivity.
  - reflexivity.
  - apply (bool_decide_unpack _). vm_compute. exact I.
  - reflexivity.
  - reflexivity.
  - reflexivity.
  - reflexivity.
  - reflexivity.
  - eexists r1, w1, r2, w2, _. repeat split; try eassumption.
    + rewrite Had. apply lookup_insert_eq.
    + reflexivity.
Defined.

(** X17: creation is not atomic. When the account has been created and the
    write of the admin document then fails, the request is answered 500, no
    document exists, and the account stays; a later request for the same
    email, with everything working, is answered 400 because the email is
    taken, and still creates no document. *)
Theorem failed_create_leaves_the_account
    env env2 authorization req w u creator email password e :
  creatable req email password ->
  authenticated env authorization = Some u ->
  authenticated env2 authorization = Some u ->
  user_email u = Some creator -> creator ∈ SUPER_ADMINS ->
  admins_get_fault env = None -> createUser_fault env = None ->
  admins_write_fault env = Some e ->
  admins_get_fault env2 = None -> createUser_fault env2 = None ->
  admins w !! email = None -> auth_users w !! email = None ->
  exists r1 w1 r2 w2,
    post_admin_admins env authorization req w = (Ret r1, w1) /\ status r1 = 500 /\
    admins w1 = admins w /\
    auth_users w1 = <[email := mkAuthUser (fresh_uid env) password true]> (auth_users w) /\
    post_admin_admins env2 authorization req w1 = (Ret r2, w2) /\ status r2 = 400 /\
    admins w2 = admins w /\ auth_users w2 = auth_users w1.
Proof.
  intros Hreq Ha Ha2 Hu Hsuper Hg Hc Hw Hg2 Hc2 Hnone Hnoacc.
  assert (Hs : isSuperAdmin (user_email u) = true).
  { rewrite Hu. apply bool_decide_eq_true. exact Hsuper. }
  unfold post_admin_admins.
  destruct (super_admin_route env authorization (create_admin_handler env req) w u Ha Hs)
    as (wa & E1 & (_ & _ & Had & Hau & _)).
  rewrite (create_admin_handler_eval env req u wa email password Hreq) in E1.
  unfold auth_createUser in E1.
  rewrite Hg, Hw, Hc, Had, Hau, Hnone, Hnoacc, Hu in E1.
  match type of E1 with
  | _ = (Ret ?r, ?w0) =>
      destruct (super_admin_route env2 authorization (create_admin_handler env2 req) w0 u Ha2 Hs)
        as (wb & E2 & (_ & _ & Had2 & Hau2 & _));
      exists r, w0
  end.
  rewrite (create_admin_handler_eval env2 req u wb email password Hreq) in E2.
  unfold auth_createUser in E2.
  cbn [admins auth_users with_admins with_auth_users] in Had2, Hau2.
  rewrite Hg2, Hc2, Had2, Had, Hnone, Hau2, lookup_insert_eq in E2.
  eexists _, wb. split; [exact E1|]. split; [reflexivity|].
  split; [exact Had|]. split; [reflexivity|].
  split; [exact E2|]. split; [reflexivity|].
  split; [rewrite Had2; exact Had | exact Hau2].
Qed.

Lemma failed_create_leaves_the_account_witness :
  exists r1 w1 r2 w2,
    post_admin_admins (Sample.admin_env None (Some "UNAVAILABLE") None None)
      (Some "Bearer super-token") Sample.new_admin Sample.empty_world = (Ret r1, w1) /\
    status r1 = 500 /\
    is_Some (auth_users w1 !! "new.admin@example.org") /\
    post_admin_admins Sample.calm (Some "Bearer super-token") Sample.new_admin w1
    = (Ret r2, w2) /\
    status r2 = 400 /\
    admins w2 !! "new.admin@example.org" = None.
Proof.
  destruct (failed_create_leaves_the_account
              (Sample.admin_env None (Some "UNAVAILABLE") None None) Sample.calm
              (Some "Bearer super-token") Sample.new_admin Sample.empty_world
              (mkUser "uid-super" (Some "shamanthknr@gmail.com"))
              "shamanthknr@gmail.com" "new.admin@example.org" "s3cret-pw" "UNAVAILABLE")
    as (r1 & w1 & r2 & w2 & E1 & Hst1 & _ & Hau & E2 & Hst2 & Had2 & _).
  - repeat split; try discriminate; try (vm_compute; reflexivity).
    intros H. apply (bool_decide_pack _) in H. vm_compute in H. exact H.
  - vm_compute. reflexivity.
  - vm_compute. reflexivity.
  - reflexivity.
  - apply (bool_decide_unpack _). vm_compute. exact I.
  - reflexivity.
  - reflexivity.
  - reflexivity.
  - reflexivity.
  - reflexivity.
  - reflexivity.
  - reflexivity.
  - exists r1, w1, r2, w2. repeat split; try assumption.
    + rewrite Hau, lookup_insert_eq. eauto.
    + rewrite Had2. reflexivity.
Defined.

(** The update handler for an unreserved email, case by case. *)
Lemma update_admin_handler_eval env email req user w :
  email <> "" -> email ∉ SUPER_ADMINS ->
  update_admin_handler env email req user w =
  match admins_get_fault env with
  | Some e => (Ret (server_error "Failed to update admin" e), w)
  | None =>
      match admins w !! email with
      | None =>
          (Ret (respond 404 [("error", JStr "Admin not found");
                             ("message", JStr ("Admin with email " +:+ email
                                               +:+ " does not exist"))]), w)
      | Some _ =>
          match admins_write_fault env with
          | Some e => (Ret (server_error "Failed to update admin" e), w)
          | None =>
              (Ret (respond 200
                      [("success", JBool true);
                       ("message", JStr "Admin updated successfully");
                       ("email", JStr email);
                       ("updates", JObj (opt_entry "updatedBy" (JStr <$> user_email user)
                                         ++ opt_entry "assignedDistricts"
                                              (districts_json <$> ua_assignedDistricts req)
                                         ++ opt_entry "active" (JBool <$> ua_active req)));
                       ("timestamp", JDate (now env))]),
               with_admins w (alter (apply_update env (user_email user) req) email (admins w)))
          end
      end
  end.
Proof.
  intros Hne Hns. unfold update_admin_handler, getAdmin, admins_write.
  assert (Ht : Js.truthy (Some email) = true) by (destruct email; [congruence | reflexivity]).
  assert (Hs : isSuperAdmin (Some email) = false) by (apply bool_decide_eq_false; exact Hns).
  rewrite Hs, Ht. cbn [negb default]. unfold id. run.
  destruct (admins_get_fault env); [reflexivity|]. cbv beta iota zeta.
  destruct (admins w !! email) as [d|].
  - rewrite bool_decide_eq_true_2 by eauto. cbn [negb].
    destruct (admins_write_fault env); reflexivity.
  - rewrite bool_decide_eq_false_2 by (intros [x Hx]; discriminate). reflexivity.
Qed.

(** The delete handler for an unreserved email, case by case. *)
Lemma delete_admin_handler_eval env email user w :
  email <> "" -> email ∉ SUPER_ADMINS ->
  delete_admin_handler env email user w =
  match admins_get_fault env with
  | Some e => (Ret (server_error "Failed to delete admin" e), w)
  | None =>
      match admins w !! email with
      | None =>
          (Ret (respond 404 [("error", JStr "Admin not found");
                             ("message", JStr ("Admin with email " +:+ email
                                               +:+ " does not exist"))]), w)
      | Some _ =>
          let w1 := (auth_deleteByEmail env email w).2 in
          match admins_write_fault env with
          | Some e => (Ret (server_error "Failed to delete admin" e), w1)
          | None =>
              (Ret (respond 200
                      [("success", JBool true);
                       ("message", JStr "Admin deleted successfully");
                       ("email", JStr email);
                       ("timestamp", JDate (now env))]),
               with_admins w1 (delete email (admins w1)))
          end
      end
  end.
Proof.
  intros Hne Hns. unfold delete_admin_handler, getAdmin, admins_write.
  assert (Ht : Js.truthy (Some email) = true) by (destruct email; [congruence | reflexivity]).
  assert (Hs : isSuperAdmin (Some email) = false) by (apply bool_decide_eq_false; exact Hns).
  rewrite Hs, Ht. cbn [negb default]. unfold id. run.
  destruct (admins_get_fault env); [reflexivity|]. cbv beta iota zeta.
  destruct (admins w !! email) as [d|].
  - rewrite bool_decide_eq_true_2 by eauto. cbn [negb].
    destruct (auth_deleteByEmail env email w) as [[[]|err] w1]; cbn [snd];
      destruct (admins_write_fault env); reflexivity.
  - rewrite bool_decide_eq_false_2 by (intros [x Hx]; discriminate). reflexivity.
Qed.

(** The listing and the profile refuse a regular caller who has no admin
    document or whose document is not active. *)
Lemma regular_caller_refused env q authorization u e w :
  authenticated env authorization = Some u ->
  user_email u = Some e -> e <> "" -> e ∉ SUPER_ADMINS ->
  admins_get_fault env = None ->
  (forall d, admins w !! e = Some d -> active d <> Some true) ->
  exists w1 w2,
    get_admin_users env authorization q w = (Ret inactive_admin, w1) /\
    get_admin_profile env authorization w = (Ret inactive_admin, w2).
Proof.
  intros Ha He Hne Hns Hf Hdoc.
  assert (Ht : Js.truthy (Some e) = true) by (destruct e; [congruence | reflexivity]).
  assert (Hs : isSuperAdmin (Some e) = false) by (apply bool_decide_eq_false; exact Hns).
  unfold get_admin_users, get_admin_profile.
  pose proof (authenticateUser_eval env authorization (users_handler env q) w) as H1.
  pose proof (authenticateUser_eval env authorization (profile_handler env) w) as H2.
  rewrite Ha in H1, H2.
  destruct H1 as (w1 & -> & (_ & _ & Had1 & _)). destruct H2 as (w2 & -> & (_ & _ & Had2 & _)).
  exists w1, w2. unfold users_handler, profile_handler, getAdmin.
  rewrite He, Hs, Ht, Hf. cbn [negb default]. unfold id. run. cbv beta iota zeta.
  rewrite Had1, Had2.
  destruct (admins w !! e) as [d|] eqn:El; [|split; reflexivity].
  rewrite bool_decide_eq_false_2 by (apply Hdoc; reflexivity). split; reflexivity.
Qed.

(** X18: deleting an admin. For a super-admin's request naming an unreserved
    email that has an admin document, with the [admins] collection working,
    the answer is 200 and the document is deleted whether or not the account
    could be deleted: the account goes only if the identity provider accepts
    the deletion, and otherwise stays. *)
Theorem delete_admin_removes_the_document env authorization email w u creator doc :
  authenticated env authorization = Some u ->
  user_email u = Some creator -> creator ∈ SUPER_ADMINS ->
  email <> "" -> email ∉ SUPER_ADMINS ->
  admins_get_fault env = None -> admins_write_fault env = None ->
  admins w !! email = Some doc ->
  exists resp w',
    delete_admin_admins env authorization email w = (Ret resp, w') /\ status resp = 200 /\
    admins w' = delete email (admins w) /\
    auth_users w' = match deleteUser_fault env with
                    | None => delete email (auth_users w)
                    | Some _ => auth_users w
                    end.
Proof.
  intros Ha Hu Hsuper Hne Hns Hg Hw Hdoc.
  assert (Hs : isSuperAdmin (user_email u) = true).
  { rewrite Hu. apply bool_decide_eq_true. exact Hsuper. }
  unfold delete_admin_admins.
  destruct (super_admin_route env authorization (delete_admin_handler env email) w u Ha Hs)
    as (wa & -> & (_ & _ & Had & Hau & _)).
  rewrite (delete_admin_handler_eval env email u wa Hne Hns), Hg, Hw, Had, Hdoc. cbv zeta.
  eexists _, _. split; [reflexivity|]. split; [reflexivity|].
  unfold auth_deleteByEmail. rewrite Hau.
  destruct (deleteUser_fault env); cbn; [rewrite Had; auto|].
  destruct (auth_users w !! email) eqn:El; cbn; rewrite ?Had; [auto|].
  split; [reflexivity|]. rewrite delete_id by exact El. exact Hau.
Qed.

Lemma delete_admin_removes_the_document_witness :
  exists resp w',
    delete_admin_admins (Sample.admin_env None None None (Some "auth/internal-error"))
      (Some "Bearer super-token") "field.admin@example.org"
      (Sample.two_districts (Some [])) = (Ret resp, w') /\
    status resp = 200 /\
    admins w' !! "field.admin@example.org" = None.
Proof.
  destruct (delete_admin_removes_the_document
              (Sample.admin_env None None None (Some "auth/internal-error"))
              (Some "Bearer super-token") "field.admin@example.org"
              (Sample.two_districts (Some []))
              (mkUser "uid-super" (Some "shamanthknr@gmail.com"))
              "shamanthknr@gmail.com" (Sample.field_admin (Some [])))
    as (resp & w' & E & Hst & Had & _).
  - vm_compute. reflexivity.
  - reflexivity.
  - apply (bool_decide_unpack _). vm_compute. exact I.
  - discriminate.
  - intros H. apply (bool_decide_pack _) in H. vm_compute in H. exact H.
  - reflexivity.
  - reflexivity.
  - vm_compute. reflexivity.
  - exists resp, w'. split; [exact E|]. split; [exact Hst|].
    rewrite Had. apply lookup_delete_eq.
Defined.

(** X19: updating an admin. For a super-admin's request naming an unreserved
    email: if the email has no admin document the answer is 404 and none is
    created; if it has one the answer is 200 and the document keeps its role
    and creation stamps, takes the districts and the [active] flag that the
    request gives and keeps those it does not give, and records the caller as
    [updatedBy]. No other document changes. *)
Theorem update_admin_changes_given_fields env authorization email req w u creator :
  authenticated env authorization = Some u ->
  user_email u = Some creator -> creator ∈ SUPER_ADMINS ->
  email <> "" -> email ∉ SUPER_ADMINS ->
  admins_get_fault env = None -> admins_write_fault env = None ->
  exists resp w',
    put_admin_admins env authorization email req w = (Ret resp, w') /\
    (forall other, other <> email -> admins w' !! other = admins w !! other) /\
    auth_users w' = auth_users w /\
    match admins w !! email with
    | None => status resp = 404 /\ admins w' !! email = None
    | Some d =>
        status resp = 200 /\
        exists d', admins w' !! email = Some d' /\
          role d' = role d /\ createdAt d' = createdAt d /\ createdBy d' = createdBy d /\
          assignedDistricts d'
          = match ua_assignedDistricts req with
            | Some l => Some l
            | None => assignedDistricts d
            end /\
          active d' = match ua_active req with
                      | Some b => Some b
                      | None => active d
                      end /\
          updatedBy d' = Some creator /\ updatedAt d' = Some (server_time env)
    end.
Proof.
  intros Ha Hu Hsuper Hne Hns Hg Hw.
  assert (Hs : isSuperAdmin (user_email u) = true).
  { rewrite Hu. apply bool_decide_eq_true. exact Hsuper. }
  unfold put_admin_admins.
  destruct (super_admin_route env authorization (update_admin_handler env email req) w u Ha Hs)
    as (wa & -> & (_ & _ & Had & Hau & _)).
  rewrite (update_admin_handler_eval env email req u wa Hne Hns), Hg, Hw, Had.
  destruct (admins w !! email) as [d|] eqn:El.
  - eexists _, _. split; [reflexivity|]. cbn [admins auth_users with_admins]. rewrite ?Had.
    split; [intros other Ho; apply lookup_alter_ne; congruence|].
    split; [exact Hau|]. split; [reflexivity|].
    eexists. split; [rewrite lookup_alter_eq, El; reflexivity|].
    cbn. rewrite Hu. repeat split.
  - eexists _, _. split; [reflexivity|]. rewrite ?Had.
    split; [reflexivity|]. split; [exact Hau|]. split; [reflexivity | exact El].
Qed.

Lemma update_admin_changes_given_fields_witness :
  exists resp w' d',
    put_admin_admins Sample.calm (Some "Bearer super-token") "field.admin@example.org"
      (mkUpdateAdminBody (Some ["udupi"]) None) (Sample.two_districts (Some []))
    = (Ret resp, w') /\
    admins w' !! "field.admin@example.org" = Some d' /\
    assignedDistricts d' = Some ["udupi"] /\ active d' = Some true.
Proof.
  destruct (update_admin_changes_given_fields Sample.calm (Some "Bearer super-token")
              "field.admin@example.org" (mkUpdateAdminBody (Some ["udupi"]) None)
              (Sample.two_districts (Some []))
              (mkUser "uid-super" (Some "shamanthknr@gmail.com")) "shamanthknr@gmail.com")
    as (resp & w' & E & _ & _ & H).
  - vm_compute. reflexivity.
  - reflexivity.
  - apply (bool_decide_unpack _). vm_compute. exact I.
  - discriminate.
  - intros H. apply (bool_decide_pack _) in H. vm_compute in H. exact H.
  - reflexivity.
  - reflexivity.
  - destruct H as (_ & d' & Hl & _ & _ & _ & Hd & Hact & _).
    exists resp, w', d'. repeat split; assumption.
Defined.

(** X20: deactivating an admin locks the account out: once a super-admin's
    update with [active = false] has been answered 200, the admin's own
    requests for the user listing and for the profile are answered 403. *)
Theorem deactivated_admin_is_locked_out
    env auth_super auth_admin req q w u_super creator u_admin e doc :
  authenticated env auth_super = Some u_super ->
  user_email u_super = Some creator -> creator ∈ SUPER_ADMINS ->
  authenticated env auth_admin = Some u_admin ->
  user_email u_admin = Some e -> e <> "" -> e ∉ SUPER_ADMINS ->
  admins_get_fault env = None -> admins_write_fault env = None ->
  admins w !! e = Some doc ->
  ua_active req = Some false ->
  exists r1 w1 w2 w3,
    put_admin_admins env auth_super e req w = (Ret r1, w1) /\ status r1 = 200 /\
    get_admin_users env auth_admin q w1 = (Ret inactive_admin, w2) /\
    get_admin_profile env auth_admin w1 = (Ret inactive_admin, w3) /\
    status inactive_admin = 403.
Proof.
  intros Hs Hu Hsuper Ha He Hne Hns Hg Hw Hdoc Hoff.
  assert (Hsa : isSuperAdmin (user_email u_super) = true).
  { rewrite Hu. apply bool_decide_eq_true. exact Hsuper. }
  unfold put_admin_admins.
  destruct (super_admin_route env auth_super (update_admin_handler env e req) w u_super Hs Hsa)
    as (wa & E1 & (_ & _ & Had & _)).
  rewrite (update_admin_handler_eval env e req u_super wa Hne Hns), Hg, Hw, Had, Hdoc in E1.
  match type of E1 with
  | _ = (Ret ?r, ?w0) =>
      destruct (regular_caller_refused env q auth_admin u_admin e w0 Ha He Hne Hns Hg)
        as (w2 & w3 & E2 & E3);
      [|exists r, w0, w2, w3; repeat split; assumption]
  end.
  intros d. cbn [admins with_admins]. rewrite lookup_alter_eq, Hdoc. cbn.
  intros [= <-]. cbn. rewrite Hoff. discriminate.
Qed.

Lemma deactivated_admin_is_locked_out_witness :
  exists r1 w1 w2,
    put_admin_admins Sample.calm (Some "Bearer super-token") "field.admin@example.org"
      (mkUpdateAdminBody None (Some false)) (Sample.two_districts (Some []))
    = (Ret r1, w1) /\
    get_admin_users Sample.calm (Some "Bearer admin-token") Sample.first_page w1
    = (Ret inactive_admin, w2).
Proof.
  destruct (deactivated_admin_is_locked_out Sample.calm
              (Some "Bearer super-token") (Some "Bearer admin-token")
              (mkUpdateAdminBody None (Some false)) Sample.first_page
              (Sample.two_districts (Some []))
              (mkUser "uid-super" (Some "shamanthknr@gmail.com")) "shamanthknr@gmail.com"
              (mkUser "uid-admin" (Some "field.admin@example.org"))
              "field.admin@example.org" (Sample.field_admin (Some [])))
    as (r1 & w1 & w2 & w3 & E1 & _ & E2 & _).
  - vm_compute. reflexivity.
  - reflexivity.
  - apply (bool_decide_unpack _). vm_compute. exact I.
  - vm_compute. reflexivity.
  - reflexivity.
  - discriminate.
  - intros H. apply (bool_decide_pack _) in H. vm_compute in H. exact H.
  - reflexivity.
  - reflexivity.
  - vm_compute. reflexivity.
  - reflexivity.
  - exists r1, w1, w2. split; assumption.
Defined.

(** X21: the four admin-management routes (list, create, update, delete) are
    closed to everyone but super-admins, whatever email they name: a caller
    who does not authenticate is answered 401, an authenticated caller who is
    not on the allow-list 403, and no collection or account changes. *)
Theorem admin_management_is_for_super_admins (be : Backend) authorization w :
  (forall u, authenticated be authorization = Some u -> isSuperAdmin (user_email u) = false) ->
  forall out,
    (out = get_admin_admins be authorization w \/
     (exists req, out = post_admin_admins be authorization req w) \/
     (exists email req, out = put_admin_admins be authorization email req w) \/
     (exists email, out = delete_admin_admins be authorization email w)) ->
    exists resp w',
      out = (Ret resp, w') /\ same_data w' w /\
      status resp = match authenticated be authorization with
                    | None => 401
                    | Some _ => 403
                    end.
Proof.
  intros Hns out [-> | [(req & ->) | [(email & req & ->) | (email & ->)]]];
    apply other_caller_route; exact Hns.
Qed.

Lemma admin_management_is_for_super_admins_witness :
  exists resp w',
    post_admin_admins Sample.calm (Some "Bearer admin-token") Sample.new_admin
      (Sample.two_districts (Some [])) = (Ret resp, w') /\
    status resp = 403 /\
    admins w' = admins (Sample.two_districts (Some [])).
Proof.
  destruct (admin_management_is_for_super_admins (Sample.backend None)
              (Some "Bearer admin-token") (Sample.two_districts (Some [])))
    with (out := post_admin_admins Sample.calm (Some "Bearer admin-token") Sample.new_admin
                   (Sample.two_districts (Some [])))
    as (resp & w' & E & Hd & Hst).
  - intros u Hu. vm_compute in Hu. inversion Hu. vm_compute. reflexivity.
  - right. left. exists Sample.new_admin. reflexivity.
  - exists resp, w'. split; [exact E|]. split; [exact Hst | apply Hd].
Defined.

(** X22: the super-admin claim. The middleware either answers 401 and
    changes nothing, or runs the route for the principal of a verified token
    in a world where no claim has been removed and at most one has been added:
    that of the principal, and only if the principal's email is on the
    allow-list. In that second case an allow-listed principal whose token did
    not carry the claim now has it. *)
Theorem superadmin_claim_only_for_allow_list env authorization (next : User -> M Response) w :
  (exists msg, authenticateUser env authorization next w = (Ret (unauthorized msg), w)) \/
  (exists t w1,
     verifyIdToken env (nth 1 (Js.split "Bearer " (default "" authorization)) "") = Some t /\
     authenticateUser env authorization next w = next (mkUser (tok_uid t) (tok_email t)) w1 /\
     same_data w1 w /\
     (forall uid, uid ∈ auth_claims w -> uid ∈ auth_claims w1) /\
     (forall uid, uid ∈ auth_claims w1 ->
                  uid ∈ auth_claims w \/
                  (uid = tok_uid t /\ isSuperAdmin (tok_email t) = true)) /\
     (isSuperAdmin (tok_email t) = true -> tok_superadmin t = false ->
      tok_uid t ∈ auth_claims w1)).
Proof.
  unfold authenticateUser, auth_verifyIdToken, setSuperadminClaim. run.
  destruct (_ || _); [left; eauto|].
  destruct (verifyIdToken env _) as [t|]; [|left; eauto].
  destruct (isSuperAdmin (tok_email t)) eqn:Es; cbn [andb].
  - destruct (tok_superadmin t) eqn:Ec; cbn [negb].
    + right. exists t, w. split; [reflexivity|]. split; [reflexivity|].
      split; [apply same_data_refl|]. repeat split; auto; intros; congruence.
    + destruct (setClaims_fault env); [left; eauto|].
      right. eexists t, _. split; [reflexivity|]. split; [reflexivity|].
      split; [repeat split|]. cbn [auth_claims with_auth_claims]. repeat split.
      * intros uid Hin. apply elem_of_union. right. exact Hin.
      * intros uid Hin. apply elem_of_union in Hin as [Hin|Hin]; [|left; exact Hin].
        apply elem_of_singleton in Hin. right. split; [exact Hin | exact Es].
      * intros _ _. apply elem_of_union. left. apply elem_of_singleton. reflexivity.
  - right. exists t, w. split; [reflexivity|]. split; [reflexivity|].
    split; [apply same_data_refl|]. repeat split; auto; intros; congruence.
Qed.

Lemma superadmin_claim_only_for_allow_list_witness :
  exists w1,
    authenticateUser Sample.grant_env (Some "Bearer first-visit") (fun _ => mret access_denied)
      Sample.empty_world = (Ret access_denied, w1) /\
    "uid-karthik" ∈ auth_claims w1.
Proof.
  destruct (superadmin_claim_only_for_allow_list Sample.grant_env (Some "Bearer first-visit")
              (fun _ => mret access_denied) Sample.empty_world)
    as [(msg & E) | (t & w1 & Ht & E & _ & _ & _ & Hgrant)].
  - vm_compute in E. discriminate E.
  - vm_compute in Ht. inversion Ht. subst t. exists w1. split; [exact E|].
    apply Hgrant; reflexivity.
Defined.

(** ** More on the user listing *)

(** The listing once the permission check is passed and the two queries go
    through. *)
Lemma list_users_eval env q isSuper allowedDistricts w :
  alerts_query_fault env = None -> blocked_query_fault env = None ->
  list_users env q isSuper allowedDistricts w =
  let rows := listing_rows env q (negb isSuper && (0 <? List.length allowedDistricts)%nat)
                allowedDistricts w in
  (Ret (respond 200
          [("success", JBool true);
           ("users", JArr (user_json <$> listing_page q rows));
           ("total", JNum (Z.of_nat (List.length rows)));
           ("page", JNum (int_or (q_page q) 1));
           ("pageSize", JNum (int_or (q_pageSize q) 50));
           ("totalPages", JNum (ceil_div (Z.of_nat (List.length rows))
                                  (int_or (q_pageSize q) 50)));
           ("timestamp", JDate (now env))]), w).
Proof.
  intros Ha Hb. unfold list_users, query_alerts_in, query_blocked, listing_rows, listing_page.
  run. rewrite Ha, Hb. cbv beta iota zeta.
  destruct (negb isSuper && _); reflexivity.
Qed.

(** The answer to a caller the listing serves. *)
Lemma served_listing env authorization q w isSuper allowedDistricts :
  may_list env authorization w isSuper allowedDistricts ->
  alerts_query_fault env = None -> blocked_query_fault env = None ->
  exists resp w1,
    get_admin_users env authorization q w = (Ret resp, w1) /\ same_data w1 w /\
    status resp = 200 /\
    users_of resp
    = Some (user_json <$>
              listing_page q
                (listing_rows env q (negb isSuper && (0 <? List.length allowedDistricts)%nat)
                   allowedDistricts w)) /\
    json resp
    = JObj [("success", JBool true);
            ("users", JArr (user_json <$>
                              listing_page q
                                (listing_rows env q
                                   (negb isSuper && (0 <? List.length allowedDistricts)%nat)
                                   allowedDistricts w)));
            ("total", JNum (Z.of_nat (List.length
                              (listing_rows env q
                                 (negb isSuper && (0 <? List.length allowedDistricts)%nat)
                                 allowedDistricts w))));
            ("page", JNum (int_or (q_page q) 1));
            ("pageSize", JNum (int_or (q_pageSize q) 50));
            ("totalPages", JNum (ceil_div
                                   (Z.of_nat (List.length
                                      (listing_rows env q
                                         (negb isSuper && (0 <? List.length allowedDistricts)%nat)
                                         allowedDistricts w)))
                                   (int_or (q_pageSize q) 50)));
            ("timestamp", JDate (now env))].
Proof.
  intros (u & Ha & Hcase) Hq Hb. unfold get_admin_users.
  pose proof (authenticateUser_eval env authorization (users_handler env q) w) as He.
  rewrite Ha in He. destruct He as (w1 & -> & Hd).
  assert (Hrows : forall b l, listing_rows env q b l w1 = listing_rows env q b l w).
  { intros b l. unfold listing_rows. destruct Hd as (-> & -> & _). reflexivity. }
  destruct Hcase as [(Hs & -> & ->) | (e & doc & He & Hne & Hns & Hg & Hdoc & Hact & -> & ->)].
  - rewrite (users_handler_super env q u w1 Hs). unfold try_catch.
    rewrite (list_users_eval env q true [] w1 Hq Hb). cbv zeta. rewrite Hrows.
    eexists _, w1. split; [reflexivity|]. split; [exact Hd|]. repeat split.
  - assert (Hdoc1 : admins w1 !! e = Some doc).
    { destruct Hd as (_ & _ & -> & _). exact Hdoc. }
    rewrite (users_handler_admin env q u e doc w1 He Hne Hns Hg Hdoc1 Hact). unfold try_catch.
    rewrite (list_users_eval env q false _ w1 Hq Hb). cbv zeta. rewrite Hrows.
    eexists _, w1. split; [reflexivity|]. split; [exact Hd|]. repeat split.
Qed.

(** Sorting by name rearranges the rows and nothing else. *)
Lemma insert_by_name_perm cmp x l : insert_by_name cmp x l ≡ₚ x :: l.
Proof.
  induction l as [|y r IH]; [reflexivity|]. cbn.
  destruct (cmp (u_name x) (u_name y)); try reflexivity.
  rewrite IH. apply Permutation_swap.
Qed.

Lemma sort_by_name_perm cmp l : sort_by_name cmp l ≡ₚ l.
Proof.
  induction l as [|x l IH]; [reflexivity|]. unfold sort_by_name in *. cbn [foldr].
  rewrite insert_by_name_perm, IH. reflexivity.
Qed.

(** A page is a run of consecutive rows of the listing. *)
Lemma slice_sublist {A : Type} (l : list A) a b : slice l a b `sublist_of` l.
Proof.
  unfold slice. etransitivity; [apply sublist_take | apply sublist_drop].
Qed.

Lemma slice_length {A : Type} (l : list A) start size :
  0 < size -> Z.of_nat (List.length (slice l start (start + size))) <= size.
Proof.
  intros Hpos. unfold slice. rewrite length_take, length_drop.
  destruct (start <? 0) eqn:Es, (start + size <? 0) eqn:Ee;
    try apply Z.ltb_lt in Es; try apply Z.ltb_ge in Es;
    try apply Z.ltb_lt in Ee; try apply Z.ltb_ge in Ee; lia.
Qed.

Lemma user_rows_spec snapshot r :
  r ∈ user_rows snapshot ->
  exists id d, (id, d) ∈ snapshot /\ u_sender_id r = id /\ has_reporter d = true /\
               u_block r = None.
Proof.
  unfold user_rows. intros Hin. apply list_elem_of_omap in Hin as ([id d] & Hin & Hsome).
  cbn [fst snd] in Hsome. exists id, d. unfold has_reporter.
  destruct (Js.truthy (name <$> a_userInfo d) || Js.truthy (mobile_number <$> a_userInfo d));
    [|discriminate].
  injection Hsome as <-. auto.
Qed.

Lemma user_rows_complete snapshot id d :
  (id, d) ∈ snapshot -> has_reporter d = true ->
  exists r, r ∈ user_rows snapshot /\ u_sender_id r = id.
Proof.
  intros Hin Hrep. unfold user_rows. eexists. split.
  - apply list_elem_of_omap. exists (id, d). split; [exact Hin|]. cbn [fst snd].
    unfold has_reporter in Hrep. rewrite Hrep. reflexivity.
  - reflexivity.
Qed.

Lemma merge_blocked_sender blockedMap u :
  u_sender_id (merge_blocked blockedMap u) = u_sender_id u.
Proof. unfold merge_blocked. destruct (blockedMap !! u_sender_id u); reflexivity. Qed.

(** Where a row of the listing comes from. *)
Lemma listing_rows_origin env q restrict allowedDistricts w r :
  r ∈ listing_rows env q restrict allowedDistricts w ->
  exists d,
    sos_alerts w !! u_sender_id r = Some d /\ has_reporter d = true /\
    (restrict = true -> district_in allowedDistricts d = true).
Proof.
  unfold listing_rows. cbv zeta. rewrite sort_by_name_perm. intros Hin.
  assert (Hin' : r ∈ merge_blocked
                       (filter (fun kv : string * BlockDoc => blocked kv.2 = true)
                          (blocked_users w)) <$>
                     user_rows (if restrict
                                then map_to_list
                                       (filter (fun kv : string * AlertDoc =>
                                                  district_in allowedDistricts kv.2 = true)
                                          (sos_alerts w))
                                else map_to_list (sos_alerts w))).
  { destruct (Js.truthy (q_search q)); [|exact Hin].
    apply list_elem_of_In, filter_In in Hin as [Hin _]. apply list_elem_of_In. exact Hin. }
  apply list_elem_of_fmap in Hin' as (r0 & -> & Hin0).
  apply user_rows_spec in Hin0 as (id & d & Hsnap & Hid & Hrep & _).
  rewrite merge_blocked_sender, Hid. exists d.
  destruct restrict.
  - apply elem_of_map_to_list, map_lookup_filter_Some in Hsnap as [Hl Hd]. auto.
  - apply elem_of_map_to_list in Hsnap. split; [exact Hsnap|]. split; [exact Hrep|].
    discriminate.
Qed.

(** X23: district scope. For an active regular admin whose document assigns
    at least one district, every user on the page of [GET /admin/users] comes
    from a stored row whose district is one of the assigned ones. *)
Theorem scoped_admin_sees_only_assigned_districts env authorization q w districts :
  may_list env authorization w false districts -> districts <> [] ->
  alerts_query_fault env = None -> blocked_query_fault env = None ->
  exists resp w1 page,
    get_admin_users env authorization q w = (Ret resp, w1) /\ status resp = 200 /\
    users_of resp = Some (user_json <$> page) /\
    forall r, r ∈ page ->
      exists d x, sos_alerts w !! u_sender_id r = Some d /\
                  a_district d = Some x /\ x ∈ districts.
Proof.
  intros Hmay Hne Hq Hb.
  destruct (served_listing env authorization q w false districts Hmay Hq Hb)
    as (resp & w1 & E & _ & Hst & Hus & _).
  eexists resp, w1, _. split; [exact E|]. split; [exact Hst|]. split; [exact Hus|].
  intros r Hin. unfold listing_page in Hin. cbv zeta in Hin.
  apply (fun H => elem_of_sublist _ _ _ H (slice_sublist _ _ _)) in Hin.
  apply listing_rows_origin in Hin as (d & Hl & _ & Hscope).
  assert (Hrestrict : negb false && (0 <? List.length districts)%nat = true).
  { destruct districts; [congruence | reflexivity]. }
  specialize (Hscope Hrestrict). unfold district_in in Hscope.
  destruct (a_district d) as [x|] eqn:Ed; [|discriminate].
  exists d, x. split; [exact Hl|]. split; [exact Ed|].
  apply bool_decide_eq_true in Hscope. exact Hscope.
Qed.

Lemma scoped_admin_sees_only_assigned_districts_witness :
  exists resp w1 page,
    get_admin_users Sample.calm (Some "Bearer admin-token") Sample.first_page
      (Sample.two_districts (Some ["udupi"])) = (Ret resp, w1) /\
    users_of resp = Some (user_json <$> page) /\
    forall r, r ∈ page ->
      exists d, sos_alerts (Sample.two_districts (Some ["udupi"])) !! u_sender_id r = Some d /\
                a_district d = Some "udupi".
Proof.
  destruct (scoped_admin_sees_only_assigned_districts Sample.calm (Some "Bearer admin-token")
              Sample.first_page (Sample.two_districts (Some ["udupi"])) ["udupi"])
    as (resp & w1 & page & E & _ & Hus & Hscope).
  - exists (mkUser "uid-admin" (Some "field.admin@example.org")).
    split; [vm_compute; reflexivity|]. right.
    exists "field.admin@example.org", (Sample.field_admin (Some ["udupi"])).
    repeat split; try discriminate; try (vm_compute; reflexivity).
    intros H. apply (bool_decide_pack _) in H. vm_compute in H. exact H.
  - discriminate.
  - reflexivity.
  - reflexivity.
  - exists resp, w1, page. split; [exact E|]. split; [exact Hus|].
    intros r Hr. destruct (Hscope r Hr) as (d & x & Hl & Hd & Hx).
    exists d. split; [exact Hl|]. rewrite Hd.
    apply list_elem_of_singleton in Hx. rewrite Hx. reflexivity.
Defined.

(** ** The unauthenticated listings *)

Lemma insert_by_perm {A : Type} (before : A -> A -> bool) x l :
  insert_by before x l ≡ₚ x :: l.
Proof.
  induction l as [|y r IH]; [reflexivity|]. cbn.
  destruct (before x y); [reflexivity|]. rewrite IH. apply Permutation_swap.
Qed.

Lemma sort_by_perm {A : Type} (before : A -> A -> bool) l : sort_by before l ≡ₚ l.
Proof.
  induction l as [|x l IH]; [reflexivity|]. unfold sort_by in *. cbn [foldr].
  rewrite insert_by_perm, IH. reflexivity.
Qed.

Lemma desc_before_true {A : Type} (key : A -> Z) x y :
  desc_before key x y = true -> not_older key x y.
Proof.
  unfold desc_before, not_older. intros H. apply orb_true_iff in H as [H|H].
  - apply Z.ltb_lt in H. lia.
  - apply andb_true_iff in H as [H _]. apply Z.eqb_eq in H. lia.
Qed.

Lemma desc_before_false {A : Type} (key : A -> Z) x y :
  desc_before key x y = false -> not_older key y x.
Proof.
  unfold desc_before, not_older. intros H. apply orb_false_iff in H as [H _].
  apply Z.ltb_ge in H. exact H.
Qed.

Lemma insert_by_desc_sorted {A : Type} (key : A -> Z) x l :
  StronglySorted (not_older key) l ->
  StronglySorted (not_older key) (insert_by (desc_before key) x l).
Proof.
  induction 1 as [|y r Hs IH Hall]; cbn.
  - repeat constructor.
  - destruct (desc_before key x y) eqn:Eb.
    + apply desc_before_true in Eb. constructor; [constructor; assumption|].
      constructor; [exact Eb|]. eapply Forall_impl; [exact Hall|].
      intros z Hz. unfold not_older in *. lia.
    + apply desc_before_false in Eb. constructor; [exact IH|].
      rewrite insert_by_perm. constructor; assumption.
Qed.

Lemma sort_by_desc_sorted {A : Type} (key : A -> Z) l :
  StronglySorted (not_older key) (sort_by (desc_before key) l).
Proof.
  induction l as [|x l IH]; [constructor|]. unfold sort_by in *. cbn [foldr].
  apply insert_by_desc_sorted. exact IH.
Qed.

(** X25: the list of blocked users. [GET /admin/blocked-users], which no
    middleware guards, answers 200 when the query goes through and leaves the
    stored data as it was; its [blockedUsers] are exactly the records with
    [blocked == true], each sender once, none before one that was blocked
    later, and [count] is their number.  When the query fails the answer is
    the 500 that carries the error's message. *)
Theorem blocked_listing_is_complete_and_latest_first (be : Backend) (w : World) :
  (blocked_query_fault be = None ->
   exists rows,
     get_admin_blocked_users be w
     = (Ret (respond 200
               [("success", JBool true);
                ("count", JNum (Z.of_nat (List.length rows)));
                ("blockedUsers", JArr (blocked_user_json <$> rows));
                ("timestamp", JDate (now be))]), w) /\
     (forall id b, (id, b) ∈ rows <-> blocked_users w !! id = Some b /\ blocked b = true) /\
     NoDup rows.*1 /\
     StronglySorted (not_older blockedAt) rows) /\
  (forall e, blocked_query_fault be = Some e ->
     get_admin_blocked_users be w
     = (Ret (server_error "Failed to retrieve blocked users" e), w)).
Proof.
  split.
  - intros Hq. eexists. split; [|split; [|split]].
    + unfold get_admin_blocked_users, listBlockedUsers. run. rewrite Hq.
      cbv beta iota zeta. reflexivity.
    + intros id b. rewrite sort_by_perm, elem_of_map_to_list, map_lookup_filter_Some.
      reflexivity.
    + rewrite sort_by_perm. apply NoDup_fst_map_to_list.
    + apply sort_by_desc_sorted.
  - intros e Hq. unfold get_admin_blocked_users, listBlockedUsers. run. rewrite Hq.
    reflexivity.
Qed.

Lemma blocked_listing_is_complete_and_latest_first_witness :
  exists rows,
    get_admin_blocked_users (Sample.backend None) Sample.blocked_A
    = (Ret (respond 200
              [("success", JBool true);
               ("count", JNum (Z.of_nat (List.length rows)));
               ("blockedUsers", JArr (blocked_user_json <$> rows));
               ("timestamp", JDate (now (Sample.backend None)))]), Sample.blocked_A) /\
    ("A", mkBlockDoc true 1700000000000 "Spam" "shamanthknr@gmail.com") ∈ rows /\
    forall b, ("B", b) ∉ rows.
Proof.
  destruct (blocked_listing_is_complete_and_latest_first (Sample.backend None) Sample.blocked_A)
    as [Hok _].
  destruct (Hok eq_refl) as (rows & E & Hin & _).
  exists rows. split; [exact E|]. split.
  - apply Hin. split; reflexivity.
  - intros b Hb. apply Hin in Hb as [Hb _]. vm_compute in Hb. discriminate Hb.
Defined.

(** X26: the list of alert rows. [GET /admin/sos-alerts], which no middleware
    guards, answers 200 when the query goes through and leaves the stored data
    as it was.  Its [alerts] are rows that carry a timestamp, each sender
    once, none before a later one; with [active=true] they are exactly the
    active ones, and with any other value of [active], or none, exactly all of
    them.  When the query fails the answer is the 500 that carries the error's
    message. *)
Theorem alert_listing_filters_only_on_true (be : Backend) (active : option string) (w : World) :
  (alerts_query_fault be = None ->
   exists rows,
     get_admin_sos_alerts be active w
     = (Ret (respond 200
               [("success", JBool true);
                ("count", JNum (Z.of_nat (List.length rows)));
                ("activeOnly", JBool (bool_decide (active = Some "true")));
                ("alerts", JArr (alert_json <$> rows));
                ("timestamp", JDate (now be))]), w) /\
     (forall id d, (id, d) ∈ rows <->
        sos_alerts w !! id = Some d /\ is_Some (a_timestamp d) /\
        (active = Some "true" -> a_active d = Some true)) /\
     NoDup rows.*1 /\
     StronglySorted (not_older (fun d => default 0 (a_timestamp d))) rows) /\
  (forall e, alerts_query_fault be = Some e ->
     get_admin_sos_alerts be active w
     = (Ret (server_error "Failed to retrieve SOS alerts" e), w)).
Proof.
  split.
  - intros Hq. eexists. split; [|split; [|split]].
    + unfold get_admin_sos_alerts, getSOSAlerts. cbv zeta. cbn [ENABLE_SOS_ALERT_SNAPSHOT negb].
      run. rewrite Hq. cbv beta iota zeta. reflexivity.
    + intros id d. rewrite sort_by_perm, elem_of_map_to_list, map_lookup_filter_Some.
      cbn [fst snd]. rewrite bool_decide_eq_true. reflexivity.
    + rewrite sort_by_perm. apply NoDup_fst_map_to_list.
    + apply sort_by_desc_sorted.
  - intros e Hq. unfold get_admin_sos_alerts, getSOSAlerts. cbv zeta.
    cbn [ENABLE_SOS_ALERT_SNAPSHOT negb]. run. rewrite Hq. reflexivity.
Qed.

Lemma alert_listing_filters_only_on_true_witness :
  exists rows,
    get_admin_sos_alerts (Sample.backend None) (Some "true") Sample.three_rows
    = (Ret (respond 200
              [("success", JBool true);
               ("count", JNum (Z.of_nat (List.length rows)));
               ("activeOnly", JBool true);
               ("alerts", JArr (alert_json <$> rows));
               ("timestamp", JDate (now (Sample.backend None)))]), Sample.three_rows) /\
    ("B", Sample.alert_row "B" true 1700003000000) ∈ rows /\
    ("C", Sample.alert_row "C" false 1700000000000) ∉ rows.
Proof.
  destruct (alert_listing_filters_only_on_true (Sample.backend None) (Some "true")
              Sample.three_rows) as [Hok _].
  destruct (Hok eq_refl) as (rows & E & Hin & _).
  exists rows. split; [exact E|]. split.
  - apply Hin. split; [reflexivity|]. split; [eexists; reflexivity | reflexivity].
  - intros Hc. apply Hin in Hc as (_ & _ & Hc). specialize (Hc eq_refl). discriminate Hc.
Defined.

(** ** Who is on the user listing *)

Lemma user_rows_ids snapshot : (u_sender_id <$> user_rows snapshot) `sublist_of` snapshot.*1.
Proof.
  induction snapshot as [|[id d] l IH]; [constructor|].
  unfold user_rows in *. cbn [omap list_omap fst snd fmap list_fmap].
  destruct (Js.truthy (name <$> a_userInfo d) || Js.truthy (mobile_number <$> a_userInfo d)).
  - cbn. constructor. exact IH.
  - constructor. exact IH.
Qed.

Lemma List_filter_sublist {A : Type} (f : A -> bool) l : List.filter f l `sublist_of` l.
Proof.
  induction l as [|x l IH]; [constructor|]. cbn.
  destruct (f x); constructor; exact IH.
Qed.

Lemma merged_rows_ids blockedMap (rows : list UserRow) :
  u_sender_id <$> (merge_blocked blockedMap <$> rows) = u_sender_id <$> rows.
Proof.
  rewrite <- list_fmap_compose. apply list_fmap_ext. intros i r _. cbn.
  apply merge_blocked_sender.
Qed.

(** No sender is listed twice. *)
Lemma listing_rows_nodup env q restrict allowedDistricts w :
  NoDup (u_sender_id <$> listing_rows env q restrict allowedDistricts w).
Proof.
  unfold listing_rows. cbv zeta. rewrite sort_by_name_perm.
  set (snapshot := if restrict then _ else _).
  assert (Hsnap : NoDup snapshot.*1).
  { subst snapshot. destruct restrict; apply NoDup_fst_map_to_list. }
  assert (Hall : NoDup (u_sender_id <$> (merge_blocked
                   (filter (fun kv : string * BlockDoc => blocked kv.2 = true)
                      (blocked_users w)) <$> user_rows snapshot))).
  { rewrite merged_rows_ids. eapply sublist_NoDup; [exact Hsnap | apply user_rows_ids]. }
  destruct (Js.truthy (q_search q)); [|exact Hall].
  eapply sublist_NoDup; [exact Hall|]. apply fmap_sublist, List_filter_sublist.
Qed.

(** Without a search text, every stored row in scope that has a reporter is
    listed. *)
Lemma listing_rows_complete env q restrict allowedDistricts w id d :
  Js.truthy (q_search q) = false ->
  sos_alerts w !! id = Some d -> has_reporter d = true ->
  (restrict = true -> district_in allowedDistricts d = true) ->
  exists r, r ∈ listing_rows env q restrict allowedDistricts w /\ u_sender_id r = id.
Proof.
  intros Hs Hl Hrep Hscope. unfold listing_rows. cbv zeta. rewrite Hs.
  set (snapshot := if restrict then _ else _).
  assert (Hin : (id, d) ∈ snapshot).
  { subst snapshot. destruct restrict.
    - apply elem_of_map_to_list, map_lookup_filter_Some. split; [exact Hl|]. cbn. auto.
    - apply elem_of_map_to_list. exact Hl. }
  destruct (user_rows_complete snapshot id d Hin Hrep) as (r & Hr & Hid).
  eexists. split.
  - rewrite sort_by_name_perm. apply list_elem_of_fmap. exists r. split; [reflexivity | exact Hr].
  - rewrite merge_blocked_sender. exact Hid.
Qed.

(** A listed row carries a block exactly when its sender has a record with
    [blocked == true]. *)
Lemma listing_rows_block env q restrict allowedDistricts w r :
  r ∈ listing_rows env q restrict allowedDistricts w ->
  u_block r
  = (fun b => (blockedAt b, blockedBy b, reason b)) <$>
    filter (fun kv : string * BlockDoc => blocked kv.2 = true) (blocked_users w)
      !! u_sender_id r.
Proof.
  unfold listing_rows. cbv zeta. rewrite sort_by_name_perm. intros Hin.
  set (snapshot := if restrict then _ else _) in Hin.
  set (blockedMap := filter _ (blocked_users w)) in *.
  assert (Hin' : r ∈ merge_blocked blockedMap <$> user_rows snapshot).
  { destruct (Js.truthy (q_search q)); [|exact Hin].
    apply list_elem_of_In, filter_In in Hin as [Hin _]. apply list_elem_of_In. exact Hin. }
  apply list_elem_of_fmap in Hin' as (r0 & -> & Hin0).
  apply user_rows_spec in Hin0 as (id & d & _ & _ & _ & Hnone).
  rewrite merge_blocked_sender. unfold merge_blocked.
  destruct (blockedMap !! u_sender_id r0); [reflexivity | exact Hnone].
Qed.

(** X27: who is on the user listing. For a caller [GET /admin/users] serves,
    the rows behind the answer (its [total] is their number, its [users] a
    page of them) list no sender twice; a row is marked blocked exactly when
    its sender has a block record with [blocked == true]; and, when no search
    text is given, every stored alert row within the caller's scope that has a
    reporter name or mobile number is among them. *)
Theorem users_listing_lists_each_reporter_once env authorization q w isSuper districts :
  may_list env authorization w isSuper districts ->
  alerts_query_fault env = None -> blocked_query_fault env = None ->
  exists resp w1 rows total_pages,
    get_admin_users env authorization q w = (Ret resp, w1) /\
    json resp = JObj [("success", JBool true);
                      ("users", JArr (user_json <$> listing_page q rows));
                      ("total", JNum (Z.of_nat (List.length rows)));
                      ("page", JNum (int_or (q_page q) 1));
                      ("pageSize", JNum (int_or (q_pageSize q) 50));
                      ("totalPages", JNum total_pages);
                      ("timestamp", JDate (now env))] /\
    NoDup (u_sender_id <$> rows) /\
    (forall r, r ∈ rows ->
       (is_Some (u_block r) <->
        exists b, blocked_users w !! u_sender_id r = Some b /\ blocked b = true)) /\
    (Js.truthy (q_search q) = false ->
     forall id d,
       sos_alerts w !! id = Some d -> has_reporter d = true ->
       (isSuper = false -> districts <> [] -> district_in districts d = true) ->
       id ∈ u_sender_id <$> rows).
Proof.
  intros Hmay Hq Hb.
  destruct (served_listing env authorization q w isSuper districts Hmay Hq Hb)
    as (resp & w1 & E & _ & _ & _ & Hjson).
  eexists resp, w1, _, _. split; [exact E|]. split; [exact Hjson|].
  split; [apply listing_rows_nodup|]. split.
  - intros r Hr. rewrite (listing_rows_block _ _ _ _ _ _ Hr).
    rewrite fmap_is_Some. unfold is_Some. split.
    + intros (b & Hl). apply map_lookup_filter_Some in Hl as [Hl Hbl]. exists b. auto.
    + intros (b & Hl & Hbl). exists b. apply map_lookup_filter_Some. auto.
  - intros Hs id d Hl Hrep Hscope.
    destruct (listing_rows_complete env q (negb isSuper && (0 <? List.length districts)%nat)
                districts w id d Hs Hl Hrep) as (r & Hr & Hid).
    + intros Hres. apply andb_true_iff in Hres as [Hn Hlen].
      apply Hscope.
      * destruct isSuper; [discriminate Hn | reflexivity].
      * intros ->. discriminate Hlen.
    + apply list_elem_of_fmap. exists r. split; [symmetry; exact Hid | exact Hr].
Qed.

Lemma users_listing_lists_each_reporter_once_witness :
  exists resp w1 rows,
    get_admin_users Sample.calm (Some "Bearer super-token") Sample.first_page
      (Sample.two_districts None) = (Ret resp, w1) /\
    NoDup (u_sender_id <$> rows) /\
    "A" ∈ u_sender_id <$> rows /\ "B" ∈ u_sender_id <$> rows.
Proof.
  destruct (users_listing_lists_each_reporter_once Sample.calm (Some "Bearer super-token")
              Sample.first_page (Sample.two_districts None) true [])
    as (resp & w1 & rows & tp & E & _ & Hnd & _ & Hall).
  - exists (mkUser "uid-super" (Some "shamanthknr@gmail.com")).
    split; [vm_compute; reflexivity|]. left. repeat split.
  - reflexivity.
  - reflexivity.
  - exists resp, w1, rows. split; [exact E|]. split; [exact Hnd|]. split.
    + apply (Hall eq_refl "A" (Sample.row_in "A" "udupi" "Asha"));
        [reflexivity | reflexivity | discriminate].
    + apply (Hall eq_refl "B" (Sample.row_in "B" "mangalore" "Bala"));
        [reflexivity | reflexivity | discriminate].
Defined.

(** X28: the list of admins. A super-admin's [GET /admin/admins] is answered
    200 when the query goes through, and changes no collection or account;
    its [admins] are exactly the stored admin documents, deactivated ones
    included, each email once, none before one created later, and [count] is
    their number. *)
Theorem admin_listing_shows_every_document (be : Backend) authorization w u :
  authenticated be authorization = Some u -> isSuperAdmin (user_email u) = true ->
  admins_query_fault be = None ->
  exists w1 rows,
    get_admin_admins be authorization w
    = (Ret (respond 200
              [("success", JBool true);
               ("count", JNum (Z.of_nat (List.length rows)));
               ("admins", JArr (admin_json <$> rows));
               ("timestamp", JDate (now be))]), w1) /\
    same_data w1 w /\
    (forall e d, (e, d) ∈ rows <-> admins w !! e = Some d) /\
    NoDup rows.*1 /\
    StronglySorted (not_older createdAt) rows.
Proof.
  intros Ha Hs Hq. unfold get_admin_admins.
  destruct (super_admin_route be authorization (list_admins_handler be) w u Ha Hs)
    as (w1 & -> & Hd).
  assert (Hadm : admins w1 = admins w) by apply Hd.
  exists w1, (sort_by (desc_before createdAt) (map_to_list (admins w))).
  split; [|split; [exact Hd|split; [|split]]].
  - unfold list_admins_handler. run. rewrite Hq. cbv beta iota zeta. rewrite Hadm.
    reflexivity.
  - intros e d. rewrite sort_by_perm, elem_of_map_to_list. reflexivity.
  - rewrite sort_by_perm. apply NoDup_fst_map_to_list.
  - apply sort_by_desc_sorted.
Qed.

Lemma admin_listing_shows_every_document_witness :
  exists w1 rows,
    get_admin_admins (Sample.backend None) (Some "Bearer super-token")
      (Sample.two_districts (Some ["udupi"]))
    = (Ret (respond 200
              [("success", JBool true);
               ("count", JNum (Z.of_nat (List.length rows)));
               ("admins", JArr (admin_json <$> rows));
               ("timestamp", JDate (now (Sample.backend None)))]), w1) /\
    ("field.admin@example.org", Sample.field_admin (Some ["udupi"])) ∈ rows.
Proof.
  destruct (admin_listing_shows_every_document (Sample.backend None)
              (Some "Bearer super-token") (Sample.two_districts (Some ["udupi"]))
              (mkUser "uid-super" (Some "shamanthknr@gmail.com")))
    as (w1 & rows & E & _ & Hin & _).
  - vm_compute. reflexivity.
  - reflexivity.
  - reflexivity.
  - exists w1, rows. split; [exact E|]. apply Hin. reflexivity.
Defined.

(** ** The rows of the user listing, and its pages *)

(** The rows built from a snapshot are those its loop builds from each
    document. *)
Lemma user_rows_elem snapshot r0 :
  r0 ∈ user_rows snapshot <->
  exists id d, (id, d) ∈ snapshot /\ user_rows [(id, d)] = [r0].
Proof.
  unfold user_rows. rewrite list_elem_of_omap. split.
  - intros ([id d] & Hin & Hsome). exists id, d. split; [exact Hin|].
    cbn [omap list_omap]. rewrite Hsome. reflexivity.
  - intros (id & d & Hin & Hone). exists (id, d). split; [exact Hin|].
    cbn [omap list_omap] in Hone.
    destruct (if Js.truthy (name <$> a_userInfo (id, d).2)
                 || Js.truthy (mobile_number <$> a_userInfo (id, d).2)
              then _ else _) as [r|]; [|discriminate Hone].
    injection Hone as ->. reflexivity.
Qed.

(** The rows of a listing, one by one. *)
Lemma listing_rows_spec env q restrict allowedDistricts w r :
  r ∈ listing_rows env q restrict allowedDistricts w <->
  exists id d r0,
    sos_alerts w !! id = Some d /\
    (restrict = true -> district_in allowedDistricts d = true) /\
    user_rows [(id, d)] = [r0] /\
    r = merge_blocked (filter (fun kv : string * BlockDoc => blocked kv.2 = true)
                         (blocked_users w)) r0 /\
    (Js.truthy (q_search q) = true ->
     matches_search env (toLowerCase env (default "" (q_search q))) r = true).
Proof.
  unfold listing_rows. cbv zeta. rewrite sort_by_name_perm.
  set (snapshot := if restrict then _ else _).
  set (blockedMap := filter _ (blocked_users w)).
  assert (Hsnap : forall id d, (id, d) ∈ snapshot <->
            sos_alerts w !! id = Some d /\
            (restrict = true -> district_in allowedDistricts d = true)).
  { intros id d. subst snapshot. destruct restrict.
    - rewrite elem_of_map_to_list, map_lookup_filter_Some. cbn [fst snd]. tauto.
    - rewrite elem_of_map_to_list. split; [intros H; split; [exact H | discriminate] | tauto]. }
  assert (Hall : r ∈ merge_blocked blockedMap <$> user_rows snapshot <->
            exists id d r0, sos_alerts w !! id = Some d /\
              (restrict = true -> district_in allowedDistricts d = true) /\
              user_rows [(id, d)] = [r0] /\ r = merge_blocked blockedMap r0).
  { rewrite list_elem_of_fmap. split.
    - intros (r0 & -> & Hin). apply user_rows_elem in Hin as (id & d & Hin & Hone).
      apply Hsnap in Hin as [Hl Hs]. exists id, d, r0. auto.
    - intros (id & d & r0 & Hl & Hs & Hone & ->). exists r0. split; [reflexivity|].
      apply user_rows_elem. exists id, d. split; [apply Hsnap; auto | exact Hone]. }
  destruct (Js.truthy (q_search q)).
  - rewrite list_elem_of_In, filter_In, <- list_elem_of_In, Hall. split.
    + intros [(id & d & r0 & Hl & Hs & Hone & Hr) Hm]. exists id, d, r0. auto 10.
    + intros (id & d & r0 & Hl & Hs & Hone & Hr & Hm).
      split; [exists id, d, r0; auto | apply Hm; reflexivity].
  - rewrite Hall. split.
    + intros (id & d & r0 & Hl & Hs & Hone & Hr). exists id, d, r0.
      repeat (split; [assumption|]). discriminate.
    + intros (id & d & r0 & Hl & Hs & Hone & Hr & _). exists id, d, r0. auto.
Qed.

(** A window that starts inside or past the list. *)
Lemma slice_window {A : Type} (l : list A) start size :
  0 <= start -> 0 < size ->
  slice l start (start + size) = take (Z.to_nat size) (drop (Z.to_nat start) l).
Proof.
  intros Hstart Hpos. unfold slice.
  destruct (start <? 0) eqn:Es; [apply Z.ltb_lt in Es; lia|].
  destruct (start + size <? 0) eqn:Ee; [apply Z.ltb_lt in Ee; lia|].
  destruct (decide (Z.of_nat (List.length l) <= start)) as [Hpast|Hin].
  - rewrite !drop_ge by lia. rewrite !take_nil. reflexivity.
  - replace (Z.to_nat (Z.min start (Z.of_nat (List.length l)))) with (Z.to_nat start) by lia.
    destruct (decide (start + size <= Z.of_nat (List.length l))) as [Hfull|Hshort].
    + f_equal. lia.
    + rewrite !take_ge by (rewrite length_drop; lia). reflexivity.
Qed.

Lemma ceil_div_bounds a b :
  0 < b -> (ceil_div a b - 1) * b < a <= ceil_div a b * b.
Proof.
  intros Hb. unfold ceil_div.
  pose proof (Z.div_mod (- a) b ltac:(lia)) as Hdm.
  pose proof (Z.mod_pos_bound (- a) b Hb) as Hm. nia.
Qed.

(** X24: pagination. For a caller the listing serves there is one list of
    rows of which every answer to a query with the same search text shows a
    window. The list holds no sender twice, and a row is in it exactly when
    it is the row the handler builds for a stored document that has a
    reporter and lies within the caller's scope, with the sender's block
    record merged in, and matches the search text if there is one. Whatever
    the page, [total] is the number of rows; and for a positive page size
    [pageSize] and a page number [page >= 1], [users] are the rows from
    position [(page - 1) * pageSize] on, [pageSize] of them or as many as are
    left, and [totalPages] is the least number of such pages that holds all
    rows. *)
Theorem listing_page_is_bounded env authorization w isSuper districts search :
  may_list env authorization w isSuper districts ->
  alerts_query_fault env = None -> blocked_query_fault env = None ->
  exists rows,
    NoDup (u_sender_id <$> rows) /\
    (forall r, r ∈ rows <->
       exists id d r0,
         sos_alerts w !! id = Some d /\
         (isSuper = false -> districts <> [] -> district_in districts d = true) /\
         user_rows [(id, d)] = [r0] /\
         r = merge_blocked (filter (fun kv : string * BlockDoc => blocked kv.2 = true)
                              (blocked_users w)) r0 /\
         (Js.truthy search = true ->
          matches_search env (toLowerCase env (default "" search)) r = true)) /\
    forall q, q_search q = search ->
      exists resp w1 page total_pages,
        get_admin_users env authorization q w = (Ret resp, w1) /\
        json resp = JObj [("success", JBool true);
                          ("users", JArr (user_json <$> page));
                          ("total", JNum (Z.of_nat (List.length rows)));
                          ("page", JNum (int_or (q_page q) 1));
                          ("pageSize", JNum (int_or (q_pageSize q) 50));
                          ("totalPages", JNum total_pages);
                          ("timestamp", JDate (now env))] /\
        (0 < int_or (q_pageSize q) 50 ->
         Z.of_nat (List.length page) <= int_or (q_pageSize q) 50 /\
         (total_pages - 1) * int_or (q_pageSize q) 50 < Z.of_nat (List.length rows)
           <= total_pages * int_or (q_pageSize q) 50 /\
         (1 <= int_or (q_page q) 1 ->
          page = take (Z.to_nat (int_or (q_pageSize q) 50))
                   (drop (Z.to_nat ((int_or (q_page q) 1 - 1) * int_or (q_pageSize q) 50))
                      rows))).
Proof.
  intros Hmay Hq Hb.
  exists (listing_rows env (mkUsersQuery None None search)
            (negb isSuper && (0 <? List.length districts)%nat) districts w).
  split; [apply listing_rows_nodup|]. split.
  { intros r. rewrite listing_rows_spec. cbn [q_search].
    assert (Hres : negb isSuper && (0 <? List.length districts)%nat = true <->
                   isSuper = false /\ districts <> []).
    { destruct isSuper, districts; cbn; split; try tauto; try discriminate;
        try (intros [? ?]; congruence); intros _; split; [reflexivity | discriminate]. }
    split; intros (id & d & r0 & Hl & Hs & Hrest); exists id, d, r0;
      (split; [exact Hl|]); (split; [|exact Hrest]).
    - intros H1 H2. apply Hs, Hres. auto.
    - intros H. apply Hres in H as [H1 H2]. auto. }
  intros q Hsearch.
  destruct (served_listing env authorization q w isSuper districts Hmay Hq Hb)
    as (resp & w1 & E & _ & _ & _ & Hjson).
  assert (Hrows : listing_rows env q (negb isSuper && (0 <? List.length districts)%nat)
                    districts w
                  = listing_rows env (mkUsersQuery None None search)
                      (negb isSuper && (0 <? List.length districts)%nat) districts w).
  { unfold listing_rows. cbn [q_search]. rewrite Hsearch. reflexivity. }
  rewrite Hrows in Hjson.
  eexists resp, w1, _, _. split; [exact E|]. split; [exact Hjson|].
  intros Hpos. unfold listing_page. cbv zeta.
  split; [apply slice_length; exact Hpos|].
  split; [apply ceil_div_bounds; exact Hpos|].
  intros Hpage. apply slice_window; [nia | exact Hpos].
Qed.

Lemma listing_page_is_bounded_witness :
  exists rows resp w1,
    get_admin_users Sample.calm (Some "Bearer super-token")
      (mkUsersQuery (Some 2) (Some 1) None) (Sample.two_districts None) = (Ret resp, w1) /\
    json resp = JObj [("success", JBool true);
                      ("users", JArr (user_json <$> take 1 (drop 1 rows)));
                      ("total", JNum (Z.of_nat (List.length rows)));
                      ("page", JNum 2);
                      ("pageSize", JNum 1);
                      ("totalPages", JNum (Z.of_nat (List.length rows)));
                      ("timestamp", JDate (now Sample.calm))].
Proof.
  destruct (listing_page_is_bounded Sample.calm (Some "Bearer super-token")
              (Sample.two_districts None) true [] None)
    as (rows & _ & _ & Hpages).
  - exists (mkUser "uid-super" (Some "shamanthknr@gmail.com")).
    split; [vm_compute; reflexivity|]. left. repeat split.
  - reflexivity.
  - reflexivity.
  - destruct (Hpages (mkUsersQuery (Some 2) (Some 1) None) eq_refl)
      as (resp & w1 & page & tp & E & Hjson & Hwin).
    destruct (Hwin ltac:(reflexivity)) as (_ & Htp & Hpage).
    exists rows, resp, w1. split; [exact E|].
    rewrite Hjson, (Hpage ltac:(discriminate)).
    cbn [int_or q_page q_pageSize Z.eqb] in Htp |- *.
    replace tp with (Z.of_nat (List.length rows)) by lia. reflexivity.
Defined.


